(** * VMC96 K1 protocol layer: a shallow embedding of [vmc96api.c]

    The C functions of [vmc96api.c] are transcribed as Rocq functions over
    explicit session state.  Conventions:

    - [unsigned char] values are integers in [0, 256); every store of an
      [int] expression into an [unsigned char] object goes through
      [to_uchar].  Plain [char] has implementation-defined signedness, so
      the embedding carries it as the parameter [char_signed]
      ([true]: x86 / x86-64 System V, [false]: ARM EABI).
    - the fixed-size arrays of [struct vmc96_message_s] are lists whose
      length is the declared array size; an access outside an array has no
      defined behaviour in C and makes the embedded function return [None].
    - libftdi is an external collaborator, kept abstract behind the class
      [Ftdi]; [scripted] is a recording instance used to run exchanges. *)

From Stdlib Require Import ZArith List Bool Lia.
From Stdlib Require String.
Import ListNotations.
Import String.StringSyntax.
Open Scope Z_scope.

(* ********************************************************************* *)
(** ** C integer conversions                                               *)
(* ********************************************************************* *)

Definition is_uchar (z : Z) : Prop := 0 <= z < 256.

Definition to_uchar (z : Z) : Z := z mod 256.

Definition to_schar (z : Z) : Z := (z + 128) mod 256 - 128.

Definition to_char (char_signed : bool) (z : Z) : Z :=
  if char_signed then to_schar z else to_uchar z.

(* ********************************************************************* *)
(** ** Defines                                                             *)
(* ********************************************************************* *)

Definition VMC96_MESSAGE_STX : Z := 0x35.
Definition VMC96_MESSAGE_MAX_LEN : Z := 255.
Definition VMC96_MESSAGE_DATA_MAX_LEN : Z := 250.
Definition VMC96_MOTOR_MAX_CURRENT_READING_MA : Z := 500.

Definition VMC96_CONTROLLER_GLOBAL_BROADCAST : Z := 0x00.
Definition VMC96_CONTROLLER_RELAY_BASE_ADDRESS : Z := 0x26.
Definition VMC96_CONTROLLER_RELAY_1 : Z := 0x26.
Definition VMC96_CONTROLLER_RELAY_2 : Z := 0x27.
Definition VMC96_CONTROLLER_MOTOR_ARRAY : Z := 0x30.

Definition VMC96_COMMAND_SIMPLE_PING : Z := 0x00.
Definition VMC96_COMMAND_GLOBAL_RESET : Z := 0x01.
Definition VMC96_COMMAND_KERNEL_VERSION : Z := 0x02.
Definition VMC96_COMMAND_RESET : Z := 0x05.
Definition VMC96_COMMAND_MOTOR_STATUS_REQUEST : Z := 0x10.
Definition VMC96_COMMAND_MOTOR_STOP_ALL : Z := 0x12.
Definition VMC96_COMMAND_MOTOR_RUN : Z := 0x13.
Definition VMC96_COMMAND_MOTOR_OPTO_LINE_STATUS : Z := 0x15.
Definition VMC96_COMMAND_RELAY_FUNCTION : Z := 0x11.

(** The return codes.  Their numeric values live in [vmc96.h]; the code
    only ever compares them with each other, so an enumeration is enough.
    The constructors are the cases of [vmc96_get_error_code_string]. *)
Inductive vmc96_code : Type :=
  | VMC96_SUCCESS
  | VMC96_ERROR_OUT_OF_MEMORY
  | VMC96_ERROR_FTDI_INITIALIZE
  | VMC96_ERROR_FTDI_SET_INTERFACE
  | VMC96_ERROR_FTDI_OPEN_USB_DEVICE
  | VMC96_ERROR_FTDI_RESET_USB
  | VMC96_ERROR_FTDI_SET_BAUDRATE
  | VMC96_ERROR_FTDI_SET_LINE_PROPS
  | VMC96_ERROR_FTDI_SET_NO_FLOW
  | VMC96_ERROR_FTDI_WRITE_DATA
  | VMC96_ERROR_FTDI_READ_DATA
  | VMC96_ERROR_FTDI_PURGE_BUFFERS
  | VMC96_ERROR_RESPONSE_INVALID_CHECKSUM
  | VMC96_ERROR_RESPONSE_NEGATIVE_ACK
  | VMC96_ERROR_RESPONSE_MALFORMED
  | VMC96_ERROR_RESPONSE_INVALID_SOURCE
  | VMC96_ERROR_RESPONSE_INVALID_LENGTH
  | VMC96_ERROR_INVALID_MOTOR_COORDINATES.

Definition is_success (c : vmc96_code) : bool :=
  match c with VMC96_SUCCESS => true | _ => false end.

(* ********************************************************************* *)
(** ** Helper macros                                                       *)
(* ********************************************************************* *)

Definition VMC96_GET_MOTOR_ID (_row _col : Z) : Z :=
  Z.shiftl (_row + 1) 4 + (_col + 1).

Definition VMC96_GET_MOTOR_ROW (_mid : Z) : Z :=
  Z.shiftr (Z.land _mid 0xF0) 4 - 1.

Definition VMC96_GET_MOTOR_COL (_mid : Z) : Z :=
  Z.land _mid 0x0F - 1.

(** Both operands are non-negative [int]s at every use, where C's
    truncating division is [Z.quot]. *)
Definition VMC96_GET_MOTOR_CURRENT_MA (_val : Z) : Z :=
  Z.quot (VMC96_MOTOR_MAX_CURRENT_READING_MA * _val) 255.

(** [VMC96_MOTOR_ARRAY_ROWS_COUNT] and [VMC96_MOTOR_ARRAY_COLUMNS_COUNT] are
    defined in [vmc96.h]; the macro takes them as parameters here. *)
Definition VMC96_VALIDATE_MOTOR_COORDINATE (ROWS COLS _row _col : Z) : bool :=
  (_row <? ROWS) && (_col <? COLS).

(* ********************************************************************* *)
(** ** Arrays and the undefined-behaviour monad                            *)
(* ********************************************************************* *)

Definition bind {A B : Type} (m : option A) (k : A -> option B) : option B :=
  match m with
  | Some a => k a
  | None => None
  end.

Notation "x <- m ;; k" := (bind m (fun x => k))
  (at level 61, m at next level, right associativity).

Definition zlength {A : Type} (a : list A) : Z := Z.of_nat (length a).

(** [a[i]] as an rvalue. *)
Definition array_get {A : Type} (a : list A) (i : Z) : option A :=
  if (0 <=? i) && (i <? zlength a) then nth_error a (Z.to_nat i) else None.

(** [a[i] = v]. *)
Definition array_set {A : Type} (a : list A) (i : Z) (v : A) : option (list A) :=
  if (0 <=? i) && (i <? zlength a)
  then Some (firstn (Z.to_nat i) a ++ v :: skipn (Z.to_nat (i + 1)) a)
  else None.

(** [memcpy( &dst[doff], &src[soff], n )] for two distinct arrays. *)
Definition memcpy {A : Type} (dst : list A) (doff : Z) (src : list A) (soff n : Z)
  : option (list A) :=
  if (0 <=? doff) && (0 <=? soff) && (0 <=? n)
     && (doff + n <=? zlength dst) && (soff + n <=? zlength src)
  then Some (firstn (Z.to_nat doff) dst
             ++ firstn (Z.to_nat n) (skipn (Z.to_nat soff) src)
             ++ skipn (Z.to_nat (doff + n)) dst)
  else None.

(** [memset( dst, v, n )]. *)
Definition memset {A : Type} (dst : list A) (v : A) (n : Z) : option (list A) :=
  if (0 <=? n) && (n <=? zlength dst)
  then Some (repeat v (Z.to_nat n) ++ skipn (Z.to_nat n) dst)
  else None.

(* ********************************************************************* *)
(** ** Structs                                                             *)
(* ********************************************************************* *)

Record vmc96_message_t : Type := mk_message {
  id_controller : Z;
  command : Z;
  data : list Z;          (* unsigned char data[ 250 ] *)
  data_length : Z;
  raw : list Z;           (* unsigned char raw[ 255 ] *)
  raw_length : Z
}.

(** [struct VMC96_s]; [ftdi_version] is written once by [vmc96_initialize]
    and never read by the protocol layer, it is left out. *)
Record VMC96_t (ctx : Type) : Type := mk_vmc96 {
  ftdi : ctx;
  message : vmc96_message_t;
  response : vmc96_message_t
}.

Arguments mk_vmc96 {ctx} _ _ _.
Arguments ftdi {ctx} _.
Arguments message {ctx} _.
Arguments response {ctx} _.

Definition set_message {ctx} (v : VMC96_t ctx) (m : vmc96_message_t) : VMC96_t ctx :=
  mk_vmc96 (ftdi v) m (response v).

Definition set_response {ctx} (v : VMC96_t ctx) (m : vmc96_message_t) : VMC96_t ctx :=
  mk_vmc96 (ftdi v) (message v) m.

Definition set_ftdi {ctx} (v : VMC96_t ctx) (c : ctx) : VMC96_t ctx :=
  mk_vmc96 c (message v) (response v).

(** The two arrays of a message have their declared sizes. *)
Definition message_sized (m : vmc96_message_t) : Prop :=
  zlength (data m) = VMC96_MESSAGE_DATA_MAX_LEN /\
  zlength (raw m) = VMC96_MESSAGE_MAX_LEN.

(* ********************************************************************* *)
(** ** Message control functions                                           *)
(* ********************************************************************* *)

(** The body of the [for] loop of [vmc96_calculate_checksum]: [sum ^= buf[i]]
    with [sum] a plain [char]. *)
Fixpoint checksum_loop (char_signed : bool) (sum : Z) (bytes : list Z) : Z :=
  match bytes with
  | [] => sum
  | b :: rest => checksum_loop char_signed (to_char char_signed (Z.lxor sum b)) rest
  end.

(** [buflen] is a [size_t]: a negative [int] argument converts to a huge
    length and runs off the buffer. *)
Definition vmc96_calculate_checksum (char_signed : bool) (buf : list Z) (buflen : Z)
  : option Z :=
  if (0 <=? buflen) && (buflen <=? zlength buf)
  then Some (checksum_loop char_signed 0 (firstn (Z.to_nat buflen) buf))
  else None.

Definition vmc96_prepare_raw_message {ctx} (char_signed : bool) (vmc96 : VMC96_t ctx)
  : option (vmc96_code * VMC96_t ctx) :=
  let m := message vmc96 in
  let rl := to_uchar (data_length m + 5) in
  r0 <- array_set (raw m) 0 VMC96_MESSAGE_STX ;;
  r1 <- array_set r0 1 (id_controller m) ;;
  r2 <- array_set r1 2 rl ;;
  r3 <- array_set r2 3 (command m) ;;
  r4 <- (if 0 <? data_length m
         then memcpy r3 4 (data m) 0 (data_length m)
         else Some r3) ;;
  sum <- vmc96_calculate_checksum char_signed r4 (rl - 1) ;;
  r5 <- array_set r4 (rl - 1) (to_uchar sum) ;;
  Some (VMC96_SUCCESS,
        set_message vmc96
          (mk_message (id_controller m) (command m) (data m) (data_length m) r5 rl)).

Definition vmc96_parse_raw_response {ctx} (char_signed : bool) (vmc96 : VMC96_t ctx)
  : option (vmc96_code * VMC96_t ctx) :=
  let q := message vmc96 in
  let p := response vmc96 in
  if id_controller q =? VMC96_CONTROLLER_GLOBAL_BROADCAST then
    if raw_length p <=? 0 then Some (VMC96_ERROR_RESPONSE_INVALID_LENGTH, vmc96)
    else
      d <- memcpy (data p) 0 (raw p) 0 (raw_length p) ;;
      Some (VMC96_SUCCESS,
            set_response vmc96
              (mk_message (id_controller p) (command p) d (raw_length p)
                          (raw p) (raw_length p)))
  else if (id_controller q =? VMC96_CONTROLLER_RELAY_1)
          || (id_controller q =? VMC96_CONTROLLER_RELAY_2)
          || (id_controller q =? VMC96_CONTROLLER_MOTOR_ARRAY) then
    if raw_length p <? 5 then Some (VMC96_ERROR_RESPONSE_INVALID_LENGTH, vmc96)
    else
      b1 <- array_get (raw p) 1 ;;
      b2 <- array_get (raw p) 2 ;;
      let dl := to_uchar (b2 - 4) in
      d <- memcpy (data p) 0 (raw p) 3 dl ;;
      let vmc96' :=
        set_response vmc96 (mk_message b1 (command p) d dl (raw p) (raw_length p)) in
      b0 <- array_get (raw p) 0 ;;
      if negb (b0 =? VMC96_MESSAGE_STX)
      then Some (VMC96_ERROR_RESPONSE_MALFORMED, vmc96')
      else if negb (b1 =? id_controller q)
      then Some (VMC96_ERROR_RESPONSE_INVALID_SOURCE, vmc96')
      else if negb (b2 =? raw_length p)
      then Some (VMC96_ERROR_RESPONSE_INVALID_LENGTH, vmc96')
      else
        last <- array_get (raw p) (raw_length p - 1) ;;
        sum <- vmc96_calculate_checksum char_signed (raw p) (raw_length p - 1) ;;
        if negb (last =? sum)
        then Some (VMC96_ERROR_RESPONSE_INVALID_CHECKSUM, vmc96')
        else Some (VMC96_SUCCESS, vmc96')
  else Some (VMC96_SUCCESS, vmc96).

(* ********************************************************************* *)
(** ** The libftdi boundary                                                *)
(* ********************************************************************* *)

(** What a call of [ftdi_read_data] did.  It is handed [buf] and may have
    stored bytes at its start before an error made it return a negative
    code; on success its return value is the number of bytes stored. *)
Inductive ftdi_read_result : Type :=
  | ReadFailed (stored : list Z)
  | ReadDone (bytes : list Z).

(** The three libftdi calls of [vmc96_send_raw_message].  A call returns
    its result together with the next state of the library and the device
    behind it.  [ftdi_write_data] receives the [size] bytes it may read
    from [buf]. *)
Class Ftdi (ctx : Type) : Type := {
  ftdi_usb_purge_buffers : ctx -> Z * ctx;
  ftdi_write_data : ctx -> list Z -> Z * ctx;
  ftdi_read_data : ctx -> Z -> ftdi_read_result * ctx
}.

(** A recording transport: fixed answers, and the list of calls made.  Its
    read fails, for the answer [None], without having stored anything. *)
Inductive ftdi_call : Type :=
  | CallPurge
  | CallWrite (frame : list Z)
  | CallRead (size : Z).

Record scripted : Type := mk_scripted {
  purge_answer : Z;
  write_answer : Z;
  read_answer : option (list Z);
  calls : list ftdi_call
}.

Definition record_call (c : scripted) (e : ftdi_call) : scripted :=
  mk_scripted (purge_answer c) (write_answer c) (read_answer c) (calls c ++ [e]).

#[export] Instance scripted_ftdi : Ftdi scripted := {|
  ftdi_usb_purge_buffers := fun c => (purge_answer c, record_call c CallPurge);
  ftdi_write_data := fun c frame => (write_answer c, record_call c (CallWrite frame));
  ftdi_read_data := fun c size =>
    (match read_answer c with
     | Some bytes => ReadDone bytes
     | None => ReadFailed []
     end,
     record_call c (CallRead size))
|}.

(** A transport whose read fails after it has stored the bytes DE AD. *)
#[export] Instance interrupted_read : Ftdi unit := {|
  ftdi_usb_purge_buffers := fun c => (0, c);
  ftdi_write_data := fun c frame => (0, c);
  ftdi_read_data := fun c size => (ReadFailed [0xDE; 0xAD], c)
|}.

Section Dispatcher.

Context {ctx : Type} `{Ftdi ctx}.

(** Signedness of plain [char] on the compilation target. *)
Variable char_signed : bool.

(** The [usleep] between write and read has no effect on the session and
    is not modelled.  libftdi stores at most [size] bytes; [raw_length] is
    assigned only after the test of the return code. *)
Definition vmc96_send_raw_message (vmc96 : VMC96_t ctx)
  : option (vmc96_code * VMC96_t ctx) :=
  let (ret, c1) := ftdi_usb_purge_buffers (ftdi vmc96) in
  if ret <? 0 then Some (VMC96_ERROR_FTDI_PURGE_BUFFERS, set_ftdi vmc96 c1)
  else
    let m := message vmc96 in
    if (0 <=? raw_length m) && (raw_length m <=? zlength (raw m)) then
      let (ret, c2) := ftdi_write_data c1 (firstn (Z.to_nat (raw_length m)) (raw m)) in
      if ret <? 0 then Some (VMC96_ERROR_FTDI_WRITE_DATA, set_ftdi vmc96 c2)
      else
        let (answer, c3) := ftdi_read_data c2 VMC96_MESSAGE_MAX_LEN in
        let p := response vmc96 in
        match answer with
        | ReadFailed stored =>
            let got := firstn (Z.to_nat VMC96_MESSAGE_MAX_LEN) stored in
            r <- memcpy (raw p) 0 got 0 (zlength got) ;;
            Some (VMC96_ERROR_FTDI_READ_DATA,
                  mk_vmc96 c3 m
                    (mk_message (id_controller p) (command p) (data p) (data_length p)
                                r (raw_length p)))
        | ReadDone bytes =>
            let got := firstn (Z.to_nat VMC96_MESSAGE_MAX_LEN) bytes in
            r <- memcpy (raw p) 0 got 0 (zlength got) ;;
            Some (VMC96_SUCCESS,
                  mk_vmc96 c3 m
                    (mk_message (id_controller p) (command p) (data p) (data_length p)
                                r (to_uchar (zlength got))))
        end
    else None.

(** [data] is [None] for a [NULL] pointer. *)
Definition vmc96_send_message_ex (vmc96 : VMC96_t ctx) (id_cntlr cmd : Z)
    (data_arg : option (list Z)) (datalen : Z)
  : option (vmc96_code * VMC96_t ctx) :=
  let m := message vmc96 in
  filled <-
    match data_arg with
    | Some src =>
        if 0 <? datalen
        then d <- memcpy (data m) 0 src 0 datalen ;; Some (d, datalen)
        else d <- memset (data m) 0 VMC96_MESSAGE_DATA_MAX_LEN ;; Some (d, 0)
    | None => d <- memset (data m) 0 VMC96_MESSAGE_DATA_MAX_LEN ;; Some (d, 0)
    end ;;
  let vmc96a :=
    set_message vmc96
      (mk_message id_cntlr cmd (fst filled) (snd filled) (raw m) (raw_length m)) in
  prepared <- vmc96_prepare_raw_message char_signed vmc96a ;;
  if negb (is_success (fst prepared)) then Some prepared
  else
    sent <- vmc96_send_raw_message (snd prepared) ;;
    if negb (is_success (fst sent)) then Some sent
    else vmc96_parse_raw_response char_signed (snd sent).

Definition vmc96_send_message (vmc96 : VMC96_t ctx) (id_cntlr cmd : Z)
  : option (vmc96_code * VMC96_t ctx) :=
  vmc96_send_message_ex vmc96 id_cntlr cmd None 0.

(* ********************************************************************* *)
(** ** General purpose relays                                              *)
(* ********************************************************************* *)

(** [id] is an [unsigned char]; the sum is an [int] converted to the
    [unsigned char] parameter [id_cntlr]. *)
Definition vmc96_relay_ping (vmc96 : VMC96_t ctx) (id : Z) :=
  vmc96_send_message vmc96
    (to_uchar (VMC96_CONTROLLER_RELAY_BASE_ADDRESS + id)) VMC96_COMMAND_SIMPLE_PING.

(** The tail shared, line for line, by [vmc96_relay_get_version] and
    [vmc96_motor_get_version].  [version] is the caller's buffer. *)
Definition copy_version (p : vmc96_message_t) (version : list Z) : option (list Z) :=
  v0 <- array_set version 0 0 ;;
  if 0 <? data_length p then
    v1 <- memcpy v0 0 (data p) 1 (data_length p - 1) ;;
    array_set v1 (data_length p - 1) 0
  else Some v0.

Definition vmc96_relay_get_version (vmc96 : VMC96_t ctx) (id : Z) (version : list Z)
  : option (vmc96_code * VMC96_t ctx * list Z) :=
  r <- vmc96_send_message vmc96
         (to_uchar (VMC96_CONTROLLER_RELAY_BASE_ADDRESS + id))
         VMC96_COMMAND_KERNEL_VERSION ;;
  if negb (is_success (fst r)) then Some (fst r, snd r, version)
  else
    version' <- copy_version (response (snd r)) version ;;
    Some (VMC96_SUCCESS, snd r, version').

Definition vmc96_relay_reset (vmc96 : VMC96_t ctx) (id : Z) :=
  vmc96_send_message vmc96
    (to_uchar (VMC96_CONTROLLER_RELAY_BASE_ADDRESS + id)) VMC96_COMMAND_RESET.

Definition vmc96_relay_control (vmc96 : VMC96_t ctx) (id : Z) (state : bool) :=
  let data_arg := if state then 1 else 0 in
  vmc96_send_message_ex vmc96
    (to_uchar (VMC96_CONTROLLER_RELAY_BASE_ADDRESS + id))
    VMC96_COMMAND_RELAY_FUNCTION (Some [data_arg]) 1.

End Dispatcher.

(* ********************************************************************* *)
(** ** Motor array                                                         *)
(* ********************************************************************* *)

(** Modelled from the spec: [VMC96_motor_t], declared in [vmc96.h].  The
    data model gives a motor position as [{ row: integer, col: integer }]. *)
Record VMC96_motor_t : Type := mk_motor {
  row : Z;
  col : Z
}.

(** Modelled from the spec: [VMC96_motor_array_status_t], declared in
    [vmc96.h].  The data model gives [{ currentMilliamps: integer,
    activeMotors: ordered sequence of {row, col} }]; the code reaches them
    as [current_ma], [active_count] and the array [motors].  The list
    [motors] has the length of the declared array, which the header fixes;
    the active motors are its first [active_count] entries. *)
Record VMC96_motor_array_status_t : Type := mk_status {
  current_ma : Z;
  active_count : Z;
  motors : list VMC96_motor_t
}.

(** [memset( status, 0, sizeof(VMC96_motor_array_status_t) )]. *)
Definition zero_status (status : VMC96_motor_array_status_t) : VMC96_motor_array_status_t :=
  mk_status 0 0 (repeat (mk_motor 0 0) (length (motors status))).

Definition active_motors (status : VMC96_motor_array_status_t) : list VMC96_motor_t :=
  firstn (Z.to_nat (active_count status)) (motors status).

Definition decode_motor (_mid : Z) : VMC96_motor_t :=
  mk_motor (VMC96_GET_MOTOR_ROW _mid) (VMC96_GET_MOTOR_COL _mid).

(** The [for] loop of [vmc96_motor_get_status], [n] iterations from [i]. *)
Fixpoint status_loop (n : nat) (i : Z) (d : list Z) (ms : list VMC96_motor_t)
  : option (list VMC96_motor_t) :=
  match n with
  | O => Some ms
  | S n' =>
      b <- array_get d (i + 2) ;;
      ms' <- array_set ms i (decode_motor b) ;;
      status_loop n' (i + 1) d ms'
  end.

Section MotorArray.

Context {ctx : Type} `{Ftdi ctx}.

Variable char_signed : bool.

(** [VMC96_MOTOR_ARRAY_ROWS_COUNT] and [VMC96_MOTOR_ARRAY_COLUMNS_COUNT],
    from the header. *)
Variables ROWS COLS : Z.

Definition vmc96_motor_ping (vmc96 : VMC96_t ctx) :=
  vmc96_send_message char_signed vmc96
    VMC96_CONTROLLER_MOTOR_ARRAY VMC96_COMMAND_SIMPLE_PING.

Definition vmc96_motor_get_version (vmc96 : VMC96_t ctx) (version : list Z)
  : option (vmc96_code * VMC96_t ctx * list Z) :=
  r <- vmc96_send_message char_signed vmc96
         VMC96_CONTROLLER_MOTOR_ARRAY VMC96_COMMAND_KERNEL_VERSION ;;
  if negb (is_success (fst r)) then Some (fst r, snd r, version)
  else
    version' <- copy_version (response (snd r)) version ;;
    Some (VMC96_SUCCESS, snd r, version').

Definition vmc96_motor_reset (vmc96 : VMC96_t ctx) :=
  vmc96_send_message char_signed vmc96
    VMC96_CONTROLLER_MOTOR_ARRAY VMC96_COMMAND_RESET.

Definition vmc96_motor_get_status (vmc96 : VMC96_t ctx)
    (status : VMC96_motor_array_status_t)
  : option (vmc96_code * VMC96_t ctx * VMC96_motor_array_status_t) :=
  r <- vmc96_send_message char_signed vmc96
         VMC96_CONTROLLER_MOTOR_ARRAY VMC96_COMMAND_MOTOR_STATUS_REQUEST ;;
  if negb (is_success (fst r)) then Some (fst r, snd r, status)
  else
    let p := response (snd r) in
    let status0 := zero_status status in
    if 2 <=? data_length p then
      d0 <- array_get (data p) 0 ;;
      if negb (d0 =? VMC96_COMMAND_MOTOR_STATUS_REQUEST)
      then Some (VMC96_ERROR_RESPONSE_INVALID_SOURCE, snd r, status0)
      else
        d1 <- array_get (data p) 1 ;;
        ms <- status_loop (Z.to_nat (data_length p - 2)) 0 (data p) (motors status0) ;;
        Some (VMC96_SUCCESS, snd r,
              mk_status (VMC96_GET_MOTOR_CURRENT_MA d1) (data_length p - 2) ms)
    else Some (VMC96_SUCCESS, snd r, status0).

Definition vmc96_motor_stop_all (vmc96 : VMC96_t ctx) :=
  vmc96_send_message char_signed vmc96
    VMC96_CONTROLLER_MOTOR_ARRAY VMC96_COMMAND_MOTOR_STOP_ALL.

Definition vmc96_motor_run (vmc96 : VMC96_t ctx) (row col : Z)
  : option (vmc96_code * VMC96_t ctx) :=
  let data_arg := to_uchar (VMC96_GET_MOTOR_ID row col) in
  if negb (VMC96_VALIDATE_MOTOR_COORDINATE ROWS COLS row col)
  then Some (VMC96_ERROR_INVALID_MOTOR_COORDINATES, vmc96)
  else vmc96_send_message_ex char_signed vmc96
         VMC96_CONTROLLER_MOTOR_ARRAY VMC96_COMMAND_MOTOR_RUN (Some [data_arg]) 1.

Definition vmc96_motor_pair_run (vmc96 : VMC96_t ctx) (row col1 col2 : Z)
  : option (vmc96_code * VMC96_t ctx) :=
  let data_arg := [ to_uchar (VMC96_GET_MOTOR_ID row col1);
                    to_uchar (VMC96_GET_MOTOR_ID row col2) ] in
  if negb (VMC96_VALIDATE_MOTOR_COORDINATE ROWS COLS row col1)
     || negb (VMC96_VALIDATE_MOTOR_COORDINATE ROWS COLS row col2)
  then Some (VMC96_ERROR_INVALID_MOTOR_COORDINATES, vmc96)
  else vmc96_send_message_ex char_signed vmc96
         VMC96_CONTROLLER_MOTOR_ARRAY VMC96_COMMAND_MOTOR_RUN (Some data_arg) 2.

(** [status] points to a [uint32_t], kept here as its four bytes in memory
    order, which is what [memcpy] fills. *)
Definition vmc96_motor_opto_line_status (vmc96 : VMC96_t ctx) (status : list Z)
  : option (vmc96_code * VMC96_t ctx * list Z) :=
  r <- vmc96_send_message char_signed vmc96
         VMC96_CONTROLLER_MOTOR_ARRAY VMC96_COMMAND_MOTOR_OPTO_LINE_STATUS ;;
  if negb (is_success (fst r)) then Some (fst r, snd r, status)
  else
    let p := response (snd r) in
    status0 <- memset status 0 4 ;;
    if data_length p =? 5
    then status1 <- memcpy status0 0 (data p) 1 (data_length p - 1) ;;
         Some (VMC96_SUCCESS, snd r, status1)
    else Some (VMC96_SUCCESS, snd r, status0).

(* ********************************************************************* *)
(** ** Global commands                                                     *)
(* ********************************************************************* *)

Definition vmc96_global_reset (vmc96 : VMC96_t ctx) :=
  vmc96_send_message_ex char_signed vmc96
    VMC96_CONTROLLER_GLOBAL_BROADCAST VMC96_COMMAND_GLOBAL_RESET (Some [0xFF]) 1.

End MotorArray.

(* ********************************************************************* *)
(** ** Reference notions the statements are phrased with                   *)
(* ********************************************************************* *)

(** XOR of a sequence of bytes, as a plain fold. *)
Definition xor_all (bytes : list Z) : Z := fold_left Z.lxor bytes 0.

(** The addresses [vmc96_parse_raw_response] validates as a framed reply. *)
Definition addressed (a : Z) : Prop :=
  a = VMC96_CONTROLLER_RELAY_1 \/ a = VMC96_CONTROLLER_RELAY_2
  \/ a = VMC96_CONTROLLER_MOTOR_ARRAY.

(** The first [raw_length] bytes of a raw buffer: the frame on the wire. *)
Definition frame_of (m : vmc96_message_t) : list Z :=
  firstn (Z.to_nat (raw_length m)) (raw m).

(** The first [data_length] bytes of [data]: the payload. *)
Definition payload_of (m : vmc96_message_t) : list Z :=
  firstn (Z.to_nat (data_length m)) (data m).

(** A zero-filled message with arrays of the declared sizes, as left by
    the [calloc] of [vmc96_initialize]. *)
Definition blank_message : vmc96_message_t :=
  mk_message 0 0 (repeat 0 250) 0 (repeat 0 255) 0.

(** A session whose response buffer holds the received bytes [bytes], for
    a request that went to [target]. *)
Definition received {ctx} (c : ctx) (target : Z) (bytes : list Z) : VMC96_t ctx :=
  mk_vmc96 c
    (mk_message target 0 (repeat 0 250) 0 (repeat 0 255) 0)
    (mk_message 0 0 (repeat 0 250) 0
       (bytes ++ repeat 0 (255 - length bytes)) (zlength bytes)).

(** A fresh session over the recording transport. *)
Definition scripted_session (purge write : Z) (answer : option (list Z))
  : VMC96_t scripted :=
  mk_vmc96 (mk_scripted purge write answer []) blank_message blank_message.

(** The response part of the session once the addressed branch has filled
    in [id_controller], [data_length] and [data]. *)
Definition parsed_response (p : vmc96_message_t) : vmc96_message_t :=
  let dl := to_uchar (nth 2 (raw p) 0 - 4) in
  mk_message (nth 1 (raw p) 0) (command p)
    (firstn (Z.to_nat dl) (skipn 3 (raw p)) ++ skipn (Z.to_nat dl) (data p))
    dl (raw p) (raw_length p).

(** The chain of checks of the addressed branch, in source order. *)
Definition addressed_code (char_signed : bool) (target : Z) (p : vmc96_message_t)
  : vmc96_code :=
  if negb (nth 0 (raw p) 0 =? VMC96_MESSAGE_STX)
  then VMC96_ERROR_RESPONSE_MALFORMED
  else if negb (nth 1 (raw p) 0 =? target)
  then VMC96_ERROR_RESPONSE_INVALID_SOURCE
  else if negb (nth 2 (raw p) 0 =? raw_length p)
  then VMC96_ERROR_RESPONSE_INVALID_LENGTH
  else if negb (nth (Z.to_nat (raw_length p - 1)) (raw p) 0
                =? checksum_loop char_signed 0
                     (firstn (Z.to_nat (raw_length p - 1)) (raw p)))
  then VMC96_ERROR_RESPONSE_INVALID_CHECKSUM
  else VMC96_SUCCESS.

(** The four header bytes of an outgoing frame. *)
Definition frame_header (m : vmc96_message_t) : list Z :=
  [VMC96_MESSAGE_STX; id_controller m; data_length m + 5; command m].

(** The targeted address is none of those the validator knows. *)
Definition unlisted (a : Z) : Prop :=
  a <> 0x00 /\ a <> 0x26 /\ a <> 0x27 /\ a <> 0x30.

(* ********************************************************************* *)
(** ** Sessions used in the concrete runs                                  *)
(* ********************************************************************* *)

(** The five-byte reply 35 30 05 80 80 to a motor-array request. *)
Definition high_checksum_reply : VMC96_t unit :=
  received tt 0x30 [0x35; 0x30; 0x05; 0x80; 0x80].

(** A reply that fills the whole 255-byte read, with a correct checksum. *)
Definition full_length_frame : list Z :=
  [0x35; 0x30; 0xFF] ++ repeat 0 251 ++ [0xFA].

(** Four bytes received for a motor-array request, the first one 0x00. *)
Definition short_bad_start : VMC96_t unit :=
  received tt 0x30 [0x00; 0x30; 0x04; 0x34].

(** Five bytes received, declared length nine, first byte 0x00. *)
Definition mismatch_bad_start : VMC96_t unit :=
  received tt 0x30 [0x00; 0x30; 0x09; 0x00; 0x39].

(** Five bytes received, declared length nine, echoed address 0x26 for a
    request to 0x30. *)
Definition mismatch_bad_source : VMC96_t unit :=
  received tt 0x30 [0x35; 0x26; 0x09; 0x00; 0x1A].

(** Five bytes received, declared length nine, good start and address. *)
Definition mismatch_only : VMC96_t unit :=
  received tt 0x30 [0x35; 0x30; 0x09; 0x00; 0x0C].

(** Five bytes received with a good length byte, first byte 0x00. *)
Definition bad_start_only : VMC96_t unit :=
  received tt 0x30 [0x00; 0x30; 0x05; 0x00; 0x35].


(** The motor array answers 35 30 06 00 00 03: well formed, payload 00 00. *)
Definition foreign_status_reply : VMC96_t scripted :=
  scripted_session 0 0 (Some [0x35; 0x30; 0x06; 0x00; 0x00; 0x03]).

(** The motor array answers with the payload of scenario 3. *)
Definition scenario_status_reply : VMC96_t scripted :=
  scripted_session 0 0 (Some [0x35; 0x30; 0x08; 0x10; 0x80; 0x11; 0x22; 0xAE]).

(** libftdi refuses to purge its buffers. *)
Definition purge_failure : VMC96_t scripted :=
  scripted_session (-1) 0 None.

(** A caller's status struct with earlier readings in it. *)
Definition stale_status : VMC96_motor_array_status_t :=
  mk_status 250 1 [mk_motor 2 3; mk_motor 4 5].

(** The request part of a session about to send motor-run for (0,0). *)
Definition motor_run_request : VMC96_t unit :=
  mk_vmc96 tt
    (mk_message 0x30 0x13 (0x11 :: repeat 0 249) 1 (repeat 0 255) 0)
    blank_message.

(** The session after an exchange, or the session itself when the
    exchange has no defined behaviour. *)
Definition session_after {ctx : Type} (r : option (vmc96_code * VMC96_t ctx))
    (otherwise : VMC96_t ctx) : VMC96_t ctx :=
  match r with
  | Some (_, v) => v
  | None => otherwise
  end.

(* ********************************************************************* *)
(** ** Error control                                                       *)
(* ********************************************************************* *)

Open Scope string_scope.

(** [cod] is an [int]; the case labels are the enumerators of the header,
    which C requires to be pairwise distinct.  [None] stands for an [int]
    that is none of them and takes the [default] branch. *)
Definition vmc96_get_error_code_string (cod : option vmc96_code) : String.string :=
  match cod with
  | Some VMC96_SUCCESS => "Success."
  | Some VMC96_ERROR_OUT_OF_MEMORY => "Out of memory."
  | Some VMC96_ERROR_FTDI_INITIALIZE => "Can not initialize libftdi."
  | Some VMC96_ERROR_FTDI_SET_INTERFACE => "libftdi can not de inteface."
  | Some VMC96_ERROR_FTDI_OPEN_USB_DEVICE =>
      "libftdi can not open USB device (not found or permission denied)."
  | Some VMC96_ERROR_FTDI_RESET_USB => "libftdi can not reset USB."
  | Some VMC96_ERROR_FTDI_SET_BAUDRATE => "libftdi can not set baud rate."
  | Some VMC96_ERROR_FTDI_SET_LINE_PROPS => "libftdi can not set line properties"
  | Some VMC96_ERROR_FTDI_SET_NO_FLOW => "libftdi can not set line in no flow mode."
  | Some VMC96_ERROR_FTDI_WRITE_DATA => "libftdi can not write data to device."
  | Some VMC96_ERROR_FTDI_READ_DATA => "libftdi can not read data from device."
  | Some VMC96_ERROR_FTDI_PURGE_BUFFERS => "libftdi can not purge rx/tx buffers."
  | Some VMC96_ERROR_RESPONSE_INVALID_CHECKSUM => "Response invalid checksum."
  | Some VMC96_ERROR_RESPONSE_NEGATIVE_ACK => "Response negative acknowledgement."
  | Some VMC96_ERROR_RESPONSE_MALFORMED => "Response malformed."
  | Some VMC96_ERROR_RESPONSE_INVALID_SOURCE => "Invalid response source."
  | Some VMC96_ERROR_RESPONSE_INVALID_LENGTH => "Invalid response length."
  | Some VMC96_ERROR_INVALID_MOTOR_COORDINATES => "Invalid motor coordinates."
  | None => "Unknown error."
  end.

Close Scope string_scope.

(* ********************************************************************* *)
(** ** Constructor / destructor                                            *)
(* ********************************************************************* *)

Definition VMC96_DEVICE_VENDOR_ID : Z := 0x0CE5.
Definition VMC96_DEVICE_PRODUCT_ID : Z := 0x0023.

(** The libftdi enumerators [vmc96_initialize] passes. *)
Inductive ftdi_interface : Type := INTERFACE_ANY.
Inductive ftdi_stopbits_type : Type := STOP_BIT_1.
Inductive ftdi_parity_type : Type := NONE.
Inductive ftdi_flowctrl : Type := SIO_DISABLE_FLOW_CTRL.

(** The library calls of [vmc96_initialize] and [vmc96_finish], with their
    arguments.  [null_ctx] tells that the libftdi context handed over is a
    null pointer. *)
Inductive setup_call : Type :=
  | Call_calloc
  | Call_ftdi_new
  | Call_ftdi_get_library_version
  | Call_ftdi_set_interface (interface : ftdi_interface)
  | Call_ftdi_usb_open (vendor product : Z)
  | Call_ftdi_usb_reset
  | Call_ftdi_set_baudrate (baudrate : Z)
  | Call_ftdi_set_line_property (bits : Z) (sbit : ftdi_stopbits_type)
      (parity : ftdi_parity_type)
  | Call_ftdi_setflowctrl (flowctrl : ftdi_flowctrl)
  | Call_ftdi_usb_close (null_ctx : bool)
  | Call_ftdi_free (null_ctx : bool)
  | Call_free.

(** What the C library and libftdi answer during set-up: whether [calloc]
    returns memory, the context [ftdi_new] returns ([None] for [NULL]), and
    the [int] results of the configuration calls. *)
Record setup_answers (ctx : Type) : Type := mk_setup {
  calloc_ok : bool;
  ftdi_new_result : option ctx;
  ftdi_set_interface_ret : Z;
  ftdi_usb_open_ret : Z;
  ftdi_usb_reset_ret : Z;
  ftdi_set_baudrate_ret : Z;
  ftdi_set_line_property_ret : Z;
  ftdi_setflowctrl_ret : Z
}.

Arguments mk_setup {ctx} _ _ _ _ _ _ _ _.
Arguments calloc_ok {ctx} _.
Arguments ftdi_new_result {ctx} _.
Arguments ftdi_set_interface_ret {ctx} _.
Arguments ftdi_usb_open_ret {ctx} _.
Arguments ftdi_usb_reset_ret {ctx} _.
Arguments ftdi_set_baudrate_ret {ctx} _.
Arguments ftdi_set_line_property_ret {ctx} _.
Arguments ftdi_setflowctrl_ret {ctx} _.

(** The statements after the label [error_cleanup], [*ppvmc96 = NULL]
    apart. *)
Definition error_cleanup (null_ctx : bool) : list setup_call :=
  [Call_ftdi_usb_close null_ctx; Call_ftdi_free null_ctx; Call_free].

(** [ppvmc96] is the caller's pointer variable, [None] for [NULL].  The
    result is the return code, the new value of [*ppvmc96] and the library
    calls made, in order.  [calloc] zero-fills the session. *)
Definition vmc96_initialize {ctx : Type} (env : setup_answers ctx)
    (ppvmc96 : option (VMC96_t ctx))
  : vmc96_code * option (VMC96_t ctx) * list setup_call :=
  if negb (calloc_ok env)
  then (VMC96_ERROR_OUT_OF_MEMORY, ppvmc96, [Call_calloc])
  else
    match ftdi_new_result env with
    | None =>
        (VMC96_ERROR_FTDI_INITIALIZE, None,
         [Call_calloc; Call_ftdi_new] ++ error_cleanup true)
    | Some c =>
        let t1 := [Call_calloc; Call_ftdi_new; Call_ftdi_get_library_version;
                   Call_ftdi_set_interface INTERFACE_ANY] in
        if ftdi_set_interface_ret env <? 0
        then (VMC96_ERROR_FTDI_SET_INTERFACE, None, t1 ++ error_cleanup false)
        else
          let t2 := t1 ++ [Call_ftdi_usb_open VMC96_DEVICE_VENDOR_ID
                             VMC96_DEVICE_PRODUCT_ID] in
          if ftdi_usb_open_ret env <? 0
          then (VMC96_ERROR_FTDI_OPEN_USB_DEVICE, None, t2 ++ error_cleanup false)
          else
            let t3 := t2 ++ [Call_ftdi_usb_reset] in
            if ftdi_usb_reset_ret env <? 0
            then (VMC96_ERROR_FTDI_RESET_USB, None, t3 ++ error_cleanup false)
            else
              let t4 := t3 ++ [Call_ftdi_set_baudrate 19200] in
              if ftdi_set_baudrate_ret env <? 0
              then (VMC96_ERROR_FTDI_SET_BAUDRATE, None, t4 ++ error_cleanup false)
              else
                let t5 := t4 ++ [Call_ftdi_set_line_property 8 STOP_BIT_1 NONE] in
                if ftdi_set_line_property_ret env <? 0
                then (VMC96_ERROR_FTDI_SET_LINE_PROPS, None,
                      t5 ++ error_cleanup false)
                else
                  let t6 := t5 ++ [Call_ftdi_setflowctrl SIO_DISABLE_FLOW_CTRL] in
                  if ftdi_setflowctrl_ret env <? 0
                  then (VMC96_ERROR_FTDI_SET_NO_FLOW, None,
                        t6 ++ error_cleanup false)
                  else
                    (VMC96_SUCCESS,
                     Some (mk_vmc96 c blank_message blank_message), t6)
    end.

(** The library calls of a set-up in which every step succeeds. *)
Definition setup_sequence : list setup_call :=
  [Call_calloc; Call_ftdi_new; Call_ftdi_get_library_version;
   Call_ftdi_set_interface INTERFACE_ANY;
   Call_ftdi_usb_open VMC96_DEVICE_VENDOR_ID VMC96_DEVICE_PRODUCT_ID;
   Call_ftdi_usb_reset;
   Call_ftdi_set_baudrate 19200;
   Call_ftdi_set_line_property 8 STOP_BIT_1 NONE;
   Call_ftdi_setflowctrl SIO_DISABLE_FLOW_CTRL].

(** [vmc96_finish]: the library calls it makes. *)
Definition vmc96_finish : list setup_call :=
  [Call_ftdi_usb_close false; Call_ftdi_free false; Call_free].

(* ********************************************************************* *)
(** ** Further notions the statements are phrased with                     *)
(* ********************************************************************* *)

(** The payload [vmc96_send_message_ex] takes from its arguments: the
    first [datalen] bytes behind [data], nothing for a null pointer or a
    zero length. *)
Definition request_payload (data_arg : option (list Z)) (datalen : Z) : list Z :=
  match data_arg with
  | Some src => if 0 <? datalen then firstn (Z.to_nat datalen) src else []
  | None => []
  end.

(** The frame [vmc96_prepare_raw_message] builds for the arguments of
    [vmc96_send_message_ex], checksum as the code computes it. *)
Definition built_frame (char_signed : bool) (address cmd : Z)
    (data_arg : option (list Z)) (datalen : Z) : list Z :=
  let payload := request_payload data_arg datalen in
  let body := [VMC96_MESSAGE_STX; address; zlength payload + 5; cmd] ++ payload in
  body ++ [to_uchar (checksum_loop char_signed 0 body)].

(** The frame for an address, a command and a payload. *)
Definition wire_frame (address cmd : Z) (payload : list Z) : list Z :=
  let body := [0x35; address; zlength payload + 5; cmd] ++ payload in
  body ++ [xor_all body].

(** The arguments of [vmc96_send_message_ex] respect the sizes of the
    buffers involved. *)
Definition request_fits (data_arg : option (list Z)) (datalen : Z) : Prop :=
  match data_arg with
  | Some src => 0 <= datalen <= 250 /\ datalen <= zlength src
  | None => True
  end.

(** The libftdi calls of one exchange on the recording transport, given
    the frame to send. *)
Definition exchange_calls (c : scripted) (frame : list Z) : list ftdi_call :=
  CallPurge ::
  (if purge_answer c <? 0 then []
   else CallWrite frame ::
        (if write_answer c <? 0 then [] else [CallRead VMC96_MESSAGE_MAX_LEN])).

(** The calls recorded in [vmc96'] are those made before in [vmc96]
    followed by those of one exchange carrying the frame for [address],
    [cmd] and [payload]. *)
Definition sends_frame (vmc96 : VMC96_t scripted) (address cmd : Z) (payload : list Z)
    (vmc96' : VMC96_t scripted) : Prop :=
  calls (ftdi vmc96')
  = calls (ftdi vmc96) ++ exchange_calls (ftdi vmc96) (wire_frame address cmd payload).

(** The session in which the device echoes the request frame back. *)
Definition loopback {ctx : Type} (vmc96 : VMC96_t ctx) : VMC96_t ctx :=
  let q := message vmc96 in
  let p := response vmc96 in
  set_response vmc96
    (mk_message (id_controller p) (command p) (data p) (data_length p)
       (raw q) (raw_length q)).

(** The first [n] bytes of a buffer with byte [k] replaced by [b]. *)
Definition corrupt (bytes : list Z) (k : nat) (b : Z) : list Z :=
  firstn k bytes ++ b :: skipn (S k) bytes.

(** The session whose received frame has byte [k] replaced by [b]. *)
Definition damaged {ctx : Type} (vmc96 : VMC96_t ctx) (k : nat) (b : Z) : VMC96_t ctx :=
  let p := response vmc96 in
  set_response vmc96
    (mk_message (id_controller p) (command p) (data p) (data_length p)
       (corrupt (raw p) k b) (raw_length p)).

(* ********************************************************************* *)
(** ** Further sessions used in the concrete runs                          *)
(* ********************************************************************* *)

(** The motor array's reply 35 30 06 10 01 12: well formed, checksum 0x12. *)
Definition accepted_reply : VMC96_t unit :=
  received tt 0x30 [0x35; 0x30; 0x06; 0x10; 0x01; 0x12].

(** A well-formed reply from relay 0 to a motor-array request. *)
Definition foreign_reply : VMC96_t unit :=
  received tt 0x30 [0x35; 0x26; 0x05; 0x00; 0x16].

(** Two bytes received after a broadcast. *)
Definition broadcast_reply : VMC96_t unit :=
  received tt 0x00 [0xAA; 0xBB].

(** The device sends nothing. *)
Definition silent_device : VMC96_t scripted :=
  scripted_session 0 0 (Some []).

(** A session over the transport whose read is interrupted. *)
Definition interrupted_session : VMC96_t unit :=
  mk_vmc96 tt blank_message blank_message.

(** The motor array answers a version request with "V1.0". *)
Definition version_reply : VMC96_t scripted :=
  scripted_session 0 0 (Some [0x35; 0x30; 0x09; 0x02; 86; 49; 46; 48; 0x77]).

(** The motor array answers an opto-line request with the bytes 1 2 3 4. *)
Definition opto_reply : VMC96_t scripted :=
  scripted_session 0 0 (Some [0x35; 0x30; 0x09; 0x15; 1; 2; 3; 4; 0x1D]).

(** The motor array answers a status request with the bare command echo. *)
Definition bare_status_reply : VMC96_t scripted :=
  scripted_session 0 0 (Some [0x35; 0x30; 0x05; 0x10; 0x10]).

(** The session left by the version exchange of [version_reply], talking
    to a device that now answers DE AD. *)
Definition garbage_after_version : VMC96_t scripted :=
  set_ftdi
    (session_after
       (vmc96_send_message false version_reply
          VMC96_CONTROLLER_MOTOR_ARRAY VMC96_COMMAND_KERNEL_VERSION)
       version_reply)
    (mk_scripted 0 0 (Some [0xDE; 0xAD]) []).

(** A set-up in which the device cannot be opened. *)
Definition open_refused : setup_answers unit :=
  mk_setup true (Some tt) 0 (-4) 0 0 0 0.

(* ********************************************************************* *)
(** * Properties                                                           *)
(* ********************************************************************* *)

(** ** Integer conversions and XOR *)

Lemma to_uchar_small (z : Z) : is_uchar z -> to_uchar z = z.
Proof. unfold is_uchar, to_uchar. intros Hz. apply Z.mod_small. exact Hz. Qed.

Lemma to_uchar_range (z : Z) : is_uchar (to_uchar z).
Proof. unfold is_uchar, to_uchar. apply Z.mod_pos_bound. lia. Qed.

Lemma to_schar_range (z : Z) : -128 <= to_schar z < 128.
Proof.
  unfold to_schar. pose proof (Z.mod_pos_bound (z + 128) 256). lia.
Qed.

Lemma to_uchar_to_schar (z : Z) : to_uchar (to_schar z) = to_uchar z.
Proof.
  unfold to_uchar, to_schar. Z.div_mod_to_equations. lia.
Qed.

Lemma to_schar_of_uchar (s : Z) : -128 <= s < 128 -> to_schar (to_uchar s) = s.
Proof. unfold to_uchar, to_schar. intros Hs. Z.div_mod_to_equations. lia. Qed.

Lemma lxor_mod_256 (a b : Z) :
  Z.lxor a b mod 256 = Z.lxor (a mod 256) (b mod 256).
Proof.
  change 256 with (2 ^ 8). rewrite <- !Z.land_ones by lia.
  apply Z.bits_inj'. intros n Hn.
  rewrite Z.lxor_spec, !Z.land_spec, Z.lxor_spec.
  destruct (Z.testbit a n), (Z.testbit b n), (Z.testbit (Z.ones 8) n); reflexivity.
Qed.

Lemma lxor_uchar (a b : Z) : is_uchar a -> is_uchar b -> is_uchar (Z.lxor a b).
Proof.
  intros Ha Hb.
  rewrite <- (to_uchar_small a Ha), <- (to_uchar_small b Hb).
  unfold to_uchar. rewrite <- lxor_mod_256. apply to_uchar_range.
Qed.

Lemma fold_lxor_uchar (bytes : list Z) (s : Z) :
  is_uchar s -> Forall is_uchar bytes -> is_uchar (fold_left Z.lxor bytes s).
Proof.
  revert s. induction bytes as [|b rest IH]; intros s Hs Hall; simpl.
  - exact Hs.
  - inversion Hall; subst. apply IH; [apply lxor_uchar|]; assumption.
Qed.

Lemma xor_all_uchar (bytes : list Z) : Forall is_uchar bytes -> is_uchar (xor_all bytes).
Proof. apply fold_lxor_uchar. unfold is_uchar. lia. Qed.

(** With an unsigned [char] the accumulator is the plain XOR. *)
Lemma checksum_loop_unsigned (bytes : list Z) (s : Z) :
  is_uchar s -> Forall is_uchar bytes ->
  checksum_loop false s bytes = fold_left Z.lxor bytes s.
Proof.
  revert s. induction bytes as [|b rest IH]; intros s Hs Hall; simpl.
  - reflexivity.
  - inversion Hall; subst.
    rewrite to_uchar_small by (apply lxor_uchar; assumption).
    apply IH; [apply lxor_uchar|]; assumption.
Qed.

(** With a signed [char] the accumulator is the plain XOR read as a
    two's-complement octet. *)
Lemma checksum_loop_signed_mod (bytes : list Z) (s : Z) :
  Forall is_uchar bytes ->
  to_uchar (checksum_loop true s bytes) = fold_left Z.lxor bytes (to_uchar s).
Proof.
  revert s. induction bytes as [|b rest IH]; intros s Hall; simpl.
  - reflexivity.
  - inversion Hall; subst. rewrite IH by assumption. f_equal.
    rewrite to_uchar_to_schar. unfold to_uchar. rewrite lxor_mod_256.
    f_equal. apply Z.mod_small. assumption.
Qed.

Lemma checksum_loop_signed_range (bytes : list Z) (s : Z) :
  -128 <= s < 128 -> -128 <= checksum_loop true s bytes < 128.
Proof.
  revert s. induction bytes as [|b rest IH]; intros s Hs; simpl.
  - exact Hs.
  - apply IH. apply to_schar_range.
Qed.

Lemma checksum_loop_signed (bytes : list Z) :
  Forall is_uchar bytes ->
  checksum_loop true 0 bytes = to_schar (xor_all bytes).
Proof.
  intros Hall.
  rewrite <- (to_schar_of_uchar (checksum_loop true 0 bytes))
    by (apply checksum_loop_signed_range; lia).
  rewrite checksum_loop_signed_mod by assumption. reflexivity.
Qed.

(** What the [!=] of [vmc96_parse_raw_response] decides, for each
    signedness of [char]: the promoted [unsigned char] on the left is never
    negative, the promoted signed [char] on the right is negative as soon
    as the XOR has its top bit set. *)
Lemma checksum_compare (char_signed : bool) (last : Z) (bytes : list Z) :
  is_uchar last -> Forall is_uchar bytes ->
  (last =? checksum_loop char_signed 0 bytes) =
  (last =? xor_all bytes) && (negb char_signed || (xor_all bytes <? 128)).
Proof.
  intros Hl Hall. pose proof (xor_all_uchar bytes Hall) as Hx.
  destruct char_signed; simpl.
  - rewrite checksum_loop_signed by assumption.
    unfold to_schar, is_uchar in *.
    destruct (Z.ltb_spec (xor_all bytes) 128).
    + rewrite andb_true_r. f_equal. Z.div_mod_to_equations. lia.
    + rewrite andb_false_r. apply Z.eqb_neq. Z.div_mod_to_equations. lia.
  - rewrite andb_true_r. unfold xor_all.
    rewrite checksum_loop_unsigned; [reflexivity | unfold is_uchar; lia | assumption].
Qed.

(** ** Arrays *)

Lemma array_get_nth {A : Type} (a : list A) (i : Z) (d : A) :
  0 <= i < zlength a -> array_get a i = Some (nth (Z.to_nat i) a d).
Proof.
  intros Hi. unfold array_get, zlength in *.
  replace ((0 <=? i) && (i <? Z.of_nat (length a))) with true
    by (symmetry; apply andb_true_iff; split; [apply Z.leb_le | apply Z.ltb_lt]; lia).
  apply nth_error_nth'. lia.
Qed.

Lemma array_set_ok {A : Type} (a : list A) (i : Z) (v : A) :
  0 <= i < zlength a ->
  array_set a i v = Some (firstn (Z.to_nat i) a ++ v :: skipn (Z.to_nat (i + 1)) a).
Proof.
  intros Hi. unfold array_set.
  replace ((0 <=? i) && (i <? zlength a)) with true
    by (symmetry; apply andb_true_iff; split; [apply Z.leb_le | apply Z.ltb_lt]; lia).
  reflexivity.
Qed.

Lemma memcpy_ok {A : Type} (dst src : list A) (doff soff n : Z) :
  0 <= doff -> 0 <= soff -> 0 <= n ->
  doff + n <= zlength dst -> soff + n <= zlength src ->
  memcpy dst doff src soff n =
  Some (firstn (Z.to_nat doff) dst
        ++ firstn (Z.to_nat n) (skipn (Z.to_nat soff) src)
        ++ skipn (Z.to_nat (doff + n)) dst).
Proof.
  intros. unfold memcpy.
  replace ((0 <=? doff) && (0 <=? soff) && (0 <=? n)
           && (doff + n <=? zlength dst) && (soff + n <=? zlength src)) with true.
  - reflexivity.
  - symmetry. rewrite !andb_true_iff. repeat split; apply Z.leb_le; assumption.
Qed.

Lemma memcpy_Some {A : Type} (dst src d : list A) (doff soff n : Z) :
  memcpy dst doff src soff n = Some d ->
  (0 <= doff /\ 0 <= soff /\ 0 <= n /\
   doff + n <= zlength dst /\ soff + n <= zlength src) /\
  d = firstn (Z.to_nat doff) dst
      ++ firstn (Z.to_nat n) (skipn (Z.to_nat soff) src)
      ++ skipn (Z.to_nat (doff + n)) dst.
Proof.
  unfold memcpy.
  destruct ((0 <=? doff) && (0 <=? soff) && (0 <=? n)
            && (doff + n <=? zlength dst) && (soff + n <=? zlength src)) eqn:Hb;
    [|discriminate].
  rewrite !andb_true_iff, !Z.leb_le in Hb.
  intros Heq. injection Heq as <-. split; [tauto | reflexivity].
Qed.

Lemma memcpy_length {A : Type} (dst src d : list A) (doff soff n : Z) :
  memcpy dst doff src soff n = Some d -> zlength d = zlength dst.
Proof.
  intros Hm. apply memcpy_Some in Hm. destruct Hm as [(H0 & H1 & H2 & H3 & H4) ->].
  unfold zlength in *. rewrite !length_app, !length_firstn, !length_skipn. lia.
Qed.

(** ** Coordinate mapper and current scaling *)

Lemma motor_id_value (r c : Z) : VMC96_GET_MOTOR_ID r c = (r + 1) * 16 + (c + 1).
Proof. unfold VMC96_GET_MOTOR_ID. rewrite Z.shiftl_mul_pow2 by lia. reflexivity. Qed.

Lemma motor_col_of_id (hi lo : Z) :
  0 <= lo < 16 -> VMC96_GET_MOTOR_COL (hi * 16 + lo) = lo - 1.
Proof.
  intros Hlo. unfold VMC96_GET_MOTOR_COL. f_equal.
  change 0x0F with (Z.ones 4). rewrite Z.land_ones by lia.
  change (2 ^ 4) with 16. rewrite Z.add_comm, Z.mod_add by lia.
  apply Z.mod_small. exact Hlo.
Qed.

Lemma motor_row_of_id (hi lo : Z) :
  0 <= hi < 16 -> 0 <= lo < 16 -> VMC96_GET_MOTOR_ROW (hi * 16 + lo) = hi - 1.
Proof.
  intros Hhi Hlo. unfold VMC96_GET_MOTOR_ROW. f_equal.
  rewrite Z.shiftr_land. change (Z.shiftr 0xF0 4) with (Z.ones 4).
  rewrite Z.land_ones by lia. rewrite Z.shiftr_div_pow2 by lia.
  change (2 ^ 4) with 16.
  rewrite Z.add_comm, Z.div_add by lia.
  rewrite (Z.div_small lo 16) by exact Hlo. simpl.
  apply Z.mod_small. exact Hhi.
Qed.

(** C4: for every (row, col) the bounds check accepts, decoding the
    encoded motor-id byte gives back (row, col).  The bounds ROWS and COLS
    come from the header; the round trip needs row+1 and col+1 to fit the
    two nibbles of the id, that is ROWS <= 15 and COLS <= 15. *)
Theorem C4_coordinate_roundtrip (ROWS COLS r c : Z) :
  ROWS <= 15 -> COLS <= 15 ->
  0 <= r -> 0 <= c ->
  VMC96_VALIDATE_MOTOR_COORDINATE ROWS COLS r c = true ->
  let motorId := to_uchar (VMC96_GET_MOTOR_ID r c) in
  motorId = VMC96_GET_MOTOR_ID r c /\
  VMC96_GET_MOTOR_ROW motorId = r /\
  VMC96_GET_MOTOR_COL motorId = c /\
  decode_motor motorId = mk_motor r c.
Proof.
  intros HR HC Hr Hc Hv motorId.
  unfold VMC96_VALIDATE_MOTOR_COORDINATE in Hv.
  apply andb_true_iff in Hv. destruct Hv as [Hrow Hcol].
  apply Z.ltb_lt in Hrow. apply Z.ltb_lt in Hcol.
  assert (Hid : motorId = VMC96_GET_MOTOR_ID r c).
  { unfold motorId. apply to_uchar_small. rewrite motor_id_value.
    unfold is_uchar. lia. }
  assert (Hrow' : VMC96_GET_MOTOR_ROW motorId = r).
  { rewrite Hid, motor_id_value, motor_row_of_id by lia. lia. }
  assert (Hcol' : VMC96_GET_MOTOR_COL motorId = c).
  { rewrite Hid, motor_id_value, motor_col_of_id by lia. lia. }
  repeat split; try assumption.
  unfold decode_motor. rewrite Hrow', Hcol'. reflexivity.
Qed.

(** The nibble condition of the round trip cannot be dropped: a sixteenth
    row or column does not survive it. *)
Lemma roundtrip_fails_past_nibble :
  decode_motor (to_uchar (VMC96_GET_MOTOR_ID 15 0)) = mk_motor (-1) 0 /\
  decode_motor (VMC96_GET_MOTOR_ID 15 0) = mk_motor (-1) 0 /\
  decode_motor (to_uchar (VMC96_GET_MOTOR_ID 0 15)) = mk_motor 1 (-1).
Proof. repeat split; reflexivity. Qed.

(** C9: the current scaling (500 * raw) / 255 is nondecreasing on 0..255,
    maps 0 to 0 and 255 to 500. *)
Theorem C9_current_scaling (a b : Z) :
  0 <= a -> a <= b -> b <= 255 ->
  VMC96_GET_MOTOR_CURRENT_MA a <= VMC96_GET_MOTOR_CURRENT_MA b /\
  VMC96_GET_MOTOR_CURRENT_MA 0 = 0 /\
  VMC96_GET_MOTOR_CURRENT_MA 255 = 500.
Proof.
  intros Ha Hab Hb. split; [|split; reflexivity].
  unfold VMC96_GET_MOTOR_CURRENT_MA, VMC96_MOTOR_MAX_CURRENT_READING_MA.
  apply Z.quot_le_mono; lia.
Qed.

(** ** Bounds check before dispatch *)

Section BoundsCheck.

Context {ctx : Type} `{Ftdi ctx}.
Variable char_signed : bool.
Variables ROWS COLS : Z.

(** C5: when a coordinate is outside the bounds, [vmc96_motor_run] and
    [vmc96_motor_pair_run] return InvalidMotorCoordinates and hand back the
    session as it was, the libftdi context included: no purge, write or
    read took place. *)
Theorem C5_out_of_bounds_no_transport (vmc96 : VMC96_t ctx) (r c c2 : Z) :
  0 <= r -> 0 <= c ->
  ~ (0 <= r < ROWS /\ 0 <= c < COLS) ->
  vmc96_motor_run char_signed ROWS COLS vmc96 r c
    = Some (VMC96_ERROR_INVALID_MOTOR_COORDINATES, vmc96) /\
  vmc96_motor_pair_run char_signed ROWS COLS vmc96 r c c2
    = Some (VMC96_ERROR_INVALID_MOTOR_COORDINATES, vmc96) /\
  vmc96_motor_pair_run char_signed ROWS COLS vmc96 r c2 c
    = Some (VMC96_ERROR_INVALID_MOTOR_COORDINATES, vmc96).
Proof.
  intros Hr Hc Hout.
  assert (Hv : VMC96_VALIDATE_MOTOR_COORDINATE ROWS COLS r c = false).
  { unfold VMC96_VALIDATE_MOTOR_COORDINATE. apply andb_false_iff.
    destruct (Z.ltb_spec r ROWS); [|left; reflexivity].
    destruct (Z.ltb_spec c COLS); [|right; reflexivity].
    exfalso. apply Hout. lia. }
  unfold vmc96_motor_run, vmc96_motor_pair_run. rewrite Hv. simpl.
  repeat split. rewrite orb_true_r. reflexivity.
Qed.

End BoundsCheck.

(** ** Response validator *)

Lemma addressed_switch (a : Z) :
  addressed a ->
  (a =? VMC96_CONTROLLER_GLOBAL_BROADCAST) = false /\
  ((a =? VMC96_CONTROLLER_RELAY_1) || (a =? VMC96_CONTROLLER_RELAY_2)
   || (a =? VMC96_CONTROLLER_MOTOR_ARRAY)) = true.
Proof. intros [-> | [-> | ->]]; split; reflexivity. Qed.

Section Validator.

Context {ctx : Type}.
Variable char_signed : bool.

Lemma parse_short (vmc96 : VMC96_t ctx) :
  addressed (id_controller (message vmc96)) ->
  raw_length (response vmc96) < 5 ->
  vmc96_parse_raw_response char_signed vmc96
    = Some (VMC96_ERROR_RESPONSE_INVALID_LENGTH, vmc96).
Proof.
  intros Ha Hlen. unfold vmc96_parse_raw_response.
  destruct (addressed_switch _ Ha) as [-> ->].
  apply Z.ltb_lt in Hlen. rewrite Hlen. reflexivity.
Qed.

(** The addressed branch as one equation, whenever the provisional copy of
    the payload stays inside [data]. *)
Lemma parse_addressed (vmc96 : VMC96_t ctx) :
  addressed (id_controller (message vmc96)) ->
  zlength (raw (response vmc96)) = VMC96_MESSAGE_MAX_LEN ->
  5 <= raw_length (response vmc96) <= 255 ->
  to_uchar (nth 2 (raw (response vmc96)) 0 - 4) <= zlength (data (response vmc96)) ->
  to_uchar (nth 2 (raw (response vmc96)) 0 - 4) <= 252 ->
  vmc96_parse_raw_response char_signed vmc96
    = Some (addressed_code char_signed (id_controller (message vmc96)) (response vmc96),
            set_response vmc96 (parsed_response (response vmc96))).
Proof.
  intros Ha Hraw Hlen Hdl Hsrc. unfold vmc96_parse_raw_response.
  destruct (addressed_switch _ Ha) as [-> ->].
  set (p := response vmc96) in *.
  unfold VMC96_MESSAGE_MAX_LEN in Hraw.
  replace (raw_length p <? 5) with false by (symmetry; apply Z.ltb_ge; lia).
  rewrite (array_get_nth (raw p) 1 0) by lia.
  rewrite (array_get_nth (raw p) 2 0) by lia.
  cbn [bind]. change (Z.to_nat 1) with 1%nat. change (Z.to_nat 2) with 2%nat.
  pose proof (to_uchar_range (nth 2 (raw p) 0 - 4)) as Hr. unfold is_uchar in Hr.
  rewrite memcpy_ok by lia.
  cbn [bind]. rewrite (array_get_nth (raw p) 0 0) by lia. cbn [bind].
  change (Z.to_nat 0) with 0%nat. change (Z.to_nat 3) with 3%nat.
  rewrite Z.add_0_l. cbn [firstn app].
  unfold addressed_code. fold p.
  change (parsed_response p) with
    (mk_message (nth 1 (raw p) 0) (command p)
       (firstn (Z.to_nat (to_uchar (nth 2 (raw p) 0 - 4))) (skipn 3 (raw p))
        ++ skipn (Z.to_nat (to_uchar (nth 2 (raw p) 0 - 4))) (data p))
       (to_uchar (nth 2 (raw p) 0 - 4)) (raw p) (raw_length p)).
  destruct (negb (nth 0 (raw p) 0 =? VMC96_MESSAGE_STX)); [reflexivity|].
  destruct (negb (nth 1 (raw p) 0 =? id_controller (message vmc96))); [reflexivity|].
  destruct (negb (nth 2 (raw p) 0 =? raw_length p)); [reflexivity|].
  rewrite (array_get_nth (raw p) (raw_length p - 1) 0) by lia. cbn [bind].
  unfold vmc96_calculate_checksum.
  replace ((0 <=? raw_length p - 1) && (raw_length p - 1 <=? zlength (raw p)))
    with true
    by (symmetry; apply andb_true_iff; split; apply Z.leb_le; lia).
  cbn [bind].
  destruct (negb (nth (Z.to_nat (raw_length p - 1)) (raw p) 0
                  =? checksum_loop char_signed 0
                       (firstn (Z.to_nat (raw_length p - 1)) (raw p))));
    reflexivity.
Qed.

(** The default branch. *)
Lemma parse_unlisted (vmc96 : VMC96_t ctx) :
  id_controller (message vmc96) <> VMC96_CONTROLLER_GLOBAL_BROADCAST ->
  ~ addressed (id_controller (message vmc96)) ->
  vmc96_parse_raw_response char_signed vmc96 = Some (VMC96_SUCCESS, vmc96).
Proof.
  intros H0 Hn. unfold vmc96_parse_raw_response, addressed in *.
  destruct (Z.eqb_spec (id_controller (message vmc96)) VMC96_CONTROLLER_GLOBAL_BROADCAST);
    [contradiction|].
  destruct (Z.eqb_spec (id_controller (message vmc96)) VMC96_CONTROLLER_RELAY_1);
    [tauto|].
  destruct (Z.eqb_spec (id_controller (message vmc96)) VMC96_CONTROLLER_RELAY_2);
    [tauto|].
  destruct (Z.eqb_spec (id_controller (message vmc96)) VMC96_CONTROLLER_MOTOR_ARRAY);
    [tauto|].
  reflexivity.
Qed.

End Validator.

(** ** Frame construction *)

Lemma zlength_app {A : Type} (a b : list A) : zlength (a ++ b) = zlength a + zlength b.
Proof. unfold zlength. rewrite length_app. lia. Qed.

Lemma zlength_nonneg {A : Type} (a : list A) : 0 <= zlength a.
Proof. unfold zlength. lia. Qed.

Lemma firstn_zlength_app {A : Type} (a b : list A) :
  firstn (Z.to_nat (zlength a)) (a ++ b) = a.
Proof.
  unfold zlength. rewrite Nat2Z.id.
  rewrite firstn_app, Nat.sub_diag, firstn_all. simpl. apply app_nil_r.
Qed.

Lemma firstn_exact {A : Type} (a b : list A) (n : Z) :
  n = zlength a -> firstn (Z.to_nat n) (a ++ b) = a.
Proof. intros ->. apply firstn_zlength_app. Qed.

Lemma firstn_succ_nth {A : Type} (l : list A) (n : nat) (d : A) :
  (n < length l)%nat -> firstn (S n) l = firstn n l ++ [nth n l d].
Proof.
  revert n. induction l as [|a l IH]; intros n Hn.
  - simpl in Hn. lia.
  - destruct n as [|n]; [reflexivity|].
    cbn [length] in Hn. change (firstn (S (S n)) (a :: l)) with (a :: firstn (S n) l).
    rewrite IH by lia. reflexivity.
Qed.

Lemma skipn_zlength_app {A : Type} (a b : list A) :
  skipn (Z.to_nat (zlength a)) (a ++ b) = b.
Proof.
  unfold zlength. rewrite Nat2Z.id.
  rewrite skipn_app, Nat.sub_diag, skipn_all. reflexivity.
Qed.

Lemma array_set_app {A : Type} (pre post : list A) (x v : A) :
  array_set (pre ++ x :: post) (zlength pre) v = Some (pre ++ v :: post).
Proof.
  rewrite array_set_ok.
  - rewrite firstn_zlength_app.
    replace (zlength pre + 1) with (zlength (pre ++ [x]))
      by (rewrite zlength_app; reflexivity).
    change (pre ++ x :: post) with (pre ++ [x] ++ post).
    rewrite app_assoc, skipn_zlength_app. reflexivity.
  - rewrite zlength_app. pose proof (zlength_nonneg pre).
    pose proof (zlength_nonneg post).
    assert (zlength (x :: post) = zlength post + 1)
      by (unfold zlength; cbn [length]; lia).
    lia.
Qed.

Lemma memcpy_app {A : Type} (pre rest src : list A) (n : Z) :
  0 <= n -> n <= zlength rest -> n <= zlength src ->
  memcpy (pre ++ rest) (zlength pre) src 0 n
  = Some (pre ++ firstn (Z.to_nat n) src ++ skipn (Z.to_nat n) rest).
Proof.
  intros Hn Hrest Hsrc. pose proof (zlength_nonneg pre).
  rewrite memcpy_ok by (rewrite ?zlength_app; lia).
  rewrite firstn_zlength_app. change (Z.to_nat 0) with 0%nat. cbn [skipn].
  do 3 f_equal.
  rewrite Z2Nat.inj_add by lia. rewrite Nat.add_comm, <- skipn_skipn.
  rewrite skipn_zlength_app. reflexivity.
Qed.

Section Codec.

Context {ctx : Type}.
Variable char_signed : bool.

(** [vmc96_prepare_raw_message] on buffers of the declared sizes: the raw
    buffer starts with header, payload and the stored checksum. *)
Lemma prepare_ok (vmc96 : VMC96_t ctx) :
  message_sized (message vmc96) ->
  0 <= data_length (message vmc96) <= 250 ->
  let m := message vmc96 in
  let body := frame_header m ++ payload_of m in
  exists tail,
    zlength tail = 250 - data_length m /\
    vmc96_prepare_raw_message char_signed vmc96
    = Some (VMC96_SUCCESS,
            set_message vmc96
              (mk_message (id_controller m) (command m) (data m) (data_length m)
                 (body ++ to_uchar (checksum_loop char_signed 0 body) :: tail)
                 (data_length m + 5))).
Proof.
  intros [Hdata Hraw] Hdl m body. fold m in Hdata, Hraw, Hdl.
  unfold VMC96_MESSAGE_DATA_MAX_LEN in Hdata. unfold VMC96_MESSAGE_MAX_LEN in Hraw.
  assert (Hbody : zlength body = data_length m + 4).
  { unfold body, payload_of. rewrite zlength_app. unfold zlength.
    rewrite length_firstn. unfold zlength in Hdata. cbn [frame_header length]. lia. }
  unfold vmc96_prepare_raw_message. fold m.
  rewrite (to_uchar_small (data_length m + 5)) by (unfold is_uchar; lia).
  destruct (raw m) as [|a0 [|a1 [|a2 [|a3 rest]]]] eqn:Eraw;
    try (unfold zlength in Hraw; cbn [length] in Hraw; lia).
  assert (Hrest : zlength rest = 251)
    by (unfold zlength in *; cbn [length] in Hraw; lia).
  pose proof (array_set_app [] (a1 :: a2 :: a3 :: rest) a0 VMC96_MESSAGE_STX) as E0.
  pose proof (array_set_app [VMC96_MESSAGE_STX] (a2 :: a3 :: rest) a1
                (id_controller m)) as E1.
  pose proof (array_set_app [VMC96_MESSAGE_STX; id_controller m] (a3 :: rest) a2
                (data_length m + 5)) as E2.
  pose proof (array_set_app [VMC96_MESSAGE_STX; id_controller m; data_length m + 5]
                rest a3 (command m)) as E3.
  change (zlength (@nil Z)) with 0 in E0.
  change (zlength [VMC96_MESSAGE_STX]) with 1 in E1.
  change (zlength [VMC96_MESSAGE_STX; id_controller m]) with 2 in E2.
  change (zlength [VMC96_MESSAGE_STX; id_controller m; data_length m + 5]) with 3 in E3.
  cbn [app] in E0, E1, E2, E3.
  rewrite E0. cbn [bind]. rewrite E1. cbn [bind]. rewrite E2. cbn [bind].
  rewrite E3. cbn [bind].
  assert (Hcopy :
    (if 0 <? data_length m
     then memcpy (frame_header m ++ rest) 4 (data m) 0 (data_length m)
     else Some (frame_header m ++ rest))
    = Some (body ++ skipn (Z.to_nat (data_length m)) rest)).
  { destruct (Z.ltb_spec 0 (data_length m)) as [Hpos | Hzero].
    - change 4 with (zlength (frame_header m)).
      rewrite memcpy_app by lia. unfold body, payload_of.
      rewrite <- app_assoc. reflexivity.
    - assert (Hz : data_length m = 0) by lia.
      unfold body, payload_of. rewrite Hz. simpl. reflexivity. }
  change (VMC96_MESSAGE_STX :: id_controller m :: data_length m + 5 :: command m :: rest)
    with (frame_header m ++ rest).
  rewrite Hcopy. cbn [bind].
  destruct (skipn (Z.to_nat (data_length m)) rest) as [|x tail] eqn:Etail.
  { exfalso. apply (f_equal (@length Z)) in Etail. rewrite length_skipn in Etail.
    unfold zlength in Hrest. cbn [length] in Etail. lia. }
  assert (Htail : zlength tail = 250 - data_length m).
  { apply (f_equal (@length Z)) in Etail. rewrite length_skipn in Etail.
    unfold zlength in *. cbn [length] in Etail. lia. }
  exists tail. split; [exact Htail|].
  unfold vmc96_calculate_checksum.
  replace (data_length m + 5 - 1) with (zlength body) by lia.
  replace ((0 <=? zlength body) && (zlength body <=? zlength (body ++ x :: tail)))
    with true.
  2:{ symmetry. apply andb_true_iff. split; apply Z.leb_le.
      - apply zlength_nonneg.
      - rewrite zlength_app. pose proof (zlength_nonneg (x :: tail)). lia. }
  cbn [bind]. rewrite firstn_zlength_app, array_set_app. reflexivity.
Qed.

End Codec.

(** Stored into an [unsigned char], the accumulator is the plain XOR
    whatever the signedness of [char]. *)
Lemma stored_checksum (char_signed : bool) (bytes : list Z) :
  Forall is_uchar bytes ->
  to_uchar (checksum_loop char_signed 0 bytes) = xor_all bytes.
Proof.
  intros Hall. destruct char_signed.
  - rewrite checksum_loop_signed_mod by assumption. reflexivity.
  - rewrite checksum_loop_unsigned by (try assumption; unfold is_uchar; lia).
    apply to_uchar_small. apply xor_all_uchar. assumption.
Qed.

(** C6: for every address, command and payload of 0..250 bytes, the frame
    built by [vmc96_prepare_raw_message] is
    [0x35][address][len(payload)+5][command][payload...][checksum] with the
    checksum the XOR of all preceding bytes; the ping frame for relay 0, as
    handed to the transport by [vmc96_relay_ping], is 35 26 05 00 16. *)
Theorem C6_frame_layout (char_signed : bool) (ctx : Type) (vmc96 : VMC96_t ctx)
    (address cmd : Z) (payload : list Z) :
  (message_sized (message vmc96) ->
   is_uchar address -> is_uchar cmd -> Forall is_uchar payload ->
   zlength payload <= 250 ->
   id_controller (message vmc96) = address ->
   command (message vmc96) = cmd ->
   data_length (message vmc96) = zlength payload ->
   payload_of (message vmc96) = payload ->
   exists vmc96',
     vmc96_prepare_raw_message char_signed vmc96 = Some (VMC96_SUCCESS, vmc96') /\
     raw_length (message vmc96') = zlength payload + 5 /\
     frame_of (message vmc96')
     = [0x35; address; zlength payload + 5; cmd] ++ payload
       ++ [xor_all ([0x35; address; zlength payload + 5; cmd] ++ payload)])
  /\
  (exists r vmc96',
     vmc96_relay_ping char_signed (scripted_session 0 0 (Some [])) 0
       = Some (r, vmc96') /\
     calls (ftdi vmc96')
       = [CallPurge; CallWrite [0x35; 0x26; 0x05; 0x00; 0x16]; CallRead 255]).
Proof.
  split.
  - intros Hsized Haddr Hcmd Hpay Hlen Eaddr Ecmd Edl Epay.
    pose proof (zlength_nonneg payload) as Hnn.
    destruct (prepare_ok char_signed vmc96 Hsized) as [tail [Htail Hprep]];
      [lia|].
    cbv zeta in Hprep. unfold frame_header in *.
    rewrite Eaddr, Ecmd, Edl, Epay in *.
    change VMC96_MESSAGE_STX with 0x35 in *.
    set (body := [0x35; address; zlength payload + 5; cmd] ++ payload) in *.
    assert (Hbody : Forall is_uchar body).
    { unfold body. apply Forall_app. split; [|assumption].
      unfold is_uchar in Haddr, Hcmd.
      repeat (apply Forall_cons; [unfold is_uchar; lia|]). apply Forall_nil. }
    rewrite stored_checksum in Hprep by assumption.
    eexists. split; [exact Hprep|]. split; [reflexivity|].
    unfold frame_of. cbn [message set_message raw raw_length].
    change (body ++ xor_all body :: tail) with (body ++ [xor_all body] ++ tail).
    rewrite app_assoc, firstn_exact.
    + unfold body. rewrite <- app_assoc. reflexivity.
    + unfold body. rewrite !zlength_app. unfold zlength. cbn [length]. lia.
  - destruct char_signed; vm_compute; eexists; eexists; split; reflexivity.
Qed.

(** ** Validation order *)

Section ValidationOrder.

Context {ctx : Type}.
Variable char_signed : bool.

(** C2, amended: a response of at least five bytes whose first byte is
    not 0x35 is rejected with Malformed whatever the echoed address, the
    payload and the checksum byte are, for a declared-length byte between 4
    and 254. *)
Theorem C2_bad_start_byte_malformed (vmc96 : VMC96_t ctx) :
  addressed (id_controller (message vmc96)) ->
  message_sized (response vmc96) ->
  5 <= raw_length (response vmc96) <= 255 ->
  4 <= nth 2 (raw (response vmc96)) 0 <= 254 ->
  nth 0 (raw (response vmc96)) 0 <> VMC96_MESSAGE_STX ->
  vmc96_parse_raw_response char_signed vmc96
    = Some (VMC96_ERROR_RESPONSE_MALFORMED,
            set_response vmc96 (parsed_response (response vmc96))).
Proof.
  intros Ha [Hdata Hraw] Hlen Hdecl Hstx.
  unfold VMC96_MESSAGE_DATA_MAX_LEN in Hdata.
  assert (Hdl : to_uchar (nth 2 (raw (response vmc96)) 0 - 4)
                = nth 2 (raw (response vmc96)) 0 - 4)
    by (apply to_uchar_small; unfold is_uchar; lia).
  rewrite parse_addressed by (try assumption; rewrite Hdl; lia).
  unfold addressed_code.
  apply Z.eqb_neq in Hstx. rewrite Hstx. reflexivity.
Qed.

(** C7, amended: a response whose declared-length byte differs from the
    number of bytes received is rejected with InvalidLength when fewer than
    five bytes were received, or when the first byte is 0x35, the echoed
    address is the targeted one and the declared-length byte is between 4
    and 254. *)
Theorem C7_length_mismatch_invalid_length (vmc96 : VMC96_t ctx) :
  addressed (id_controller (message vmc96)) ->
  message_sized (response vmc96) ->
  0 <= raw_length (response vmc96) <= 255 ->
  nth 2 (raw (response vmc96)) 0 <> raw_length (response vmc96) ->
  raw_length (response vmc96) < 5 \/
  (nth 0 (raw (response vmc96)) 0 = VMC96_MESSAGE_STX /\
   nth 1 (raw (response vmc96)) 0 = id_controller (message vmc96) /\
   4 <= nth 2 (raw (response vmc96)) 0 <= 254) ->
  exists vmc96',
    vmc96_parse_raw_response char_signed vmc96
      = Some (VMC96_ERROR_RESPONSE_INVALID_LENGTH, vmc96').
Proof.
  intros Ha [Hdata Hraw] Hlen Hne [Hshort | (Hstx & Hsrc & Hdecl)].
  - exists vmc96. apply parse_short; assumption.
  - destruct (Z.lt_ge_cases (raw_length (response vmc96)) 5) as [Hshort | Hlong].
    { exists vmc96. apply parse_short; assumption. }
    unfold VMC96_MESSAGE_DATA_MAX_LEN in Hdata.
    assert (Hdl : to_uchar (nth 2 (raw (response vmc96)) 0 - 4)
                  = nth 2 (raw (response vmc96)) 0 - 4)
      by (apply to_uchar_small; unfold is_uchar; lia).
    rewrite parse_addressed by (try assumption; rewrite ?Hdl; lia).
    eexists. unfold addressed_code.
    rewrite Hstx, Hsrc, !Z.eqb_refl. cbn [negb].
    apply Z.eqb_neq in Hne. rewrite Hne. reflexivity.
Qed.

(** The checksum step, for a response that passed steps 1 to 4 and is
    short enough for its payload to fit [data]. *)
Lemma parse_checksum_step (vmc96 : VMC96_t ctx) :
  let p := response vmc96 in
  addressed (id_controller (message vmc96)) ->
  message_sized p ->
  5 <= raw_length p <= 254 ->
  Forall is_uchar (frame_of p) ->
  nth 0 (raw p) 0 = VMC96_MESSAGE_STX ->
  nth 1 (raw p) 0 = id_controller (message vmc96) ->
  nth 2 (raw p) 0 = raw_length p ->
  let last := nth (Z.to_nat (raw_length p - 1)) (raw p) 0 in
  let x := xor_all (firstn (Z.to_nat (raw_length p - 1)) (raw p)) in
  vmc96_parse_raw_response char_signed vmc96
    = Some (if (last =? x) && (negb char_signed || (x <? 128))
            then VMC96_SUCCESS else VMC96_ERROR_RESPONSE_INVALID_CHECKSUM,
            set_response vmc96 (parsed_response p)).
Proof.
  intros p Ha [Hdata Hraw] Hlen Hall Hstx Hsrc Hdecl last x.
  unfold VMC96_MESSAGE_DATA_MAX_LEN in Hdata. unfold VMC96_MESSAGE_MAX_LEN in Hraw.
  assert (Hdl : to_uchar (nth 2 (raw p) 0 - 4) = nth 2 (raw p) 0 - 4)
    by (apply to_uchar_small; unfold is_uchar; lia).
  rewrite parse_addressed by (try assumption; fold p; rewrite ?Hdl; lia).
  fold p. unfold addressed_code.
  rewrite Hstx, Hsrc, Hdecl, !Z.eqb_refl. cbn [negb].
  assert (Hsplit : frame_of p
                   = firstn (Z.to_nat (raw_length p - 1)) (raw p) ++ [last]).
  { unfold frame_of, last.
    replace (Z.to_nat (raw_length p)) with (S (Z.to_nat (raw_length p - 1))) by lia.
    apply firstn_succ_nth.
    unfold zlength in Hraw. lia. }
  rewrite Hsplit in Hall. apply Forall_app in Hall. destruct Hall as [Hpre Hlast].
  inversion Hlast; subst.
  fold last. rewrite checksum_compare by assumption. fold x.
  destruct ((last =? x) && (negb char_signed || (x <? 128))); reflexivity.
Qed.

End ValidationOrder.

(** ** The checksum comparison *)

(** C1, evaluated: the five-byte response 35 30 05 80 80 to a motor-array
    request passes steps 1 to 4 and its last byte is the XOR of the bytes
    before it.  Where plain [char] is signed the validator rejects it with
    InvalidChecksum; where [char] is unsigned it accepts it. *)
Theorem C1_signed_char_rejects_valid_checksum :
  frame_of (response high_checksum_reply) = [0x35; 0x30; 0x05; 0x80; 0x80] /\
  xor_all [0x35; 0x30; 0x05; 0x80] = 0x80 /\
  vmc96_parse_raw_response true high_checksum_reply
    = Some (VMC96_ERROR_RESPONSE_INVALID_CHECKSUM,
            set_response high_checksum_reply
              (parsed_response (response high_checksum_reply))) /\
  vmc96_parse_raw_response false high_checksum_reply
    = Some (VMC96_SUCCESS,
            set_response high_checksum_reply
              (parsed_response (response high_checksum_reply))).
Proof. repeat split; vm_compute; reflexivity. Qed.

(** The payload a validated response leaves in [data]. *)
Lemma payload_of_parsed (p : vmc96_message_t) :
  zlength (raw p) = VMC96_MESSAGE_MAX_LEN ->
  5 <= raw_length p <= 255 ->
  nth 2 (raw p) 0 = raw_length p ->
  data_length (parsed_response p) = raw_length p - 4 /\
  payload_of (parsed_response p)
  = skipn 3 (firstn (Z.to_nat (raw_length p - 1)) (raw p)).
Proof.
  intros Hraw Hlen Hdecl. unfold VMC96_MESSAGE_MAX_LEN in Hraw.
  unfold payload_of, parsed_response. cbn [data data_length].
  rewrite Hdecl, to_uchar_small by (unfold is_uchar; lia).
  split; [reflexivity|].
  rewrite firstn_app, firstn_firstn, Nat.min_id.
  rewrite length_firstn, length_skipn.
  unfold zlength in Hraw.
  replace (Z.to_nat (raw_length p - 4)
           - Nat.min (Z.to_nat (raw_length p - 4)) (length (raw p) - 3))%nat
    with 0%nat by lia.
  cbn [firstn]. rewrite app_nil_r.
  rewrite skipn_firstn_comm. f_equal. lia.
Qed.

(** Where [char] is unsigned, and for responses of at most 254 bytes, the
    checksum step decides exactly what the protocol asks for. *)
Lemma checksum_step_unsigned_char {ctx : Type} (vmc96 : VMC96_t ctx) :
  let p := response vmc96 in
  addressed (id_controller (message vmc96)) ->
  message_sized p ->
  5 <= raw_length p <= 254 ->
  Forall is_uchar (frame_of p) ->
  nth 0 (raw p) 0 = VMC96_MESSAGE_STX ->
  nth 1 (raw p) 0 = id_controller (message vmc96) ->
  nth 2 (raw p) 0 = raw_length p ->
  exists code vmc96',
    vmc96_parse_raw_response false vmc96 = Some (code, vmc96') /\
    (code = VMC96_ERROR_RESPONSE_INVALID_CHECKSUM <->
     nth (Z.to_nat (raw_length p - 1)) (raw p) 0
     <> xor_all (firstn (Z.to_nat (raw_length p - 1)) (raw p))) /\
    (code <> VMC96_ERROR_RESPONSE_INVALID_CHECKSUM -> code = VMC96_SUCCESS) /\
    (code = VMC96_SUCCESS ->
     data_length (response vmc96') = nth 2 (raw p) 0 - 4 /\
     payload_of (response vmc96')
     = skipn 3 (firstn (Z.to_nat (raw_length p - 1)) (raw p))).
Proof.
  intros p Ha Hsized Hlen Hall Hstx Hsrc Hdecl.
  pose proof (parse_checksum_step false vmc96 Ha Hsized Hlen Hall Hstx Hsrc Hdecl) as Hp.
  cbv zeta in Hp. fold p in Hp. cbn [negb orb] in Hp. rewrite andb_true_r in Hp.
  destruct Hsized as [_ Hraw].
  destruct (payload_of_parsed p Hraw) as [Hdl Hpay]; [lia | exact Hdecl |].
  eexists. eexists. split; [exact Hp|]. cbn [response set_response].
  destruct (Z.eqb_spec (nth (Z.to_nat (raw_length p - 1)) (raw p) 0)
              (xor_all (firstn (Z.to_nat (raw_length p - 1)) (raw p)))) as [E | E].
  - repeat split; try congruence; try discriminate.
  - repeat split; try congruence; try discriminate.
Qed.

(** Where [char] is signed the same step also rejects every response whose
    correct checksum has its top bit set. *)
Lemma checksum_step_signed_char {ctx : Type} (vmc96 : VMC96_t ctx) :
  let p := response vmc96 in
  addressed (id_controller (message vmc96)) ->
  message_sized p ->
  5 <= raw_length p <= 254 ->
  Forall is_uchar (frame_of p) ->
  nth 0 (raw p) 0 = VMC96_MESSAGE_STX ->
  nth 1 (raw p) 0 = id_controller (message vmc96) ->
  nth 2 (raw p) 0 = raw_length p ->
  128 <= xor_all (firstn (Z.to_nat (raw_length p - 1)) (raw p)) ->
  vmc96_parse_raw_response true vmc96
    = Some (VMC96_ERROR_RESPONSE_INVALID_CHECKSUM,
            set_response vmc96 (parsed_response p)).
Proof.
  intros p Ha Hsized Hlen Hall Hstx Hsrc Hdecl Hhigh.
  rewrite parse_checksum_step by assumption. fold p.
  replace (xor_all (firstn (Z.to_nat (raw_length p - 1)) (raw p)) <? 128)
    with false by (symmetry; apply Z.ltb_ge; exact Hhigh).
  cbn [negb orb]. rewrite andb_false_r. reflexivity.
Qed.

(** A response that fills the whole 255-byte read declares a payload of
    251 bytes, one more than [data] holds: the copy runs past the array. *)
Lemma full_length_response_overruns_data (char_signed : bool) :
  zlength full_length_frame = 255 /\
  nth 254 full_length_frame 0 = xor_all (firstn 254 full_length_frame) /\
  vmc96_parse_raw_response char_signed (received tt 0x30 full_length_frame) = None.
Proof. destruct char_signed; repeat split; vm_compute; reflexivity. Qed.

(** So does a declared-length byte below four, which wraps to a payload
    length above 250 before any check is made. *)
Lemma short_declared_length_overruns_data (char_signed : bool) :
  vmc96_parse_raw_response char_signed
    (received tt 0x30 [0x00; 0x30; 0x03; 0x00; 0x00]) = None.
Proof. destruct char_signed; vm_compute; reflexivity. Qed.

(** ** One exchange, step by step *)

Ltac inv_bind H :=
  repeat match type of H with
         | bind ?m _ = Some _ =>
             let E := fresh "E" in
             destruct m eqn:E; cbn [bind] in H; [|discriminate H]
         end.

Lemma parse_success_payload_fits {ctx : Type} (char_signed : bool)
    (vmc96 vmc96' : VMC96_t ctx) :
  addressed (id_controller (message vmc96)) ->
  vmc96_parse_raw_response char_signed vmc96 = Some (VMC96_SUCCESS, vmc96') ->
  0 <= data_length (response vmc96') <= zlength (data (response vmc96')).
Proof.
  intros Ha Hp. unfold vmc96_parse_raw_response in Hp.
  destruct (addressed_switch _ Ha) as [E0 E1]. rewrite E0, E1 in Hp.
  destruct (raw_length (response vmc96) <? 5); [discriminate Hp|].
  inv_bind Hp.
  match type of Hp with
  | (if ?c then _ else _) = _ => destruct c; [discriminate Hp|]
  end.
  match type of Hp with
  | (if ?c then _ else _) = _ => destruct c; [discriminate Hp|]
  end.
  match type of Hp with
  | (if ?c then _ else _) = _ => destruct c; [discriminate Hp|]
  end.
  inv_bind Hp.
  match type of Hp with
  | (if ?c then _ else _) = _ => destruct c; [discriminate Hp|]
  end.
  injection Hp as <-. cbn [response set_response data data_length].
  match goal with
  | Hm : memcpy _ _ _ _ _ = Some _ |- _ =>
      pose proof (memcpy_length _ _ _ _ _ _ Hm) as Hl;
      apply memcpy_Some in Hm; destruct Hm as [(_ & _ & Hn & Hfit & _) _]
  end.
  rewrite Hl. lia.
Qed.

Section Exchange.

Context {ctx : Type} `{Ftdi ctx}.
Variable char_signed : bool.

Lemma prepare_inv (vmc96 vmc96' : VMC96_t ctx) (r : vmc96_code) :
  vmc96_prepare_raw_message char_signed vmc96 = Some (r, vmc96') ->
  r = VMC96_SUCCESS /\
  response vmc96' = response vmc96 /\
  ftdi vmc96' = ftdi vmc96 /\
  id_controller (message vmc96') = id_controller (message vmc96).
Proof.
  intros Hp. unfold vmc96_prepare_raw_message in Hp. inv_bind Hp.
  injection Hp as <- <-. repeat split.
Qed.

(** [vmc96_send_raw_message] only ever touches the libftdi context and the
    raw part of the response. *)
Lemma send_raw_inv (vmc96 vmc96' : VMC96_t ctx) (r : vmc96_code) :
  vmc96_send_raw_message vmc96 = Some (r, vmc96') ->
  message vmc96' = message vmc96 /\
  data (response vmc96') = data (response vmc96) /\
  data_length (response vmc96') = data_length (response vmc96) /\
  id_controller (response vmc96') = id_controller (response vmc96) /\
  (r = VMC96_SUCCESS \/ r = VMC96_ERROR_FTDI_PURGE_BUFFERS \/
   r = VMC96_ERROR_FTDI_WRITE_DATA \/ r = VMC96_ERROR_FTDI_READ_DATA).
Proof.
  intros Hs. unfold vmc96_send_raw_message in Hs.
  destruct (ftdi_usb_purge_buffers (ftdi vmc96)) as [ret1 c1].
  destruct (ret1 <? 0).
  { injection Hs as <- <-. cbn. tauto. }
  destruct ((0 <=? raw_length (message vmc96))
            && (raw_length (message vmc96) <=? zlength (raw (message vmc96))));
    [|discriminate Hs].
  destruct (ftdi_write_data c1 _) as [ret2 c2].
  destruct (ret2 <? 0).
  { injection Hs as <- <-. cbn. tauto. }
  destruct (ftdi_read_data c2 VMC96_MESSAGE_MAX_LEN) as [[stored|bytes] c3].
  - inv_bind Hs. injection Hs as <- <-. cbn. tauto.
  - inv_bind Hs. injection Hs as <- <-. cbn. tauto.
Qed.

(** An exchange either stops at a transport error, or ends in
    [vmc96_parse_raw_response] on a session whose request address is the
    one asked for and whose response payload fields are still those of the
    previous exchange. *)
Lemma send_message_ex_inv (vmc96 vmc96' : VMC96_t ctx) (id_cntlr cmd : Z)
    (data_arg : option (list Z)) (datalen : Z) (r : vmc96_code) :
  vmc96_send_message_ex char_signed vmc96 id_cntlr cmd data_arg datalen
    = Some (r, vmc96') ->
  exists sent : VMC96_t ctx,
    id_controller (message sent) = id_cntlr /\
    data (response sent) = data (response vmc96) /\
    data_length (response sent) = data_length (response vmc96) /\
    id_controller (response sent) = id_controller (response vmc96) /\
    (((r = VMC96_ERROR_FTDI_PURGE_BUFFERS \/ r = VMC96_ERROR_FTDI_WRITE_DATA \/
       r = VMC96_ERROR_FTDI_READ_DATA) /\ vmc96' = sent)
     \/ vmc96_parse_raw_response char_signed sent = Some (r, vmc96')).
Proof.
  intros Hx. unfold vmc96_send_message_ex in Hx. inv_bind Hx.
  match goal with
  | Hprep : vmc96_prepare_raw_message _ _ = Some ?q |- _ =>
      destruct q as [rp vp]; apply prepare_inv in Hprep;
      destruct Hprep as (-> & Hresp & Hftdi & Hid)
  end.
  cbn [fst snd is_success negb] in Hx. inv_bind Hx.
  match goal with
  | Hsent : vmc96_send_raw_message _ = Some ?q |- _ =>
      destruct q as [rs vs]; apply send_raw_inv in Hsent;
      destruct Hsent as (Hmsg & Hd & Hdl & Hidr & Hcode)
  end.
  cbn [fst snd] in Hx. cbn [set_message message response] in Hid, Hresp.
  exists vs. rewrite Hmsg, Hid, Hd, Hdl, Hidr, Hresp. cbn [id_controller].
  repeat (split; [reflexivity|]).
  destruct rs; cbn [is_success negb] in Hx;
    try (left; injection Hx as <- <-; split; [tauto | reflexivity]);
    try (right; exact Hx);
    exfalso; destruct Hcode as [Hc | [Hc | [Hc | Hc]]]; discriminate Hc.
Qed.

Lemma send_message_success_payload_fits (vmc96 vmc96' : VMC96_t ctx) (id_cntlr cmd : Z) :
  addressed id_cntlr ->
  vmc96_send_message char_signed vmc96 id_cntlr cmd = Some (VMC96_SUCCESS, vmc96') ->
  0 <= data_length (response vmc96') <= zlength (data (response vmc96')).
Proof.
  intros Ha Hs. unfold vmc96_send_message in Hs.
  apply send_message_ex_inv in Hs.
  destruct Hs as (sent & Hid & _ & _ & _ & [[Hcode _] | Hparse]).
  - destruct Hcode as [Hc | [Hc | Hc]]; discriminate Hc.
  - apply (parse_success_payload_fits char_signed sent); [rewrite Hid|]; assumption.
Qed.

End Exchange.

(** ** Unlisted addresses *)

(** C10: when the targeted address is none of 0x00, 0x26, 0x27, 0x30,
    [vmc96_parse_raw_response] checks nothing: it returns success for any
    received bytes and any received length and leaves the session as it
    was.  An exchange with such an address therefore never ends in a
    validation error and keeps the response payload fields of the previous
    exchange.  [vmc96_relay_ping] targets such an address for every id from
    2 to 255 except 10 and 218, where 0x26 + id is 0x30 and, wrapped to a
    byte, 0x00. *)
Theorem C10_unlisted_address_unchecked (char_signed : bool)
    (ctx : Type) (F : Ftdi ctx) (vmc96 : VMC96_t ctx) :
  (unlisted (id_controller (message vmc96)) ->
   vmc96_parse_raw_response char_signed vmc96 = Some (VMC96_SUCCESS, vmc96))
  /\
  (forall id_cntlr cmd data_arg datalen r vmc96',
     unlisted id_cntlr ->
     vmc96_send_message_ex char_signed vmc96 id_cntlr cmd data_arg datalen
       = Some (r, vmc96') ->
     (r = VMC96_SUCCESS \/ r = VMC96_ERROR_FTDI_PURGE_BUFFERS \/
      r = VMC96_ERROR_FTDI_WRITE_DATA \/ r = VMC96_ERROR_FTDI_READ_DATA) /\
     data (response vmc96') = data (response vmc96) /\
     data_length (response vmc96') = data_length (response vmc96) /\
     id_controller (response vmc96') = id_controller (response vmc96))
  /\
  (forall id, 2 <= id <= 255 -> id <> 10 -> id <> 218 ->
     unlisted (to_uchar (VMC96_CONTROLLER_RELAY_BASE_ADDRESS + id))).
Proof.
  assert (Hparse : forall v : VMC96_t ctx,
             unlisted (id_controller (message v)) ->
             vmc96_parse_raw_response char_signed v = Some (VMC96_SUCCESS, v)).
  { intros v (H0 & H1 & H2 & H3). apply parse_unlisted.
    - exact H0.
    - unfold addressed.
      intros [E | [E | E]]; [apply H1 | apply H2 | apply H3]; exact E. }
  split; [apply Hparse|]. split.
  - intros id_cntlr cmd data_arg datalen r vmc96' Hun Hx.
    apply send_message_ex_inv in Hx.
    destruct Hx as (sent & Hid & Hd & Hdl & Hidr & [[Hcode ->] | Hp]).
    + repeat split; try assumption. tauto.
    + rewrite Hparse in Hp by (rewrite Hid; exact Hun).
      injection Hp as <- <-. repeat split; try assumption. left. reflexivity.
  - intros id Hid H10 H218.
    unfold unlisted, to_uchar, VMC96_CONTROLLER_RELAY_BASE_ADDRESS.
    Z.div_mod_to_equations. lia.
Qed.

(** ** Motor status decoding *)

Lemma skipn_nth_cons {A : Type} (l : list A) (k : nat) (d : A) :
  (k < length l)%nat -> skipn k l = nth k l d :: skipn (S k) l.
Proof.
  revert k. induction l as [|a l IH]; intros k Hk; [cbn [length] in Hk; lia|].
  destruct k as [|k]; [reflexivity|].
  cbn [length] in Hk. cbn [skipn nth]. apply IH. lia.
Qed.


(** With fewer entries left in the array than iterations to run, the loop
    stores past the last entry. *)
Lemma status_loop_overrun (n : nat) (d : list Z) (pre rest : list VMC96_motor_t) :
  (length rest < n)%nat ->
  zlength pre + 2 + Z.of_nat n <= zlength d ->
  status_loop n (zlength pre) d (pre ++ rest) = None.
Proof.
  revert pre rest. induction n as [|n IH]; intros pre rest Hn Hd.
  - lia.
  - pose proof (zlength_nonneg pre) as Hpre.
    cbn [status_loop].
    rewrite (array_get_nth d (zlength pre + 2) 0) by lia. cbn [bind].
    destruct rest as [|x rest].
    + rewrite app_nil_r. unfold array_set.
      replace (zlength pre <? zlength pre) with false
        by (symmetry; apply Z.ltb_ge; lia).
      rewrite andb_false_r. reflexivity.
    + rewrite array_set_app. cbn [bind].
      set (m := decode_motor (nth (Z.to_nat (zlength pre + 2)) d 0)).
      assert (Hpre' : zlength (pre ++ [m]) = zlength pre + 1)
        by (rewrite zlength_app; reflexivity).
      rewrite <- Hpre'.
      change (pre ++ m :: rest) with (pre ++ [m] ++ rest).
      rewrite app_assoc. apply IH.
      * cbn [length] in Hn. lia.
      * rewrite Hpre'. lia.
Qed.

Lemma nth_payload (m : vmc96_message_t) (k : nat) :
  (Z.of_nat k < data_length m) -> nth k (payload_of m) 0 = nth k (data m) 0.
Proof.
  intros Hk. unfold payload_of. rewrite nth_firstn.
  replace (k <? Z.to_nat (data_length m))%nat with true; [reflexivity|].
  symmetry. apply Nat.ltb_lt. lia.
Qed.


(** A validated status payload that starts with 0x10 and carries more
    motor ids than the motors array of the status struct has entries makes
    the loop of [vmc96_motor_get_status] store past the array: the code
    has no bound on [status->motors]. *)
Lemma motor_status_overrun (char_signed : bool) (ctx : Type) (F : Ftdi ctx)
    (vmc96 vmc96' : VMC96_t ctx) (status : VMC96_motor_array_status_t) :
  vmc96_send_message char_signed vmc96
    VMC96_CONTROLLER_MOTOR_ARRAY VMC96_COMMAND_MOTOR_STATUS_REQUEST
    = Some (VMC96_SUCCESS, vmc96') ->
  nth 0 (payload_of (response vmc96')) 0 = 0x10 ->
  zlength (motors status) < data_length (response vmc96') - 2 ->
  vmc96_motor_get_status char_signed vmc96 status = None.
Proof.
  intros Hsend H0 Hover.
  pose proof (send_message_success_payload_fits char_signed vmc96 vmc96' _ _
                (or_intror (or_intror eq_refl)) Hsend) as Hfit.
  set (p := response vmc96') in *.
  pose proof (zlength_nonneg (motors status)) as Hm.
  rewrite (nth_payload p 0) in H0 by (change (Z.of_nat 0) with 0; lia).
  unfold vmc96_motor_get_status. rewrite Hsend.
  cbn [bind fst snd is_success negb]. fold p.
  replace (2 <=? data_length p) with true by (symmetry; apply Z.leb_le; lia).
  rewrite (array_get_nth (data p) 0 0) by lia. cbn [bind].
  change (Z.to_nat 0) with 0%nat. rewrite H0.
  unfold VMC96_COMMAND_MOTOR_STATUS_REQUEST. cbn [Z.eqb Pos.eqb negb].
  rewrite (array_get_nth (data p) 1 0) by lia. cbn [bind].
  pose proof (status_loop_overrun (Z.to_nat (data_length p - 2)) (data p) []
                (motors (zero_status status))) as Hloop.
  change (zlength (@nil VMC96_motor_t)) with 0 in Hloop. cbn [app] in Hloop.
  rewrite Hloop; [reflexivity | | lia].
  cbn [zero_status motors]. rewrite repeat_length. unfold zlength in Hover. lia.
Qed.


(** ** Outputs on error *)

(** C3, amended: for every operation with an output parameter, an error
    returned by the exchange leaves the output as the caller passed it.
    [vmc96_motor_get_status] can also fail after a successful exchange,
    with InvalidSource; it has then reset the status struct to all zeros
    and has written no decoded field.  A decoded result is only written on
    a successful return. *)
Theorem C3_outputs_on_error (char_signed : bool) (ctx : Type) (F : Ftdi ctx)
    (vmc96 : VMC96_t ctx) :
  (forall id version r vmc96' version',
     vmc96_relay_get_version char_signed vmc96 id version
       = Some (r, vmc96', version') ->
     r <> VMC96_SUCCESS -> version' = version)
  /\
  (forall version r vmc96' version',
     vmc96_motor_get_version char_signed vmc96 version
       = Some (r, vmc96', version') ->
     r <> VMC96_SUCCESS -> version' = version)
  /\
  (forall status r vmc96' status',
     vmc96_motor_opto_line_status char_signed vmc96 status
       = Some (r, vmc96', status') ->
     r <> VMC96_SUCCESS -> status' = status)
  /\
  (forall status r vmc96' status',
     vmc96_motor_get_status char_signed vmc96 status
       = Some (r, vmc96', status') ->
     r <> VMC96_SUCCESS ->
     (vmc96_send_message char_signed vmc96
        VMC96_CONTROLLER_MOTOR_ARRAY VMC96_COMMAND_MOTOR_STATUS_REQUEST
        = Some (r, vmc96')
      /\ status' = status)
     \/
     (vmc96_send_message char_signed vmc96
        VMC96_CONTROLLER_MOTOR_ARRAY VMC96_COMMAND_MOTOR_STATUS_REQUEST
        = Some (VMC96_SUCCESS, vmc96')
      /\ r = VMC96_ERROR_RESPONSE_INVALID_SOURCE
      /\ status' = zero_status status)).
Proof.
  repeat split.
  - intros id version r vmc96' version' Hop Herr.
    unfold vmc96_relay_get_version in Hop. inv_bind Hop.
    destruct (negb (is_success (fst p))).
    + injection Hop as _ _ <-. reflexivity.
    + inv_bind Hop. injection Hop as <- _ _. contradiction.
  - intros version r vmc96' version' Hop Herr.
    unfold vmc96_motor_get_version in Hop. inv_bind Hop.
    destruct (negb (is_success (fst p))).
    + injection Hop as _ _ <-. reflexivity.
    + inv_bind Hop. injection Hop as <- _ _. contradiction.
  - intros status r vmc96' status' Hop Herr.
    unfold vmc96_motor_opto_line_status in Hop. inv_bind Hop.
    destruct (negb (is_success (fst p))).
    + injection Hop as _ _ <-. reflexivity.
    + inv_bind Hop.
      destruct (data_length (response (snd p)) =? 5).
      * inv_bind Hop. injection Hop as <- _ _. contradiction.
      * injection Hop as <- _ _. contradiction.
  - intros status r vmc96' status' Hop Herr.
    unfold vmc96_motor_get_status in Hop. inv_bind Hop.
    destruct p as [r0 v0]. cbn [fst snd] in Hop.
    destruct r0; cbn [is_success negb] in Hop;
      try (left; injection Hop as <- <- <-; split; reflexivity).
    right.
    destruct (2 <=? data_length (response v0)).
    + inv_bind Hop.
      match type of Hop with
      | (if ?c then _ else _) = _ => destruct c
      end.
      * injection Hop as <- <- <-. repeat split.
      * inv_bind Hop. injection Hop as <- _ _. contradiction.
    + injection Hop as <- _ _. contradiction.
Qed.

(** ** Concrete runs *)

(** C2 as stated fails: four bytes were received, the first is 0x00, and
    the answer is InvalidLength, not Malformed. *)
Lemma C2_short_response_is_invalid_length :
  addressed (id_controller (message short_bad_start)) /\
  nth 0 (raw (response short_bad_start)) 0 <> 0x35 /\
  vmc96_parse_raw_response true short_bad_start
    = Some (VMC96_ERROR_RESPONSE_INVALID_LENGTH, short_bad_start) /\
  vmc96_parse_raw_response false short_bad_start
    = Some (VMC96_ERROR_RESPONSE_INVALID_LENGTH, short_bad_start) /\
  VMC96_ERROR_RESPONSE_INVALID_LENGTH <> VMC96_ERROR_RESPONSE_MALFORMED.
Proof.
  split; [right; right; reflexivity|].
  split; [vm_compute; discriminate|].
  split; [vm_compute; reflexivity|].
  split; [vm_compute; reflexivity | discriminate].
Qed.

(** C7 as stated fails: five bytes were received, the length byte says
    nine, and the answer is Malformed because the first byte is 0x00; with
    a good first byte and a foreign address it is InvalidSource. *)
Lemma C7_length_mismatch_not_invalid_length :
  nth 2 (raw (response mismatch_bad_start)) 0
    <> raw_length (response mismatch_bad_start) /\
  nth 2 (raw (response mismatch_bad_source)) 0
    <> raw_length (response mismatch_bad_source) /\
  vmc96_parse_raw_response true mismatch_bad_start
    = Some (VMC96_ERROR_RESPONSE_MALFORMED,
            set_response mismatch_bad_start
              (parsed_response (response mismatch_bad_start))) /\
  vmc96_parse_raw_response false mismatch_bad_start
    = Some (VMC96_ERROR_RESPONSE_MALFORMED,
            set_response mismatch_bad_start
              (parsed_response (response mismatch_bad_start))) /\
  vmc96_parse_raw_response true mismatch_bad_source
    = Some (VMC96_ERROR_RESPONSE_INVALID_SOURCE,
            set_response mismatch_bad_source
              (parsed_response (response mismatch_bad_source))) /\
  vmc96_parse_raw_response false mismatch_bad_source
    = Some (VMC96_ERROR_RESPONSE_INVALID_SOURCE,
            set_response mismatch_bad_source
              (parsed_response (response mismatch_bad_source))) /\
  VMC96_ERROR_RESPONSE_MALFORMED <> VMC96_ERROR_RESPONSE_INVALID_LENGTH /\
  VMC96_ERROR_RESPONSE_INVALID_SOURCE <> VMC96_ERROR_RESPONSE_INVALID_LENGTH.
Proof.
  split; [vm_compute; discriminate|].
  split; [vm_compute; discriminate|].
  do 4 (split; [vm_compute; reflexivity|]).
  split; discriminate.
Qed.

(** C3 as stated fails: the motor array answers a status request with the
    well-formed frame 35 30 06 00 00 03, whose payload does not start with
    0x10.  [vmc96_motor_get_status] returns InvalidSource and the caller's
    status struct, which held 250 mA and one active motor, is all zeros. *)
Lemma C3_status_cleared_on_invalid_source :
  vmc96_motor_get_status true foreign_status_reply stale_status
    = Some (VMC96_ERROR_RESPONSE_INVALID_SOURCE,
            session_after
              (vmc96_send_message true foreign_status_reply 0x30 0x10)
              foreign_status_reply,
            mk_status 0 0 [mk_motor 0 0; mk_motor 0 0]) /\
  vmc96_motor_get_status false foreign_status_reply stale_status
    = Some (VMC96_ERROR_RESPONSE_INVALID_SOURCE,
            session_after
              (vmc96_send_message false foreign_status_reply 0x30 0x10)
              foreign_status_reply,
            mk_status 0 0 [mk_motor 0 0; mk_motor 0 0]) /\
  mk_status 0 0 [mk_motor 0 0; mk_motor 0 0] <> stale_status.
Proof.
  split; [vm_compute; reflexivity|].
  split; [vm_compute; reflexivity | discriminate].
Qed.

(** The payload of scenario 3 arrives in the frame 35 30 08 10 80 11 22 AE.
    Its checksum has the top bit set: where [char] is signed the status
    request fails with InvalidChecksum and the status struct is untouched. *)
Lemma scenario_status_frame_rejected_signed_char :
  xor_all [0x35; 0x30; 0x08; 0x10; 0x80; 0x11; 0x22] = 0xAE /\
  vmc96_motor_get_status true scenario_status_reply stale_status
    = Some (VMC96_ERROR_RESPONSE_INVALID_CHECKSUM,
            session_after
              (vmc96_send_message true scenario_status_reply 0x30 0x10)
              scenario_status_reply,
            stale_status).
Proof. split; vm_compute; reflexivity. Qed.

(** Scenario 2: the motor-run frame for row 0, col 0 is 35 30 06 13 11 01. *)
Lemma scenario_motor_run_frame (char_signed : bool) :
  exists r vmc96',
    vmc96_motor_run char_signed 8 12 (scripted_session 0 0 (Some [])) 0 0
      = Some (r, vmc96') /\
    calls (ftdi vmc96')
      = [CallPurge; CallWrite [0x35; 0x30; 0x06; 0x13; 0x11; 0x01]; CallRead 255].
Proof. destruct char_signed; vm_compute; eexists; eexists; split; reflexivity. Qed.

(** Scenario 4: the version payload 02 'V' '1' '.' '0' gives the string V1.0. *)
Lemma scenario_version_string :
  exists vmc96',
    vmc96_motor_get_version false
      (scripted_session 0 0 (Some [0x35; 0x30; 0x09; 0x02; 86; 49; 46; 48; 0x77]))
      (repeat 0xCC 8)
    = Some (VMC96_SUCCESS, vmc96', [86; 49; 46; 48; 0; 0xCC; 0xCC; 0xCC]).
Proof. eexists. vm_compute. reflexivity. Qed.

(** ** Instances of the theorems above *)

Lemma C9_current_scaling_witness :
  VMC96_GET_MOTOR_CURRENT_MA 0x40 <= VMC96_GET_MOTOR_CURRENT_MA 0x80 /\
  VMC96_GET_MOTOR_CURRENT_MA 0 = 0 /\
  VMC96_GET_MOTOR_CURRENT_MA 255 = 500.
Proof. apply (C9_current_scaling 0x40 0x80); lia. Defined.

Lemma C4_coordinate_roundtrip_witness :
  to_uchar (VMC96_GET_MOTOR_ID 7 11) = VMC96_GET_MOTOR_ID 7 11 /\
  VMC96_GET_MOTOR_ROW (to_uchar (VMC96_GET_MOTOR_ID 7 11)) = 7 /\
  VMC96_GET_MOTOR_COL (to_uchar (VMC96_GET_MOTOR_ID 7 11)) = 11 /\
  decode_motor (to_uchar (VMC96_GET_MOTOR_ID 7 11)) = mk_motor 7 11.
Proof.
  apply (C4_coordinate_roundtrip 8 12 7 11); [lia | lia | lia | lia | reflexivity].
Defined.

Lemma C5_out_of_bounds_no_transport_witness :
  vmc96_motor_run true 8 12 foreign_status_reply 8 0
    = Some (VMC96_ERROR_INVALID_MOTOR_COORDINATES, foreign_status_reply) /\
  vmc96_motor_pair_run true 8 12 foreign_status_reply 8 0 3
    = Some (VMC96_ERROR_INVALID_MOTOR_COORDINATES, foreign_status_reply) /\
  vmc96_motor_pair_run true 8 12 foreign_status_reply 8 3 0
    = Some (VMC96_ERROR_INVALID_MOTOR_COORDINATES, foreign_status_reply).
Proof.
  apply (C5_out_of_bounds_no_transport true 8 12 foreign_status_reply 8 0 3); lia.
Defined.

Lemma C6_frame_layout_witness :
  exists vmc96',
    vmc96_prepare_raw_message true motor_run_request = Some (VMC96_SUCCESS, vmc96') /\
    raw_length (message vmc96') = 6 /\
    frame_of (message vmc96') = [0x35; 0x30; 0x06; 0x13; 0x11; 0x01].
Proof.
  apply (proj1 (C6_frame_layout true unit motor_run_request 0x30 0x13 [0x11])).
  - split; reflexivity.
  - unfold is_uchar. lia.
  - unfold is_uchar. lia.
  - apply Forall_cons; [unfold is_uchar; lia | apply Forall_nil].
  - vm_compute. discriminate.
  - reflexivity.
  - reflexivity.
  - reflexivity.
  - reflexivity.
Defined.

Lemma C2_bad_start_byte_malformed_witness :
  vmc96_parse_raw_response true bad_start_only
    = Some (VMC96_ERROR_RESPONSE_MALFORMED,
            set_response bad_start_only (parsed_response (response bad_start_only))).
Proof.
  apply (C2_bad_start_byte_malformed true bad_start_only).
  - right. right. reflexivity.
  - split; reflexivity.
  - vm_compute. split; discriminate.
  - vm_compute. split; discriminate.
  - vm_compute. discriminate.
Defined.

Lemma C7_length_mismatch_invalid_length_witness :
  exists vmc96',
    vmc96_parse_raw_response true mismatch_only
      = Some (VMC96_ERROR_RESPONSE_INVALID_LENGTH, vmc96').
Proof.
  apply (C7_length_mismatch_invalid_length true mismatch_only).
  - right. right. reflexivity.
  - split; reflexivity.
  - vm_compute. split; discriminate.
  - vm_compute. discriminate.
  - right. split; [reflexivity|]. split; [reflexivity|].
    vm_compute. split; discriminate.
Defined.

Lemma C10_unlisted_address_unchecked_witness :
  exists vmc96',
    vmc96_relay_ping true (scripted_session 0 0 (Some [0xDE; 0xAD])) 2
      = Some (VMC96_SUCCESS, vmc96') /\
    data (response vmc96') = data blank_message /\
    data_length (response vmc96') = 0.
Proof.
  pose (start := scripted_session 0 0 (Some [0xDE; 0xAD])).
  pose (final := session_after (vmc96_relay_ping true start 2) start).
  assert (Hun : unlisted 0x28) by (repeat split; discriminate).
  assert (Hrun : vmc96_send_message_ex true start 0x28 0x00 None 0
                 = Some (VMC96_SUCCESS, final)) by (vm_compute; reflexivity).
  destruct (proj1 (proj2 (C10_unlisted_address_unchecked true scripted _ start))
              0x28 0x00 None 0 VMC96_SUCCESS final Hun Hrun)
    as (_ & Hd & Hdl & _).
  exists final. split; [exact Hrun|]. split; [exact Hd | exact Hdl].
Defined.


Lemma C3_outputs_on_error_witness :
  vmc96_motor_get_status true purge_failure stale_status
    = Some (VMC96_ERROR_FTDI_PURGE_BUFFERS,
            session_after (vmc96_send_message true purge_failure 0x30 0x10)
              purge_failure,
            stale_status)
  /\
  ((vmc96_send_message true purge_failure
      VMC96_CONTROLLER_MOTOR_ARRAY VMC96_COMMAND_MOTOR_STATUS_REQUEST
    = Some (VMC96_ERROR_FTDI_PURGE_BUFFERS,
            session_after (vmc96_send_message true purge_failure 0x30 0x10)
              purge_failure)
    /\ stale_status = stale_status)
   \/
   (vmc96_send_message true purge_failure
      VMC96_CONTROLLER_MOTOR_ARRAY VMC96_COMMAND_MOTOR_STATUS_REQUEST
    = Some (VMC96_SUCCESS,
            session_after (vmc96_send_message true purge_failure 0x30 0x10)
              purge_failure)
    /\ VMC96_ERROR_FTDI_PURGE_BUFFERS = VMC96_ERROR_RESPONSE_INVALID_SOURCE
    /\ stale_status = zero_status stale_status)).
Proof.
  assert (Hrun : vmc96_motor_get_status true purge_failure stale_status
    = Some (VMC96_ERROR_FTDI_PURGE_BUFFERS,
            session_after (vmc96_send_message true purge_failure 0x30 0x10)
              purge_failure,
            stale_status)) by (vm_compute; reflexivity).
  split; [exact Hrun|].
  apply (proj2 (proj2 (proj2 (C3_outputs_on_error true scripted _ purge_failure)))
           stale_status VMC96_ERROR_FTDI_PURGE_BUFFERS _ stale_status Hrun).
  discriminate.
Defined.

(* ********************************************************************* *)
(** * Further properties                                                   *)
(* ********************************************************************* *)

(** ** What an accepted response guarantees *)

Lemma array_get_inv {A : Type} (a : list A) (i : Z) (x d : A) :
  array_get a i = Some x -> 0 <= i < zlength a /\ nth (Z.to_nat i) a d = x.
Proof.
  unfold array_get. destruct ((0 <=? i) && (i <? zlength a)) eqn:Hb; [|discriminate].
  apply andb_true_iff in Hb. destruct Hb as [H0 H1].
  apply Z.leb_le in H0. apply Z.ltb_lt in H1. intros Hn.
  split; [lia|]. apply nth_error_nth. exact Hn.
Qed.

Lemma frame_split (p : vmc96_message_t) :
  1 <= raw_length p <= zlength (raw p) ->
  frame_of p = firstn (Z.to_nat (raw_length p - 1)) (raw p)
               ++ [nth (Z.to_nat (raw_length p - 1)) (raw p) 0].
Proof.
  intros Hlen. unfold frame_of.
  replace (Z.to_nat (raw_length p)) with (S (Z.to_nat (raw_length p - 1))) by lia.
  apply firstn_succ_nth. unfold zlength in Hlen. lia.
Qed.

(** Everything [vmc96_parse_raw_response] has established when it returns
    success for an addressed target. *)
Lemma parse_addressed_success_inv {ctx : Type} (char_signed : bool)
    (vmc96 vmc96' : VMC96_t ctx) :
  let p := response vmc96 in
  addressed (id_controller (message vmc96)) ->
  vmc96_parse_raw_response char_signed vmc96 = Some (VMC96_SUCCESS, vmc96') ->
  5 <= raw_length p <= zlength (raw p) /\
  nth 0 (raw p) 0 = VMC96_MESSAGE_STX /\
  nth 1 (raw p) 0 = id_controller (message vmc96) /\
  nth 2 (raw p) 0 = raw_length p /\
  nth (Z.to_nat (raw_length p - 1)) (raw p) 0
    = checksum_loop char_signed 0 (firstn (Z.to_nat (raw_length p - 1)) (raw p)) /\
  to_uchar (nth 2 (raw p) 0 - 4) <= zlength (data p) /\
  vmc96' = set_response vmc96 (parsed_response p).
Proof.
  intros p Ha Hp. unfold vmc96_parse_raw_response in Hp. fold p in Hp.
  destruct (addressed_switch _ Ha) as [E0 E1]. rewrite E0, E1 in Hp.
  destruct (Z.ltb_spec (raw_length p) 5) as [Hs | Hlen]; [discriminate Hp|].
  destruct (array_get (raw p) 1) as [b1|] eqn:G1; cbn [bind] in Hp; [|discriminate Hp].
  destruct (array_get (raw p) 2) as [b2|] eqn:G2; cbn [bind] in Hp; [|discriminate Hp].
  destruct (memcpy (data p) 0 (raw p) 3 (to_uchar (b2 - 4))) as [d|] eqn:M;
    cbn [bind] in Hp; [|discriminate Hp].
  destruct (array_get (raw p) 0) as [b0|] eqn:G0; cbn [bind] in Hp; [|discriminate Hp].
  apply (array_get_inv _ _ _ 0) in G0, G1, G2.
  destruct G0 as [_ G0], G1 as [_ G1], G2 as [_ G2].
  change (Z.to_nat 0) with 0%nat in G0. change (Z.to_nat 1) with 1%nat in G1.
  change (Z.to_nat 2) with 2%nat in G2.
  destruct (Z.eqb_spec b0 VMC96_MESSAGE_STX) as [Hstx|]; [|discriminate Hp].
  destruct (Z.eqb_spec b1 (id_controller (message vmc96))) as [Hsrc|];
    [|discriminate Hp].
  destruct (Z.eqb_spec b2 (raw_length p)) as [Hdecl|]; [|discriminate Hp].
  cbn [negb] in Hp.
  destruct (array_get (raw p) (raw_length p - 1)) as [last|] eqn:GL;
    cbn [bind] in Hp; [|discriminate Hp].
  destruct (vmc96_calculate_checksum char_signed (raw p) (raw_length p - 1))
    as [sum|] eqn:CS; cbn [bind] in Hp; [|discriminate Hp].
  destruct (Z.eqb_spec last sum) as [Hck|]; [|discriminate Hp].
  cbn [negb] in Hp. injection Hp as <-.
  apply (array_get_inv _ _ _ 0) in GL. destruct GL as [HL GL].
  unfold vmc96_calculate_checksum in CS.
  destruct ((0 <=? raw_length p - 1) && (raw_length p - 1 <=? zlength (raw p)));
    [|discriminate CS].
  injection CS as <-.
  apply memcpy_Some in M. destruct M as [(_ & _ & _ & Hfit & _) ->].
  subst b0 b1. rewrite <- G2 in Hfit |- *. rewrite G2.
  repeat split; try assumption; try lia.
  all: try (rewrite <- Hck; exact GL).
  all: try (rewrite <- Hdecl; exact G2).
  - rewrite <- G2. lia.
  - unfold parsed_response. rewrite G2. reflexivity.
Qed.

Lemma accepted_frame_facts {ctx : Type} (char_signed : bool)
    (vmc96 vmc96' : VMC96_t ctx) :
  let p := response vmc96 in
  addressed (id_controller (message vmc96)) ->
  Forall is_uchar (frame_of p) ->
  vmc96_parse_raw_response char_signed vmc96 = Some (VMC96_SUCCESS, vmc96') ->
  5 <= raw_length p /\
  nth 0 (raw p) 0 = 0x35 /\
  nth 1 (raw p) 0 = id_controller (message vmc96) /\
  nth 2 (raw p) 0 = raw_length p /\
  nth (Z.to_nat (raw_length p - 1)) (raw p) 0
    = xor_all (firstn (Z.to_nat (raw_length p - 1)) (raw p)).
Proof.
  intros p Ha Hall Hp.
  destruct (parse_addressed_success_inv char_signed vmc96 vmc96' Ha Hp)
    as (Hlen & Hstx & Hsrc & Hdecl & Hck & _). fold p in Hlen, Hstx, Hsrc, Hdecl, Hck.
  repeat split; try assumption; try lia.
  rewrite frame_split in Hall by lia.
  apply Forall_app in Hall. destruct Hall as [Hpre Hlast].
  inversion Hlast; subst.
  apply Z.eqb_eq in Hck. rewrite checksum_compare in Hck by assumption.
  apply andb_true_iff in Hck. destruct Hck as [Hck _].
  apply Z.eqb_eq in Hck. exact Hck.
Qed.

(** X1: a response accepted for an addressed target is structurally
    valid: at least five bytes, first byte 0x35, echoed address equal to
    the targeted one, declared length equal to the received length and,
    for either signedness of [char], last byte equal to the XOR of the
    bytes before it. *)
Theorem accepted_response_is_valid {ctx : Type} (char_signed : bool)
    (vmc96 vmc96' : VMC96_t ctx) :
  let p := response vmc96 in
  addressed (id_controller (message vmc96)) ->
  Forall is_uchar (frame_of p) ->
  vmc96_parse_raw_response char_signed vmc96 = Some (VMC96_SUCCESS, vmc96') ->
  5 <= raw_length p /\
  nth 0 (raw p) 0 = 0x35 /\
  nth 1 (raw p) 0 = id_controller (message vmc96) /\
  nth 2 (raw p) 0 = raw_length p /\
  nth (Z.to_nat (raw_length p - 1)) (raw p) 0
    = xor_all (firstn (Z.to_nat (raw_length p - 1)) (raw p)).
Proof. apply accepted_frame_facts. Qed.

Section ValidatorSteps.

Context {ctx : Type}.
Variable char_signed : bool.

(** X2: for an addressed target, a response of at least five bytes that
    starts with 0x35 but echoes another address than the targeted one is
    rejected with InvalidSource, whatever its length byte (4..254), payload
    and checksum are. *)
Theorem foreign_address_invalid_source (vmc96 : VMC96_t ctx) :
  let p := response vmc96 in
  addressed (id_controller (message vmc96)) ->
  message_sized p ->
  5 <= raw_length p <= 255 ->
  4 <= nth 2 (raw p) 0 <= 254 ->
  nth 0 (raw p) 0 = VMC96_MESSAGE_STX ->
  nth 1 (raw p) 0 <> id_controller (message vmc96) ->
  vmc96_parse_raw_response char_signed vmc96
    = Some (VMC96_ERROR_RESPONSE_INVALID_SOURCE,
            set_response vmc96 (parsed_response p)).
Proof.
  intros p Ha [Hdata Hraw] Hlen Hdecl Hstx Hsrc.
  unfold VMC96_MESSAGE_DATA_MAX_LEN in Hdata.
  assert (Hdl : to_uchar (nth 2 (raw p) 0 - 4) = nth 2 (raw p) 0 - 4)
    by (apply to_uchar_small; unfold is_uchar; lia).
  rewrite parse_addressed by (try assumption; fold p; rewrite ?Hdl; lia).
  fold p. unfold addressed_code. rewrite Hstx, Z.eqb_refl. cbn [negb].
  apply Z.eqb_neq in Hsrc. rewrite Hsrc. reflexivity.
Qed.

End ValidatorSteps.

(** ** Single-byte corruption *)

Ltac xor_bits :=
  apply Z.bits_inj'; intros ? ?; rewrite ?Z.lxor_spec;
  repeat match goal with
         | |- context [Z.testbit ?a ?n] => destruct (Z.testbit a n)
         end; reflexivity.

Lemma fold_lxor_acc (l : list Z) (a : Z) :
  fold_left Z.lxor l a = Z.lxor a (xor_all l).
Proof.
  unfold xor_all. revert a. induction l as [|x l IH]; intros a; cbn [fold_left].
  - rewrite Z.lxor_0_r. reflexivity.
  - rewrite IH, (IH (Z.lxor 0 x)). rewrite Z.lxor_0_l. apply Z.lxor_assoc.
Qed.

Lemma xor_all_cons (x : Z) (l : list Z) : xor_all (x :: l) = Z.lxor x (xor_all l).
Proof.
  unfold xor_all at 1. cbn [fold_left]. rewrite fold_lxor_acc, Z.lxor_0_l.
  reflexivity.
Qed.

Lemma xor_all_app (a b : list Z) : xor_all (a ++ b) = Z.lxor (xor_all a) (xor_all b).
Proof.
  unfold xor_all at 1. rewrite fold_left_app. fold (xor_all a).
  apply fold_lxor_acc.
Qed.

Lemma corrupt_cons_O (a b : Z) (l : list Z) : corrupt (a :: l) 0 b = b :: l.
Proof. reflexivity. Qed.

Lemma corrupt_cons_S (a b : Z) (l : list Z) (k : nat) :
  corrupt (a :: l) (S k) b = a :: corrupt l k b.
Proof. reflexivity. Qed.

Lemma corrupt_length (l : list Z) (k : nat) (b : Z) :
  (k < length l)%nat -> length (corrupt l k b) = length l.
Proof.
  revert k. induction l as [|a l IH]; intros k Hk; [cbn [length] in Hk; lia|].
  destruct k as [|k]; [reflexivity|].
  rewrite corrupt_cons_S. cbn [length] in *. rewrite IH by lia. reflexivity.
Qed.

Lemma nth_corrupt_same (l : list Z) (k : nat) (b d : Z) :
  (k < length l)%nat -> nth k (corrupt l k b) d = b.
Proof.
  revert k. induction l as [|a l IH]; intros k Hk; [cbn [length] in Hk; lia|].
  destruct k as [|k]; [reflexivity|].
  rewrite corrupt_cons_S. cbn [nth length] in *. apply IH. lia.
Qed.

Lemma nth_corrupt_other (l : list Z) (k i : nat) (b d : Z) :
  (k < length l)%nat -> i <> k -> nth i (corrupt l k b) d = nth i l d.
Proof.
  revert k i. induction l as [|a l IH]; intros k i Hk Hi; [cbn [length] in Hk; lia|].
  destruct k as [|k].
  - rewrite corrupt_cons_O. destruct i as [|i]; [contradiction | reflexivity].
  - rewrite corrupt_cons_S. destruct i as [|i]; [reflexivity|].
    cbn [nth length] in *. apply IH; lia.
Qed.

Lemma firstn_corrupt_lt (l : list Z) (k n : nat) (b : Z) :
  (k < n)%nat -> (k < length l)%nat ->
  firstn n (corrupt l k b) = corrupt (firstn n l) k b.
Proof.
  revert k n. induction l as [|a l IH]; intros k n Hkn Hk; [cbn [length] in Hk; lia|].
  destruct n as [|n]; [lia|].
  destruct k as [|k].
  - rewrite corrupt_cons_O. cbn [firstn]. rewrite corrupt_cons_O. reflexivity.
  - rewrite corrupt_cons_S. cbn [firstn length] in *. rewrite corrupt_cons_S.
    rewrite IH by lia. reflexivity.
Qed.

Lemma firstn_corrupt_ge (l : list Z) (k n : nat) (b : Z) :
  (n <= k)%nat -> (k < length l)%nat -> firstn n (corrupt l k b) = firstn n l.
Proof.
  revert k n. induction l as [|a l IH]; intros k n Hkn Hk; [cbn [length] in Hk; lia|].
  destruct n as [|n]; [reflexivity|].
  destruct k as [|k]; [lia|].
  rewrite corrupt_cons_S. cbn [firstn length] in *. rewrite IH by lia. reflexivity.
Qed.

Lemma Forall_firstn {A : Type} (P : A -> Prop) (l : list A) (n : nat) :
  Forall P l -> Forall P (firstn n l).
Proof.
  intros Hl. revert n. induction Hl as [|a l Ha Hl IH]; intros n.
  - rewrite firstn_nil. apply Forall_nil.
  - destruct n as [|n]; [apply Forall_nil|].
    cbn [firstn]. apply Forall_cons; [exact Ha | apply IH].
Qed.

Lemma Forall_skipn {A : Type} (P : A -> Prop) (l : list A) (n : nat) :
  Forall P l -> Forall P (skipn n l).
Proof.
  intros Hl. revert n. induction Hl as [|a l Ha Hl IH]; intros n.
  - rewrite skipn_nil. apply Forall_nil.
  - destruct n as [|n]; [apply Forall_cons; assumption|]. apply IH.
Qed.

Lemma Forall_corrupt (l : list Z) (k : nat) (b : Z) :
  Forall is_uchar l -> is_uchar b -> Forall is_uchar (corrupt l k b).
Proof.
  intros Hl Hb. unfold corrupt. apply Forall_app. split.
  - apply Forall_firstn. exact Hl.
  - apply Forall_cons; [exact Hb|]. apply Forall_skipn. exact Hl.
Qed.

Lemma xor_all_corrupt (l : list Z) (k : nat) (b : Z) :
  (k < length l)%nat ->
  xor_all (corrupt l k b) = Z.lxor (xor_all l) (Z.lxor (nth k l 0) b).
Proof.
  revert k. induction l as [|a l IH]; intros k Hk; [cbn [length] in Hk; lia|].
  destruct k as [|k].
  - rewrite corrupt_cons_O, !xor_all_cons. cbn [nth]. xor_bits.
  - rewrite corrupt_cons_S, !xor_all_cons. cbn [nth length] in *.
    rewrite IH by lia. xor_bits.
Qed.

Lemma lxor_changes (x y : Z) : y <> 0 -> Z.lxor x y <> x.
Proof.
  intros Hy Heq. apply Hy.
  assert (E : y = Z.lxor x (Z.lxor x y)) by xor_bits.
  rewrite E, Heq. apply Z.lxor_nilpotent.
Qed.

Lemma xor_all_corrupt_differs (l : list Z) (k : nat) (b : Z) :
  (k < length l)%nat -> b <> nth k l 0 -> xor_all (corrupt l k b) <> xor_all l.
Proof.
  intros Hk Hb. rewrite xor_all_corrupt by exact Hk.
  apply lxor_changes. intros E. apply Z.lxor_eq in E. congruence.
Qed.

Lemma corrupted_checksum_mismatch (bytes : list Z) (n k : nat) (b : Z) :
  (k <= n)%nat -> (n < length bytes)%nat ->
  nth n bytes 0 = xor_all (firstn n bytes) ->
  b <> nth k bytes 0 ->
  nth n (corrupt bytes k b) 0 <> xor_all (firstn n (corrupt bytes k b)).
Proof.
  intros Hkn Hn Hvalid Hb.
  destruct (Nat.eq_dec k n) as [-> | Hne].
  - rewrite nth_corrupt_same by lia. rewrite firstn_corrupt_ge by lia.
    rewrite <- Hvalid. exact Hb.
  - rewrite nth_corrupt_other by lia. rewrite firstn_corrupt_lt by lia.
    rewrite Hvalid. intros E. symmetry in E. revert E.
    apply xor_all_corrupt_differs.
    + rewrite length_firstn. lia.
    + rewrite nth_firstn.
      replace (k <? n)%nat with true by (symmetry; apply Nat.ltb_lt; lia).
      exact Hb.
Qed.

(** X3: replacing any single byte of an accepted response by a different
    byte yields a response that is never accepted; when the replaced byte
    lies in the command, payload or checksum positions (offset 3 and up)
    the answer is InvalidChecksum.  This holds for either signedness of
    [char]. *)
Theorem single_byte_corruption_rejected {ctx : Type} (char_signed : bool)
    (vmc96 vmc96' : VMC96_t ctx) (k : nat) (b : Z) :
  let p := response vmc96 in
  addressed (id_controller (message vmc96)) ->
  message_sized p ->
  raw_length p <= 254 ->
  Forall is_uchar (frame_of p) ->
  vmc96_parse_raw_response char_signed vmc96 = Some (VMC96_SUCCESS, vmc96') ->
  (k < Z.to_nat (raw_length p))%nat ->
  is_uchar b ->
  b <> nth k (raw p) 0 ->
  (forall code vmc96'',
     vmc96_parse_raw_response char_signed (damaged vmc96 k b) = Some (code, vmc96'') ->
     code <> VMC96_SUCCESS)
  /\
  ((3 <= k)%nat ->
   vmc96_parse_raw_response char_signed (damaged vmc96 k b)
     = Some (VMC96_ERROR_RESPONSE_INVALID_CHECKSUM,
             set_response (damaged vmc96 k b)
               (parsed_response (response (damaged vmc96 k b))))).
Proof.
  intros p Ha [Hdata Hraw] Hmax Hall Hp Hk Hb Hne.
  destruct (parse_addressed_success_inv char_signed vmc96 vmc96' Ha Hp)
    as (Hlen & Hstx & Hsrc & Hdecl & Hck & _).
  fold p in Hlen, Hstx, Hsrc, Hdecl, Hck.
  unfold VMC96_MESSAGE_MAX_LEN in Hraw.
  assert (Hklen : (k < length (raw p))%nat) by (unfold zlength in *; lia).
  assert (Hvalid : nth (Z.to_nat (raw_length p - 1)) (raw p) 0
                   = xor_all (firstn (Z.to_nat (raw_length p - 1)) (raw p))).
  { pose proof Hall as Hall'. rewrite frame_split in Hall' by lia.
    apply Forall_app in Hall'. destruct Hall' as [Hpre Hlast].
    inversion Hlast; subst.
    apply Z.eqb_eq in Hck. rewrite checksum_compare in Hck by assumption.
    apply andb_true_iff in Hck. destruct Hck as [Hck _].
    apply Z.eqb_eq in Hck. exact Hck. }
  assert (Hbad : nth (Z.to_nat (raw_length p - 1)) (corrupt (raw p) k b) 0
                 <> xor_all (firstn (Z.to_nat (raw_length p - 1))
                               (corrupt (raw p) k b))).
  { apply corrupted_checksum_mismatch; try assumption; unfold zlength in *; lia. }
  assert (Hall2 : Forall is_uchar (frame_of (response (damaged vmc96 k b)))).
  { unfold frame_of, damaged. cbn [response set_response raw raw_length]. fold p.
    rewrite firstn_corrupt_lt by lia. apply Forall_corrupt; assumption. }
  split.
  - intros code vmc96'' Hp2 ->.
    pose proof (accepted_frame_facts char_signed (damaged vmc96 k b) vmc96''
                  Ha Hall2 Hp2) as (_ & Hstx2 & Hsrc2 & Hdecl2 & Hck2).
    unfold damaged in Hstx2, Hsrc2, Hdecl2, Hck2.
    cbn [response set_response raw raw_length message] in Hstx2, Hsrc2, Hdecl2, Hck2.
    fold p in Hstx2, Hsrc2, Hdecl2, Hck2.
    destruct (Nat.eq_dec k 0) as [-> | H0].
    { rewrite nth_corrupt_same in Hstx2 by assumption.
      apply Hne. rewrite Hstx. exact Hstx2. }
    destruct (Nat.eq_dec k 1) as [-> | H1].
    { rewrite nth_corrupt_same in Hsrc2 by assumption.
      apply Hne. rewrite Hsrc. exact Hsrc2. }
    destruct (Nat.eq_dec k 2) as [-> | H2].
    { rewrite nth_corrupt_same in Hdecl2 by assumption.
      apply Hne. rewrite Hdecl. exact Hdecl2. }
    exact (Hbad Hck2).
  - intros H3.
    assert (Hsized2 : message_sized (response (damaged vmc96 k b))).
    { unfold damaged. cbn [response set_response]. split; cbn [data raw].
      - exact Hdata.
      - unfold VMC96_MESSAGE_MAX_LEN, zlength in *.
        rewrite corrupt_length by exact Hklen. exact Hraw. }
    pose proof (parse_checksum_step char_signed (damaged vmc96 k b)) as Hstep.
    cbv zeta in Hstep.
    unfold damaged in Hstep at 1 2 3 4 5 6 7 8 9 10.
    cbn [response set_response raw raw_length message] in Hstep. fold p in Hstep.
    rewrite Hstep; clear Hstep; try assumption; try lia.
    + apply Z.eqb_neq in Hbad.
      unfold damaged at 1 2 3 4. cbn [response set_response raw raw_length].
      fold p. rewrite Hbad. reflexivity.
    + rewrite nth_corrupt_other by lia. exact Hstx.
    + rewrite nth_corrupt_other by lia. exact Hsrc.
    + rewrite nth_corrupt_other by lia. exact Hdecl.
Qed.

(** ** Broadcast replies *)

(** X4: for a request to the broadcast address the validator applies no
    framing at all: an empty read is InvalidLength with the session left
    as it was, and a read of 1 to 250 bytes is accepted with the received
    bytes, first byte included, as the payload. *)
Theorem broadcast_reply_verbatim {ctx : Type} (char_signed : bool)
    (vmc96 : VMC96_t ctx) :
  let p := response vmc96 in
  id_controller (message vmc96) = VMC96_CONTROLLER_GLOBAL_BROADCAST ->
  message_sized p ->
  0 <= raw_length p <= 250 ->
  (raw_length p = 0 ->
   vmc96_parse_raw_response char_signed vmc96
     = Some (VMC96_ERROR_RESPONSE_INVALID_LENGTH, vmc96))
  /\
  (1 <= raw_length p ->
   exists vmc96',
     vmc96_parse_raw_response char_signed vmc96 = Some (VMC96_SUCCESS, vmc96') /\
     data_length (response vmc96') = raw_length p /\
     payload_of (response vmc96') = frame_of p /\
     id_controller (response vmc96') = id_controller p).
Proof.
  intros p Hb [Hdata Hraw] Hlen.
  unfold VMC96_MESSAGE_DATA_MAX_LEN in Hdata. unfold VMC96_MESSAGE_MAX_LEN in Hraw.
  unfold vmc96_parse_raw_response. fold p. rewrite Hb. cbn [Z.eqb].
  split.
  - intros ->. reflexivity.
  - intros Hpos.
    replace (raw_length p <=? 0) with false by (symmetry; apply Z.leb_gt; lia).
    rewrite memcpy_ok by lia. cbn [bind].
    eexists. split; [reflexivity|].
    cbn [response set_response data_length id_controller].
    split; [reflexivity|]. split; [|reflexivity].
    unfold payload_of, frame_of. cbn [data data_length].
    change (Z.to_nat 0) with 0%nat. cbn [firstn skipn app].
    rewrite firstn_app, firstn_firstn, Nat.min_id, length_firstn.
    unfold zlength in Hraw.
    replace (Z.to_nat (raw_length p)
             - Nat.min (Z.to_nat (raw_length p)) (length (raw p)))%nat
      with 0%nat by lia.
    cbn [firstn]. apply app_nil_r.
Qed.

(** ** One exchange on the wire *)

Lemma zlength_firstn_fits {A : Type} (l : list A) (n : Z) :
  0 <= n <= zlength l -> zlength (firstn (Z.to_nat n) l) = n.
Proof. intros Hn. unfold zlength in *. rewrite length_firstn. lia. Qed.

Lemma request_payload_zlength (data_arg : option (list Z)) (datalen : Z) :
  request_fits data_arg datalen ->
  0 <= zlength (request_payload data_arg datalen) <= 250 /\
  (forall src, data_arg = Some src -> 0 < datalen ->
     zlength (request_payload data_arg datalen) = datalen).
Proof.
  intros Hfit. destruct data_arg as [src|]; cbn [request_payload request_fits] in *.
  - destruct Hfit as [Hn Hsrc]. destruct (Z.ltb_spec 0 datalen).
    + rewrite zlength_firstn_fits by lia. split; [lia|]. intros; reflexivity.
    + split; [unfold zlength; cbn [length]; lia|]. intros; lia.
  - split; [unfold zlength; cbn [length]; lia|]. intros; discriminate.
Qed.

(** Filling [message.data] from the arguments of [vmc96_send_message_ex]. *)
Lemma fill_request (buffer : list Z) (data_arg : option (list Z)) (datalen : Z) :
  zlength buffer = 250 ->
  request_fits data_arg datalen ->
  exists filled,
    match data_arg with
    | Some src =>
        if 0 <? datalen
        then d <- memcpy buffer 0 src 0 datalen ;; Some (d, datalen)
        else d <- memset buffer 0 VMC96_MESSAGE_DATA_MAX_LEN ;; Some (d, 0)
    | None => d <- memset buffer 0 VMC96_MESSAGE_DATA_MAX_LEN ;; Some (d, 0)
    end = Some filled /\
    zlength (fst filled) = 250 /\
    snd filled = zlength (request_payload data_arg datalen) /\
    firstn (Z.to_nat (snd filled)) (fst filled) = request_payload data_arg datalen.
Proof.
  intros Hbuf Hfit.
  assert (Hzero : memset buffer 0 VMC96_MESSAGE_DATA_MAX_LEN = Some (repeat 0 250)).
  { unfold memset, VMC96_MESSAGE_DATA_MAX_LEN. rewrite Hbuf. cbn [Z.leb Z.compare andb
      Pos.compare Pos.compare_cont].
    rewrite skipn_all2 by (unfold zlength in Hbuf; lia).
    rewrite app_nil_r. reflexivity. }
  destruct data_arg as [src|]; cbn [request_payload request_fits] in *.
  - destruct Hfit as [Hn Hsrc]. destruct (Z.ltb_spec 0 datalen).
    + rewrite memcpy_ok by lia. cbn [bind].
      eexists. split; [reflexivity|]. cbn [fst snd].
      change (Z.to_nat 0) with 0%nat. cbn [firstn skipn app]. rewrite Z.add_0_l.
      split; [|split].
      * rewrite zlength_app. unfold zlength in *.
        rewrite length_firstn, length_skipn. lia.
      * rewrite zlength_firstn_fits by lia. reflexivity.
      * rewrite firstn_app, firstn_firstn, Nat.min_id, length_firstn.
        unfold zlength in Hsrc.
        replace (Z.to_nat datalen - Nat.min (Z.to_nat datalen) (length src))%nat
          with 0%nat by lia.
        cbn [firstn]. apply app_nil_r.
    + rewrite Hzero. cbn [bind]. eexists. split; [reflexivity|]. cbn [fst snd].
      repeat split.
  - rewrite Hzero. cbn [bind]. eexists. split; [reflexivity|]. cbn [fst snd].
    repeat split.
Qed.

Section OnTheWire.

Context {ctx : Type} `{Ftdi ctx}.
Variable char_signed : bool.

(** [vmc96_send_message_ex] up to the transport: the session handed to
    [vmc96_send_raw_message] carries the frame for the request. *)
Lemma exchange_prepared (vmc96 : VMC96_t ctx) (id_cntlr cmd : Z)
    (data_arg : option (list Z)) (datalen : Z) :
  message_sized (message vmc96) ->
  request_fits data_arg datalen ->
  let payload := request_payload data_arg datalen in
  let body := [VMC96_MESSAGE_STX; id_cntlr; zlength payload + 5; cmd] ++ payload in
  exists prepared : VMC96_t ctx,
    ftdi prepared = ftdi vmc96 /\
    response prepared = response vmc96 /\
    id_controller (message prepared) = id_cntlr /\
    message_sized (message prepared) /\
    raw_length (message prepared) = zlength payload + 5 /\
    frame_of (message prepared)
      = body ++ [to_uchar (checksum_loop char_signed 0 body)] /\
    vmc96_send_message_ex char_signed vmc96 id_cntlr cmd data_arg datalen
    = (sent <- vmc96_send_raw_message prepared ;;
       if negb (is_success (fst sent)) then Some sent
       else vmc96_parse_raw_response char_signed (snd sent)).
Proof.
  intros [Hdata Hraw] Hfit payload body.
  unfold VMC96_MESSAGE_DATA_MAX_LEN in Hdata.
  destruct (fill_request (data (message vmc96)) data_arg datalen Hdata Hfit)
    as ([d dl] & Hfill & Hd & Hdl & Hpay).
  cbn [fst snd] in Hd, Hdl, Hpay. fold payload in Hdl, Hpay.
  destruct (request_payload_zlength data_arg datalen Hfit) as [Hrange _].
  fold payload in Hrange.
  unfold vmc96_send_message_ex. rewrite Hfill. cbn [bind fst snd].
  set (vmc96a := set_message vmc96
                   (mk_message id_cntlr cmd d dl (raw (message vmc96))
                      (raw_length (message vmc96)))).
  assert (Hsized : message_sized (message vmc96a)).
  { split; cbn [vmc96a message set_message data raw]; assumption. }
  destruct (prepare_ok char_signed vmc96a Hsized) as (tail & Htail & Hprep).
  { cbn [vmc96a message set_message data_length]. lia. }
  cbv zeta in Hprep.
  unfold frame_header, payload_of in Hprep.
  cbn [vmc96a message set_message id_controller command data data_length] in Hprep, Htail.
  rewrite Hpay, Hdl in Hprep. rewrite Hdl in Htail. fold body in Hprep.
  rewrite Hprep. cbn [bind fst snd is_success negb].
  exists (set_message vmc96a
            (mk_message id_cntlr cmd d (zlength payload)
               (body ++ to_uchar (checksum_loop char_signed 0 body) :: tail)
               (zlength payload + 5))).
  repeat split; try reflexivity.
  - cbn [message set_message data]. exact Hd.
  - cbn [message set_message raw]. unfold VMC96_MESSAGE_MAX_LEN.
    rewrite zlength_app.
    assert (Hb : zlength body = zlength payload + 4).
    { unfold body. rewrite zlength_app. unfold zlength. cbn [length]. lia. }
    assert (Ht : zlength (to_uchar (checksum_loop char_signed 0 body) :: tail)
                 = zlength tail + 1)
      by (unfold zlength; cbn [length]; lia).
    lia.
  - unfold frame_of. cbn [message set_message raw raw_length].
    change (body ++ to_uchar (checksum_loop char_signed 0 body) :: tail)
      with (body ++ [to_uchar (checksum_loop char_signed 0 body)] ++ tail).
    rewrite app_assoc. apply firstn_exact.
    rewrite zlength_app. unfold body. rewrite zlength_app.
    unfold zlength. cbn [length]. lia.
Qed.

Lemma parse_keeps_request (vmc96 vmc96' : VMC96_t ctx) (r : vmc96_code) :
  vmc96_parse_raw_response char_signed vmc96 = Some (r, vmc96') ->
  ftdi vmc96' = ftdi vmc96 /\ message vmc96' = message vmc96 /\
  raw (response vmc96') = raw (response vmc96) /\
  raw_length (response vmc96') = raw_length (response vmc96) /\
  zlength (data (response vmc96')) = zlength (data (response vmc96)).
Proof.
  intros Hp. unfold vmc96_parse_raw_response in Hp.
  destruct (id_controller (message vmc96) =? VMC96_CONTROLLER_GLOBAL_BROADCAST).
  { destruct (raw_length (response vmc96) <=? 0).
    - injection Hp as <- <-. repeat split.
    - destruct (memcpy _ _ _ _ _) as [d|] eqn:M; cbn [bind] in Hp; [|discriminate Hp].
      injection Hp as <- <-. apply memcpy_length in M. repeat split. exact M. }
  destruct ((id_controller (message vmc96) =? VMC96_CONTROLLER_RELAY_1)
            || (id_controller (message vmc96) =? VMC96_CONTROLLER_RELAY_2)
            || (id_controller (message vmc96) =? VMC96_CONTROLLER_MOTOR_ARRAY)).
  2:{ injection Hp as <- <-. repeat split. }
  destruct (raw_length (response vmc96) <? 5).
  { injection Hp as <- <-. repeat split. }
  destruct (array_get (raw (response vmc96)) 1) as [b1|]; cbn [bind] in Hp;
    [|discriminate Hp].
  destruct (array_get (raw (response vmc96)) 2) as [b2|]; cbn [bind] in Hp;
    [|discriminate Hp].
  destruct (memcpy _ _ _ _ _) as [d|] eqn:M; cbn [bind] in Hp; [|discriminate Hp].
  apply memcpy_length in M.
  destruct (array_get (raw (response vmc96)) 0) as [b0|]; cbn [bind] in Hp;
    [|discriminate Hp].
  destruct (negb (b0 =? VMC96_MESSAGE_STX)).
  { injection Hp as <- <-. repeat split. exact M. }
  destruct (negb (b1 =? id_controller (message vmc96))).
  { injection Hp as <- <-. repeat split. exact M. }
  destruct (negb (b2 =? raw_length (response vmc96))).
  { injection Hp as <- <-. repeat split. exact M. }
  destruct (array_get _ _) as [last|]; cbn [bind] in Hp; [|discriminate Hp].
  destruct (vmc96_calculate_checksum _ _ _) as [sum|]; cbn [bind] in Hp;
    [|discriminate Hp].
  destruct (negb (last =? sum)); injection Hp as <- <-; repeat split; exact M.
Qed.

End OnTheWire.

(** [vmc96_send_raw_message] over the recording transport. *)
Lemma send_raw_scripted (vmc96 : VMC96_t scripted) :
  0 <= raw_length (message vmc96) <= zlength (raw (message vmc96)) ->
  zlength (raw (response vmc96)) = VMC96_MESSAGE_MAX_LEN ->
  let c := ftdi vmc96 in
  let frame := frame_of (message vmc96) in
  exists sent,
    vmc96_send_raw_message vmc96 = Some sent /\
    message (snd sent) = message vmc96 /\
    calls (ftdi (snd sent)) = calls c ++ exchange_calls c frame /\
    purge_answer (ftdi (snd sent)) = purge_answer c /\
    write_answer (ftdi (snd sent)) = write_answer c /\
    read_answer (ftdi (snd sent)) = read_answer c /\
    (purge_answer c < 0 ->
       fst sent = VMC96_ERROR_FTDI_PURGE_BUFFERS /\
       response (snd sent) = response vmc96) /\
    (0 <= purge_answer c -> write_answer c < 0 ->
       fst sent = VMC96_ERROR_FTDI_WRITE_DATA /\
       response (snd sent) = response vmc96) /\
    (0 <= purge_answer c -> 0 <= write_answer c -> read_answer c = None ->
       fst sent = VMC96_ERROR_FTDI_READ_DATA /\
       response (snd sent) = response vmc96) /\
    (forall bytes,
       0 <= purge_answer c -> 0 <= write_answer c -> read_answer c = Some bytes ->
       let got := firstn 255 bytes in
       let p := response vmc96 in
       fst sent = VMC96_SUCCESS /\
       response (snd sent)
       = mk_message (id_controller p) (command p) (data p) (data_length p)
           (got ++ skipn (length got) (raw p)) (zlength got)).
Proof.
  intros Hlen Hraw c frame. unfold VMC96_MESSAGE_MAX_LEN in Hraw.
  unfold vmc96_send_raw_message.
  unfold ftdi_usb_purge_buffers, ftdi_write_data, ftdi_read_data, scripted_ftdi.
  fold c. unfold exchange_calls.
  destruct (Z.ltb_spec (purge_answer c) 0) as [Hp | Hp].
  { eexists. split; [reflexivity|]. cbn [fst snd set_ftdi ftdi message response
      record_call calls purge_answer write_answer read_answer].
    repeat split; intros; try lia. }
  replace ((0 <=? raw_length (message vmc96))
           && (raw_length (message vmc96) <=? zlength (raw (message vmc96))))
    with true
    by (symmetry; apply andb_true_iff; split; apply Z.leb_le; lia).
  cbn [record_call purge_answer write_answer read_answer calls].
  fold (frame_of (message vmc96)). fold frame.
  destruct (Z.ltb_spec (write_answer c) 0) as [Hw | Hw].
  { eexists. split; [reflexivity|]. cbn [fst snd set_ftdi ftdi message response
      record_call calls purge_answer write_answer read_answer].
    rewrite <- app_assoc. repeat split; intros; try lia. }
  destruct (read_answer c) as [bytes|] eqn:Hr.
  - set (got := firstn (Z.to_nat VMC96_MESSAGE_MAX_LEN) bytes).
    assert (Hgot : zlength got <= 255).
    { unfold got, zlength. rewrite length_firstn.
      change (Z.to_nat VMC96_MESSAGE_MAX_LEN) with 255%nat. lia. }
    pose proof (zlength_nonneg got) as Hgot0.
    rewrite memcpy_ok by lia. cbn [bind].
    rewrite (to_uchar_small (zlength got)) by (unfold is_uchar; lia).
    eexists. split; [reflexivity|]. cbn [fst snd set_ftdi ftdi message response
      record_call calls purge_answer write_answer read_answer].
    rewrite <- !app_assoc. repeat split; intros; try lia; try discriminate;
      try exact Hr.
    match goal with
    | Hb : Some bytes = Some ?b |- _ => injection Hb as <-
    end.
    change (Z.to_nat 0) with 0%nat. cbn [firstn skipn app]. rewrite Z.add_0_l.
    fold got.
    replace (Z.to_nat (zlength got)) with (length got)
      by (unfold zlength; rewrite Nat2Z.id; reflexivity).
    rewrite firstn_all. reflexivity.
  - assert (Hnone : memcpy (raw (response vmc96)) 0
                      (firstn (Z.to_nat VMC96_MESSAGE_MAX_LEN) []) 0
                      (zlength (firstn (Z.to_nat VMC96_MESSAGE_MAX_LEN) (@nil Z)))
                    = Some (raw (response vmc96))).
    { rewrite firstn_nil. change (zlength (@nil Z)) with 0.
      rewrite memcpy_ok by (change (zlength (@nil Z)) with 0; lia). reflexivity. }
    rewrite Hnone. cbn [bind].
    eexists. split; [reflexivity|]. cbn [fst snd set_ftdi ftdi message response
      record_call calls purge_answer write_answer read_answer].
    rewrite <- !app_assoc. repeat split; intros; try lia; try discriminate;
      try exact Hr.
    destruct (response vmc96); reflexivity.
Qed.

Section RecordedExchange.

Variable char_signed : bool.
Variable vmc96 : VMC96_t scripted.
Variables id_cntlr cmd : Z.
Variable data_arg : option (list Z).
Variable datalen : Z.

Hypothesis Hmessage : message_sized (message vmc96).
Hypothesis Hresponse : zlength (raw (response vmc96)) = VMC96_MESSAGE_MAX_LEN.
Hypothesis Hfits : request_fits data_arg datalen.

(** The exchange, reduced to what [vmc96_send_raw_message] returned. *)
Lemma exchange_sent :
  let payload := request_payload data_arg datalen in
  let body := [VMC96_MESSAGE_STX; id_cntlr; zlength payload + 5; cmd] ++ payload in
  let frame := body ++ [to_uchar (checksum_loop char_signed 0 body)] in
  let c := ftdi vmc96 in
  exists sent : vmc96_code * VMC96_t scripted,
    vmc96_send_message_ex char_signed vmc96 id_cntlr cmd data_arg datalen
    = (if negb (is_success (fst sent)) then Some sent
       else vmc96_parse_raw_response char_signed (snd sent)) /\
    id_controller (message (snd sent)) = id_cntlr /\
    calls (ftdi (snd sent)) = calls c ++ exchange_calls c frame /\
    (purge_answer c < 0 ->
       fst sent = VMC96_ERROR_FTDI_PURGE_BUFFERS /\
       response (snd sent) = response vmc96) /\
    (0 <= purge_answer c -> write_answer c < 0 ->
       fst sent = VMC96_ERROR_FTDI_WRITE_DATA /\
       response (snd sent) = response vmc96) /\
    (0 <= purge_answer c -> 0 <= write_answer c -> read_answer c = None ->
       fst sent = VMC96_ERROR_FTDI_READ_DATA /\
       response (snd sent) = response vmc96) /\
    (forall bytes,
       0 <= purge_answer c -> 0 <= write_answer c -> read_answer c = Some bytes ->
       let got := firstn 255 bytes in
       let p := response vmc96 in
       fst sent = VMC96_SUCCESS /\
       response (snd sent)
       = mk_message (id_controller p) (command p) (data p) (data_length p)
           (got ++ skipn (length got) (raw p)) (zlength got)).
Proof.
  intros payload body frame c.
  destruct (exchange_prepared char_signed vmc96 id_cntlr cmd data_arg datalen
              Hmessage Hfits)
    as (prepared & Hftdi & Hresp & Hid & [Hpd Hpr] & Hrl & Hframe & Heq).
  fold payload in Hrl, Hframe. fold body in Hframe. fold frame in Hframe.
  destruct (request_payload_zlength data_arg datalen Hfits) as [Hrange _].
  fold payload in Hrange.
  destruct (send_raw_scripted prepared) as (sent & Hsent & Hmsg & Hcalls & _ & _ & _
                                            & Hpurge & Hwrite & Hread & Hgot).
  { rewrite Hrl, Hpr. unfold VMC96_MESSAGE_MAX_LEN. lia. }
  { rewrite Hresp. exact Hresponse. }
  rewrite Hftdi, Hresp in *. rewrite Hframe in Hcalls.
  exists sent. rewrite Heq, Hsent. cbn [bind].
  split; [reflexivity|]. split; [rewrite Hmsg; exact Hid|].
  split; [exact Hcalls|]. split; [exact Hpurge|]. split; [exact Hwrite|].
  split; [exact Hread | exact Hgot].
Qed.

Lemma exchange_calls_recorded (r : vmc96_code) (vmc96' : VMC96_t scripted) :
  is_uchar id_cntlr -> is_uchar cmd ->
  Forall is_uchar (request_payload data_arg datalen) ->
  vmc96_send_message_ex char_signed vmc96 id_cntlr cmd data_arg datalen
    = Some (r, vmc96') ->
  calls (ftdi vmc96')
  = calls (ftdi vmc96)
    ++ exchange_calls (ftdi vmc96)
         (wire_frame id_cntlr cmd (request_payload data_arg datalen)).
Proof.
  intros Ha Hc Hpay Hx.
  destruct exchange_sent as (sent & Heq & _ & Hcalls & _).
  destruct (request_payload_zlength data_arg datalen Hfits) as [Hrange _].
  rewrite stored_checksum in Hcalls.
  2:{ apply Forall_app. split; [|exact Hpay].
      unfold is_uchar in Ha, Hc.
      repeat (apply Forall_cons; [unfold is_uchar, VMC96_MESSAGE_STX; lia|]).
      apply Forall_nil. }
  change (calls (ftdi (snd sent))
          = calls (ftdi vmc96)
            ++ exchange_calls (ftdi vmc96)
                 (wire_frame id_cntlr cmd (request_payload data_arg datalen)))
    in Hcalls.
  rewrite Heq in Hx. destruct (negb (is_success (fst sent))).
  - injection Hx as Hx. rewrite Hx in Hcalls. exact Hcalls.
  - apply parse_keeps_request in Hx. destruct Hx as [Hf _]. rewrite Hf. exact Hcalls.
Qed.

(** X5: whatever an exchange returns, the libftdi calls it made are, in
    this order, one purge, then (unless the purge failed) one write of
    exactly the frame [0x35][address][len+5][command][payload][XOR], then
    (unless the write failed) one read of up to 255 bytes; nothing else is
    called and nothing is retried. *)
Theorem exchange_call_sequence (r : vmc96_code) (vmc96' : VMC96_t scripted) :
  is_uchar id_cntlr -> is_uchar cmd ->
  Forall is_uchar (request_payload data_arg datalen) ->
  vmc96_send_message_ex char_signed vmc96 id_cntlr cmd data_arg datalen
    = Some (r, vmc96') ->
  calls (ftdi vmc96')
  = calls (ftdi vmc96)
    ++ exchange_calls (ftdi vmc96)
         (wire_frame id_cntlr cmd (request_payload data_arg datalen)).
Proof. apply exchange_calls_recorded. Qed.

(** X7: when the device stays silent or sends fewer than five bytes in
    answer to a request to 0x26, 0x27 or 0x30, the exchange returns
    InvalidLength, and the payload fields of the response still hold what
    the previous exchange decoded. *)
Theorem short_answer_invalid_length (bytes : list Z) :
  addressed id_cntlr ->
  0 <= purge_answer (ftdi vmc96) -> 0 <= write_answer (ftdi vmc96) ->
  read_answer (ftdi vmc96) = Some bytes ->
  (length bytes < 5)%nat ->
  exists vmc96',
    vmc96_send_message_ex char_signed vmc96 id_cntlr cmd data_arg datalen
      = Some (VMC96_ERROR_RESPONSE_INVALID_LENGTH, vmc96') /\
    frame_of (response vmc96') = bytes /\
    data (response vmc96') = data (response vmc96) /\
    data_length (response vmc96') = data_length (response vmc96).
Proof.
  intros Ha Hp Hw Hr Hshort.
  destruct exchange_sent as ([code sent] & Heq & Hid & _ & _ & _ & _ & Hgot).
  cbn [fst snd] in *. destruct (Hgot bytes Hp Hw Hr) as [-> Hresp].
  cbn [is_success negb] in Heq.
  rewrite firstn_all2 in Hresp by lia.
  exists sent. rewrite Heq.
  split; [|rewrite Hresp; cbn [data data_length]; split; [|split; reflexivity]].
  - apply parse_short.
    + rewrite Hid. exact Ha.
    + rewrite Hresp. cbn [raw_length]. unfold zlength. lia.
  - unfold frame_of. cbn [raw raw_length]. apply firstn_zlength_app.
Qed.

End RecordedExchange.

Section TransportFailure.

Context {ctx : Type} `{Ftdi ctx}.
Variable char_signed : bool.
Variable vmc96 : VMC96_t ctx.
Variables id_cntlr cmd : Z.
Variable data_arg : option (list Z).
Variable datalen : Z.

Hypothesis Hmessage : message_sized (message vmc96).
Hypothesis Hresponse : zlength (raw (response vmc96)) = VMC96_MESSAGE_MAX_LEN.
Hypothesis Hfits : request_fits data_arg datalen.

(** X6: over any transport, a failing libftdi call ends the exchange at
    once with its own error kind, in the order purge, write, read: the
    library is left in the state right after the failing call.  After a
    failed purge or write the response buffer is exactly as the previous
    exchange left it.  After a failed read the payload fields and the
    stored length of the response are unchanged, while the raw buffer
    starts with whatever bytes libftdi had stored before it failed. *)
Theorem transport_failure_aborts :
  let purged := ftdi_usb_purge_buffers (ftdi vmc96) in
  let written :=
    ftdi_write_data (snd purged)
      (built_frame char_signed id_cntlr cmd data_arg datalen) in
  let read := ftdi_read_data (snd written) VMC96_MESSAGE_MAX_LEN in
  (fst purged < 0 ->
   exists vmc96',
     vmc96_send_message_ex char_signed vmc96 id_cntlr cmd data_arg datalen
       = Some (VMC96_ERROR_FTDI_PURGE_BUFFERS, vmc96') /\
     ftdi vmc96' = snd purged /\
     response vmc96' = response vmc96)
  /\
  (0 <= fst purged -> fst written < 0 ->
   exists vmc96',
     vmc96_send_message_ex char_signed vmc96 id_cntlr cmd data_arg datalen
       = Some (VMC96_ERROR_FTDI_WRITE_DATA, vmc96') /\
     ftdi vmc96' = snd written /\
     response vmc96' = response vmc96)
  /\
  (forall stored,
     0 <= fst purged -> 0 <= fst written -> fst read = ReadFailed stored ->
     exists vmc96',
       vmc96_send_message_ex char_signed vmc96 id_cntlr cmd data_arg datalen
         = Some (VMC96_ERROR_FTDI_READ_DATA, vmc96') /\
       ftdi vmc96' = snd read /\
       data (response vmc96') = data (response vmc96) /\
       data_length (response vmc96') = data_length (response vmc96) /\
       id_controller (response vmc96') = id_controller (response vmc96) /\
       raw_length (response vmc96') = raw_length (response vmc96) /\
       raw (response vmc96')
       = firstn 255 stored
         ++ skipn (length (firstn 255 stored)) (raw (response vmc96))).
Proof.
  intros purged written read.
  destruct (exchange_prepared char_signed vmc96 id_cntlr cmd data_arg datalen
              Hmessage Hfits)
    as (prepared & Hftdi & Hresp & Hid & [Hpd Hpr] & Hrl & Hframe & Heq).
  fold (built_frame char_signed id_cntlr cmd data_arg datalen) in Hframe.
  destruct (request_payload_zlength data_arg datalen Hfits) as [Hrange _].
  unfold VMC96_MESSAGE_MAX_LEN in Hpr, Hresponse.
  rewrite Heq. unfold vmc96_send_raw_message. rewrite Hftdi. fold purged.
  destruct purged as [ret1 c1]. cbn [fst snd] in *.
  split; [|split].
  - intros Hp. replace (ret1 <? 0) with true by (symmetry; apply Z.ltb_lt; exact Hp).
    cbn [bind fst snd is_success negb].
    eexists. split; [reflexivity|]. split; [reflexivity | exact Hresp].
  - intros Hp Hw.
    replace (ret1 <? 0) with false by (symmetry; apply Z.ltb_ge; exact Hp).
    replace ((0 <=? raw_length (message prepared))
             && (raw_length (message prepared) <=? zlength (raw (message prepared))))
      with true
      by (symmetry; apply andb_true_iff; split; apply Z.leb_le; lia).
    fold (frame_of (message prepared)). rewrite Hframe. fold written.
    destruct written as [ret2 c2]. cbn [fst snd] in *.
    replace (ret2 <? 0) with true by (symmetry; apply Z.ltb_lt; exact Hw).
    cbn [bind fst snd is_success negb].
    eexists. split; [reflexivity|]. split; [reflexivity | exact Hresp].
  - intros stored Hp Hw Hr.
    replace (ret1 <? 0) with false by (symmetry; apply Z.ltb_ge; exact Hp).
    replace ((0 <=? raw_length (message prepared))
             && (raw_length (message prepared) <=? zlength (raw (message prepared))))
      with true
      by (symmetry; apply andb_true_iff; split; apply Z.leb_le; lia).
    fold (frame_of (message prepared)). rewrite Hframe. fold written.
    destruct written as [ret2 c2]. cbn [fst snd] in *.
    replace (ret2 <? 0) with false by (symmetry; apply Z.ltb_ge; exact Hw).
    fold read. destruct read as [answer c3]. cbn [fst snd] in *. subst answer.
    set (got := firstn (Z.to_nat VMC96_MESSAGE_MAX_LEN) stored).
    assert (Hgot : zlength got <= 255).
    { unfold got, zlength. rewrite length_firstn.
      change (Z.to_nat VMC96_MESSAGE_MAX_LEN) with 255%nat. lia. }
    pose proof (zlength_nonneg got) as Hgot0.
    rewrite Hresp. rewrite memcpy_ok by lia.
    cbn [bind fst snd is_success negb].
    eexists. split; [reflexivity|].
    cbn [ftdi response data data_length id_controller raw raw_length].
    repeat (split; [reflexivity|]).
    change (Z.to_nat 0) with 0%nat. cbn [firstn skipn app]. rewrite Z.add_0_l.
    replace (Z.to_nat (zlength got)) with (length got)
      by (unfold zlength; rewrite Nat2Z.id; reflexivity).
    rewrite firstn_all. reflexivity.
Qed.

End TransportFailure.

(** ** Decoders *)

Lemma skipn_payload (m : vmc96_message_t) (k : nat) :
  0 <= data_length m <= zlength (data m) ->
  skipn k (payload_of m) = firstn (Z.to_nat (data_length m) - k) (skipn k (data m)).
Proof. intros _. unfold payload_of. apply skipn_firstn_comm. Qed.

(** The tail of the two version functions on a payload of [n >= 1] bytes
    and a buffer of at least [n] bytes. *)
Lemma copy_version_ok (p : vmc96_message_t) (version : list Z) :
  1 <= data_length p <= zlength (data p) ->
  data_length p <= zlength version ->
  copy_version p version
  = Some (skipn 1 (payload_of p) ++ 0 :: skipn (Z.to_nat (data_length p)) version).
Proof.
  intros Hdl Hver. unfold copy_version.
  destruct version as [|x rest]; [unfold zlength in Hver; cbn [length] in Hver; lia|].
  assert (Hrest : zlength (x :: rest) = zlength rest + 1)
    by (unfold zlength; cbn [length]; lia).
  pose proof (array_set_app [] rest x 0) as E0.
  change (zlength (@nil Z)) with 0 in E0. cbn [app] in E0. rewrite E0. cbn [bind].
  replace (0 <? data_length p) with true by (symmetry; apply Z.ltb_lt; lia).
  assert (Hz : zlength (0 :: rest) = zlength rest + 1)
    by (unfold zlength; cbn [length]; lia).
  rewrite memcpy_ok by lia. cbn [bind].
  change (Z.to_nat 0) with 0%nat. change (Z.to_nat 1) with 1%nat.
  cbn [firstn app]. rewrite Z.add_0_l.
  set (copied := firstn (Z.to_nat (data_length p - 1)) (skipn 1 (data p))).
  assert (Hcopied : zlength copied = data_length p - 1).
  { unfold copied, zlength in *. rewrite length_firstn, length_skipn. lia. }
  assert (Htail : exists y post,
            skipn (Z.to_nat (data_length p - 1)) (0 :: rest) = y :: post /\
            post = skipn (Z.to_nat (data_length p)) (x :: rest)).
  { replace (Z.to_nat (data_length p)) with (S (Z.to_nat (data_length p - 1))) by lia.
    change (skipn (S (Z.to_nat (data_length p - 1))) (x :: rest))
      with (skipn (Z.to_nat (data_length p - 1)) rest).
    destruct (Z.to_nat (data_length p - 1)) as [|j] eqn:Ej.
    - exists 0, rest. split; reflexivity.
    - change (skipn (S j) (0 :: rest)) with (skipn j rest).
      assert (Hj : (j < length rest)%nat) by (unfold zlength in *; lia).
      exists (nth j rest 0), (skipn (S j) rest). split; [|reflexivity].
      apply skipn_nth_cons. exact Hj. }
  destruct Htail as (y & post & Hsk & ->). rewrite Hsk.
  rewrite <- Hcopied at 1. rewrite array_set_app. f_equal. f_equal.
  unfold copied. rewrite skipn_payload by lia. f_equal. lia.
Qed.

Section Decoders.

Context {ctx : Type} `{Ftdi ctx}.
Variable char_signed : bool.

(** X9: after a successful version exchange with relay 0, relay 1 or the
    motor array, the caller's buffer holds the payload without its first
    byte, then a terminating zero at index [n - 1], where [n >= 1] is the
    payload length; the bytes from index [n] on are untouched.  The buffer
    has to hold at least [n] bytes. *)
Theorem version_string_decoded (vmc96 vmc96' : VMC96_t ctx) (version : list Z) :
  let n := data_length (response vmc96') in
  let decoded :=
    skipn 1 (payload_of (response vmc96')) ++ 0 :: skipn (Z.to_nat n) version in
  1 <= n -> n <= zlength version ->
  (forall id, id = 0 \/ id = 1 ->
     vmc96_send_message char_signed vmc96
       (to_uchar (VMC96_CONTROLLER_RELAY_BASE_ADDRESS + id))
       VMC96_COMMAND_KERNEL_VERSION = Some (VMC96_SUCCESS, vmc96') ->
     vmc96_relay_get_version char_signed vmc96 id version
       = Some (VMC96_SUCCESS, vmc96', decoded))
  /\
  (vmc96_send_message char_signed vmc96
     VMC96_CONTROLLER_MOTOR_ARRAY VMC96_COMMAND_KERNEL_VERSION
     = Some (VMC96_SUCCESS, vmc96') ->
   vmc96_motor_get_version char_signed vmc96 version
     = Some (VMC96_SUCCESS, vmc96', decoded)).
Proof.
  intros n decoded Hn Hver. split.
  - intros id Hid Hsend.
    assert (Ha : addressed (to_uchar (VMC96_CONTROLLER_RELAY_BASE_ADDRESS + id))).
    { destruct Hid as [-> | ->]; [left | right; left]; reflexivity. }
    pose proof (send_message_success_payload_fits char_signed _ _ _ _ Ha Hsend) as Hfit.
    unfold vmc96_relay_get_version. rewrite Hsend. cbn [bind fst snd is_success negb].
    rewrite copy_version_ok by (fold n; lia). reflexivity.
  - intros Hsend.
    pose proof (send_message_success_payload_fits char_signed _ _ _ _
                  (or_intror (or_intror eq_refl)) Hsend) as Hfit.
    unfold vmc96_motor_get_version. rewrite Hsend. cbn [bind fst snd is_success negb].
    rewrite copy_version_ok by (fold n; lia). reflexivity.
Qed.

(** X10: after a successful opto-line exchange the four bytes of the
    caller's word are payload bytes 1 to 4 when the payload has exactly
    five bytes, and zero for every other payload length. *)
Theorem opto_line_status_decoded (vmc96 vmc96' : VMC96_t ctx) (status : list Z) :
  vmc96_send_message char_signed vmc96
    VMC96_CONTROLLER_MOTOR_ARRAY VMC96_COMMAND_MOTOR_OPTO_LINE_STATUS
    = Some (VMC96_SUCCESS, vmc96') ->
  zlength status = 4 ->
  vmc96_motor_opto_line_status char_signed vmc96 status
  = Some (VMC96_SUCCESS, vmc96',
          if data_length (response vmc96') =? 5
          then skipn 1 (payload_of (response vmc96'))
          else [0; 0; 0; 0]).
Proof.
  intros Hsend Hst.
  pose proof (send_message_success_payload_fits char_signed _ _ _ _
                (or_intror (or_intror eq_refl)) Hsend) as Hfit.
  unfold vmc96_motor_opto_line_status. rewrite Hsend.
  cbn [bind fst snd is_success negb].
  assert (Hzero : memset status 0 4 = Some [0; 0; 0; 0]).
  { unfold memset. rewrite Hst. cbn [Z.leb Z.compare Pos.compare Pos.compare_cont andb].
    rewrite skipn_all2 by (unfold zlength in Hst; lia). reflexivity. }
  rewrite Hzero. cbn [bind].
  destruct (Z.eqb_spec (data_length (response vmc96')) 5) as [E | E]; [|reflexivity].
  rewrite memcpy_ok by (change (zlength [0; 0; 0; 0]) with 4; lia).
  cbn [bind]. do 2 f_equal. rewrite skipn_payload by lia. rewrite E.
  change (Z.to_nat 0) with 0%nat. change (Z.to_nat 1) with 1%nat.
  change (Z.to_nat (5 - 1)) with 4%nat. change (Z.to_nat (0 + (5 - 1))) with 4%nat.
  change (Z.to_nat 5 - 1)%nat with 4%nat.
  cbn [firstn skipn app]. apply app_nil_r.
Qed.

(** X11: a motor-status reply whose payload has fewer than two bytes is
    not an error: [vmc96_motor_get_status] returns success with a status
    struct that is all zeros, no current and no active motor. *)
Theorem short_status_payload_is_zero_status (vmc96 vmc96' : VMC96_t ctx)
    (status : VMC96_motor_array_status_t) :
  vmc96_send_message char_signed vmc96
    VMC96_CONTROLLER_MOTOR_ARRAY VMC96_COMMAND_MOTOR_STATUS_REQUEST
    = Some (VMC96_SUCCESS, vmc96') ->
  data_length (response vmc96') < 2 ->
  vmc96_motor_get_status char_signed vmc96 status
    = Some (VMC96_SUCCESS, vmc96', zero_status status) /\
  current_ma (zero_status status) = 0 /\
  active_motors (zero_status status) = [].
Proof.
  intros Hsend Hdl. unfold vmc96_motor_get_status. rewrite Hsend.
  cbn [bind fst snd is_success negb].
  replace (2 <=? data_length (response vmc96')) with false
    by (symmetry; apply Z.leb_gt; exact Hdl).
  repeat split.
Qed.

(** X12: for a relay id whose address 0x26 + id is none of 0x00, 0x26,
    0x27, 0x30, a successful [vmc96_relay_get_version] does not report what
    the device sent: the string is decoded from the payload the previous
    exchange left in the session, and that payload is still there
    afterwards. *)
Theorem unlisted_relay_version_is_stale (vmc96 vmc96' : VMC96_t ctx) (id : Z)
    (version version' : list Z) :
  unlisted (to_uchar (VMC96_CONTROLLER_RELAY_BASE_ADDRESS + id)) ->
  vmc96_relay_get_version char_signed vmc96 id version
    = Some (VMC96_SUCCESS, vmc96', version') ->
  copy_version (response vmc96) version = Some version' /\
  payload_of (response vmc96') = payload_of (response vmc96).
Proof.
  intros Hun Hop. unfold vmc96_relay_get_version in Hop.
  destruct (vmc96_send_message _ _ _ _) as [[r v1]|] eqn:Hsend; cbn [bind] in Hop;
    [|discriminate Hop].
  cbn [fst snd] in Hop.
  destruct r; cbn [is_success negb] in Hop; try discriminate Hop.
  destruct (copy_version (response v1) version) as [out|] eqn:Hcopy;
    cbn [bind] in Hop; [|discriminate Hop].
  injection Hop as <- <-.
  unfold vmc96_send_message in Hsend. apply send_message_ex_inv in Hsend.
  destruct Hsend as (sent & Hid & Hd & Hdl & _ & [[_ ->] | Hp]).
  - unfold copy_version, payload_of in *. rewrite Hd, Hdl in *. split; [exact Hcopy|].
    reflexivity.
  - destruct Hun as (U0 & U1 & U2 & U3).
    rewrite parse_unlisted in Hp.
    + injection Hp as <-. unfold copy_version, payload_of in *.
      rewrite Hd, Hdl in *. split; [exact Hcopy | reflexivity].
    + rewrite Hid. exact U0.
    + rewrite Hid. unfold addressed.
      intros [E | [E | E]]; [apply U1 | apply U2 | apply U3]; exact E.
Qed.

End Decoders.

(** ** The frame of each operation *)

Section OperationFrames.

Variable char_signed : bool.
Variable vmc96 : VMC96_t scripted.

Hypothesis Hmessage : message_sized (message vmc96).
Hypothesis Hresponse : zlength (raw (response vmc96)) = VMC96_MESSAGE_MAX_LEN.

Lemma plain_exchange_sends (address cmd : Z) (r : vmc96_code)
    (vmc96' : VMC96_t scripted) :
  is_uchar address -> is_uchar cmd ->
  vmc96_send_message char_signed vmc96 address cmd = Some (r, vmc96') ->
  sends_frame vmc96 address cmd [] vmc96'.
Proof.
  intros Ha Hc Hx. unfold sends_frame, vmc96_send_message in *.
  apply (exchange_calls_recorded char_signed vmc96 address cmd None 0
           Hmessage Hresponse I r vmc96' Ha Hc (Forall_nil _) Hx).
Qed.

Lemma payload_exchange_sends (address cmd : Z) (payload : list Z) (r : vmc96_code)
    (vmc96' : VMC96_t scripted) :
  is_uchar address -> is_uchar cmd -> Forall is_uchar payload ->
  1 <= zlength payload <= 250 ->
  vmc96_send_message_ex char_signed vmc96 address cmd (Some payload) (zlength payload)
    = Some (r, vmc96') ->
  sends_frame vmc96 address cmd payload vmc96'.
Proof.
  intros Ha Hc Hp Hlen Hx. unfold sends_frame.
  assert (Hpay : request_payload (Some payload) (zlength payload) = payload).
  { cbn [request_payload].
    replace (0 <? zlength payload) with true by (symmetry; apply Z.ltb_lt; lia).
    unfold zlength. rewrite Nat2Z.id. apply firstn_all. }
  assert (Hfit : request_fits (Some payload) (zlength payload))
    by (cbn [request_fits]; lia).
  rewrite <- Hpay at 1.
  apply (exchange_calls_recorded char_signed vmc96 address cmd (Some payload)
           (zlength payload) Hmessage Hresponse Hfit r vmc96').
  - exact Ha.
  - exact Hc.
  - rewrite Hpay. exact Hp.
  - exact Hx.
Qed.

Lemma relay_address_uchar (id : Z) :
  is_uchar (to_uchar (VMC96_CONTROLLER_RELAY_BASE_ADDRESS + id)).
Proof. apply to_uchar_range. Qed.

(** X13: the request each operation puts on the wire.  Relay operations
    go to address (0x26 + id) mod 256 with command 0x00 (ping), 0x02
    (version), 0x05 (reset) and 0x11 plus one byte 1 or 0 (control); motor
    array operations go to 0x30 with 0x00, 0x02, 0x05, 0x10 (status), 0x12
    (stop all) and 0x15 (opto lines); the global reset goes to 0x00 with
    command 0x01 and the byte 0xFF.  Operations without payload always send
    five bytes, whatever an earlier request left in the session. *)
Theorem operation_frames :
  (forall id r vmc96',
     vmc96_relay_ping char_signed vmc96 id = Some (r, vmc96') ->
     sends_frame vmc96 (to_uchar (0x26 + id)) 0x00 [] vmc96')
  /\
  (forall id version r vmc96' version',
     vmc96_relay_get_version char_signed vmc96 id version
       = Some (r, vmc96', version') ->
     sends_frame vmc96 (to_uchar (0x26 + id)) 0x02 [] vmc96')
  /\
  (forall id r vmc96',
     vmc96_relay_reset char_signed vmc96 id = Some (r, vmc96') ->
     sends_frame vmc96 (to_uchar (0x26 + id)) 0x05 [] vmc96')
  /\
  (forall id state r vmc96',
     vmc96_relay_control char_signed vmc96 id state = Some (r, vmc96') ->
     sends_frame vmc96 (to_uchar (0x26 + id)) 0x11 [if state then 1 else 0] vmc96')
  /\
  (forall r vmc96',
     vmc96_motor_ping char_signed vmc96 = Some (r, vmc96') ->
     sends_frame vmc96 0x30 0x00 [] vmc96')
  /\
  (forall version r vmc96' version',
     vmc96_motor_get_version char_signed vmc96 version
       = Some (r, vmc96', version') ->
     sends_frame vmc96 0x30 0x02 [] vmc96')
  /\
  (forall r vmc96',
     vmc96_motor_reset char_signed vmc96 = Some (r, vmc96') ->
     sends_frame vmc96 0x30 0x05 [] vmc96')
  /\
  (forall status r vmc96' status',
     vmc96_motor_get_status char_signed vmc96 status = Some (r, vmc96', status') ->
     sends_frame vmc96 0x30 0x10 [] vmc96')
  /\
  (forall r vmc96',
     vmc96_motor_stop_all char_signed vmc96 = Some (r, vmc96') ->
     sends_frame vmc96 0x30 0x12 [] vmc96')
  /\
  (forall status r vmc96' status',
     vmc96_motor_opto_line_status char_signed vmc96 status
       = Some (r, vmc96', status') ->
     sends_frame vmc96 0x30 0x15 [] vmc96')
  /\
  (forall r vmc96',
     vmc96_global_reset char_signed vmc96 = Some (r, vmc96') ->
     sends_frame vmc96 0x00 0x01 [0xFF] vmc96').
Proof.
  assert (Hbyte : forall z, 0 <= z < 256 -> is_uchar z) by (intros; assumption).
  repeat split.
  - intros id r v' Hx.
    apply (plain_exchange_sends _ _ r); [apply relay_address_uchar | apply Hbyte; lia |].
    exact Hx.
  - intros id version r v' out Hx. unfold vmc96_relay_get_version in Hx.
    destruct (vmc96_send_message _ _ _ _) as [[r0 v0]|] eqn:Hs; cbn [bind] in Hx;
      [|discriminate Hx].
    assert (v' = v0) as ->.
    { cbn [fst snd] in Hx. destruct (negb (is_success r0)).
      - injection Hx as _ <- _. reflexivity.
      - destruct (copy_version _ _); cbn [bind] in Hx; [|discriminate Hx].
        injection Hx as _ <- _. reflexivity. }
    apply (plain_exchange_sends _ _ r0); [apply relay_address_uchar | apply Hbyte; lia |].
    exact Hs.
  - intros id r v' Hx.
    apply (plain_exchange_sends _ _ r); [apply relay_address_uchar | apply Hbyte; lia |].
    exact Hx.
  - intros id state r v' Hx.
    apply (payload_exchange_sends _ _ _ r);
      [apply relay_address_uchar | apply Hbyte; lia | | | ].
    + apply Forall_cons; [|apply Forall_nil]. destruct state; apply Hbyte; lia.
    + unfold zlength. cbn [length]. lia.
    + exact Hx.
  - intros r v' Hx.
    apply (plain_exchange_sends _ _ r); [apply Hbyte; lia | apply Hbyte; lia |].
    exact Hx.
  - intros version r v' out Hx. unfold vmc96_motor_get_version in Hx.
    destruct (vmc96_send_message _ _ _ _) as [[r0 v0]|] eqn:Hs; cbn [bind] in Hx;
      [|discriminate Hx].
    assert (v' = v0) as ->.
    { cbn [fst snd] in Hx. destruct (negb (is_success r0)).
      - injection Hx as _ <- _. reflexivity.
      - destruct (copy_version _ _); cbn [bind] in Hx; [|discriminate Hx].
        injection Hx as _ <- _. reflexivity. }
    apply (plain_exchange_sends _ _ r0); [apply Hbyte; lia | apply Hbyte; lia |].
    exact Hs.
  - intros r v' Hx.
    apply (plain_exchange_sends _ _ r); [apply Hbyte; lia | apply Hbyte; lia |].
    exact Hx.
  - intros status r v' out Hx. unfold vmc96_motor_get_status in Hx.
    destruct (vmc96_send_message _ _ _ _) as [[r0 v0]|] eqn:Hs; cbn [bind] in Hx;
      [|discriminate Hx].
    assert (v' = v0) as ->.
    { cbn [fst snd] in Hx. destruct (negb (is_success r0)).
      - injection Hx as _ <- _. reflexivity.
      - destruct (2 <=? data_length (response v0)).
        + destruct (array_get _ _); cbn [bind] in Hx; [|discriminate Hx].
          match type of Hx with
          | (if ?c then _ else _) = _ => destruct c
          end.
          * injection Hx as _ <- _. reflexivity.
          * destruct (array_get _ _); cbn [bind] in Hx; [|discriminate Hx].
            destruct (status_loop _ _ _ _); cbn [bind] in Hx; [|discriminate Hx].
            injection Hx as _ <- _. reflexivity.
        + injection Hx as _ <- _. reflexivity. }
    apply (plain_exchange_sends _ _ r0); [apply Hbyte; lia | apply Hbyte; lia |].
    exact Hs.
  - intros r v' Hx.
    apply (plain_exchange_sends _ _ r); [apply Hbyte; lia | apply Hbyte; lia |].
    exact Hx.
  - intros status r v' out Hx. unfold vmc96_motor_opto_line_status in Hx.
    destruct (vmc96_send_message _ _ _ _) as [[r0 v0]|] eqn:Hs; cbn [bind] in Hx;
      [|discriminate Hx].
    assert (v' = v0) as ->.
    { cbn [fst snd] in Hx. destruct (negb (is_success r0)).
      - injection Hx as _ <- _. reflexivity.
      - destruct (memset _ _ _); cbn [bind] in Hx; [|discriminate Hx].
        destruct (data_length (response v0) =? 5).
        + destruct (memcpy _ _ _ _ _); cbn [bind] in Hx; [|discriminate Hx].
          injection Hx as _ <- _. reflexivity.
        + injection Hx as _ <- _. reflexivity. }
    apply (plain_exchange_sends _ _ r0); [apply Hbyte; lia | apply Hbyte; lia |].
    exact Hs.
  - intros r v' Hx.
    apply (payload_exchange_sends _ _ _ r);
      [apply Hbyte; lia | apply Hbyte; lia | | | ].
    + apply Forall_cons; [apply Hbyte; lia | apply Forall_nil].
    + unfold zlength. cbn [length]. lia.
    + exact Hx.
Qed.

(** X14: for coordinates inside the array (with at most 15 rows and 15
    columns) [vmc96_motor_run] sends command 0x13 to address 0x30 with the
    single byte (row + 1) * 16 + (col + 1); [vmc96_motor_pair_run] sends the
    two ids of (row, col1) and (row, col2) in that order in one frame. *)
Theorem motor_run_frames (ROWS COLS r c c2 : Z) :
  ROWS <= 15 -> COLS <= 15 -> 0 <= r -> 0 <= c -> 0 <= c2 ->
  VMC96_VALIDATE_MOTOR_COORDINATE ROWS COLS r c = true ->
  (forall code vmc96',
     vmc96_motor_run char_signed ROWS COLS vmc96 r c = Some (code, vmc96') ->
     sends_frame vmc96 0x30 0x13 [(r + 1) * 16 + (c + 1)] vmc96')
  /\
  (VMC96_VALIDATE_MOTOR_COORDINATE ROWS COLS r c2 = true ->
   forall code vmc96',
     vmc96_motor_pair_run char_signed ROWS COLS vmc96 r c c2 = Some (code, vmc96') ->
     sends_frame vmc96 0x30 0x13 [(r + 1) * 16 + (c + 1); (r + 1) * 16 + (c2 + 1)] vmc96').
Proof.
  intros HR HC Hr Hc Hc2 Hv.
  assert (Hid : forall col, 0 <= col ->
            VMC96_VALIDATE_MOTOR_COORDINATE ROWS COLS r col = true ->
            to_uchar (VMC96_GET_MOTOR_ID r col) = (r + 1) * 16 + (col + 1) /\
            is_uchar ((r + 1) * 16 + (col + 1))).
  { intros col Hcol Hvc. unfold VMC96_VALIDATE_MOTOR_COORDINATE in Hvc.
    apply andb_true_iff in Hvc. destruct Hvc as [H1 H2].
    apply Z.ltb_lt in H1. apply Z.ltb_lt in H2.
    rewrite motor_id_value.
    assert (Hu : is_uchar ((r + 1) * 16 + (col + 1))) by (unfold is_uchar; lia).
    split; [apply to_uchar_small; exact Hu | exact Hu]. }
  destruct (Hid c Hc Hv) as [E1 U1].
  split.
  - intros code v' Hx. unfold vmc96_motor_run in Hx.
    rewrite Hv, E1 in Hx. cbn [negb] in Hx.
    apply (payload_exchange_sends _ _ _ code); try assumption.
    + unfold is_uchar. lia.
    + unfold is_uchar. lia.
    + apply Forall_cons; [exact U1 | apply Forall_nil].
    + unfold zlength. cbn [length]. lia.
  - intros Hv2 code v' Hx. destruct (Hid c2 Hc2 Hv2) as [E2 U2].
    unfold vmc96_motor_pair_run in Hx.
    rewrite Hv, Hv2, E1, E2 in Hx. cbn [negb orb] in Hx.
    apply (payload_exchange_sends _ _ _ code); try assumption.
    + unfold is_uchar. lia.
    + unfold is_uchar. lia.
    + apply Forall_cons; [exact U1|]. apply Forall_cons; [exact U2 | apply Forall_nil].
    + unfold zlength. cbn [length]. lia.
Qed.

End OperationFrames.

(** ** Checksum and round trip *)

(** X15: for a buffer of bytes, [vmc96_calculate_checksum] over the first
    [buflen] bytes returns, once stored in a byte, the XOR of those bytes
    whatever the signedness of [char]; as an [int] it is that XOR where
    [char] is unsigned, and the XOR minus 256 as soon as its top bit is set
    where [char] is signed.  Over zero bytes it returns 0. *)
Theorem checksum_is_xor (char_signed : bool) (buf : list Z) (buflen : Z) :
  0 <= buflen <= zlength buf ->
  Forall is_uchar (firstn (Z.to_nat buflen) buf) ->
  let x := xor_all (firstn (Z.to_nat buflen) buf) in
  exists sum,
    vmc96_calculate_checksum char_signed buf buflen = Some sum /\
    to_uchar sum = x /\
    sum = (if char_signed && (128 <=? x) then x - 256 else x) /\
    (buflen = 0 -> sum = 0).
Proof.
  intros Hlen Hall x. unfold vmc96_calculate_checksum.
  replace ((0 <=? buflen) && (buflen <=? zlength buf)) with true
    by (symmetry; apply andb_true_iff; split; apply Z.leb_le; lia).
  eexists. split; [reflexivity|].
  pose proof (xor_all_uchar _ Hall) as Hx. fold x in Hx. unfold is_uchar in Hx.
  split; [apply stored_checksum; exact Hall|]. split.
  - destruct char_signed; cbn [andb].
    + rewrite checksum_loop_signed by exact Hall. fold x. unfold to_schar.
      destruct (Z.leb_spec 128 x); Z.div_mod_to_equations; lia.
    + rewrite checksum_loop_unsigned; [reflexivity | unfold is_uchar; lia | exact Hall].
  - intros ->. reflexivity.
Qed.

Lemma xor_all_with_checksum (bytes : list Z) : xor_all (bytes ++ [xor_all bytes]) = 0.
Proof.
  rewrite xor_all_app, xor_all_cons.
  change (xor_all []) with 0. rewrite Z.lxor_0_r. apply Z.lxor_nilpotent.
Qed.

Section RoundTrip.

Context {ctx : Type}.
Variable char_signed : bool.
Variable vmc96 : VMC96_t ctx.

Hypothesis Hmessage : message_sized (message vmc96).
Hypothesis Haddress : is_uchar (id_controller (message vmc96)).
Hypothesis Hcommand : is_uchar (command (message vmc96)).
Hypothesis Hpayload : Forall is_uchar (payload_of (message vmc96)).

Lemma prepared_frame (prepared : VMC96_t ctx) :
  0 <= data_length (message vmc96) <= 250 ->
  vmc96_prepare_raw_message char_signed vmc96 = Some (VMC96_SUCCESS, prepared) ->
  let m := message vmc96 in
  let body := frame_header m ++ payload_of m in
  Forall is_uchar body /\ zlength body = data_length m + 4 /\
  exists tail,
    zlength tail = 250 - data_length m /\
    prepared = set_message vmc96
                 (mk_message (id_controller m) (command m) (data m) (data_length m)
                    (body ++ xor_all body :: tail) (data_length m + 5)).
Proof.
  intros Hdl Hprep m body.
  destruct (prepare_ok char_signed vmc96 Hmessage Hdl) as (tail & Htail & Heq).
  cbv zeta in Heq. fold m in Heq, Htail. fold body in Heq.
  assert (Hbody : Forall is_uchar body).
  { unfold body, frame_header. apply Forall_app. split; [|exact Hpayload].
    unfold is_uchar in Haddress, Hcommand. fold m in Haddress, Hcommand, Hdl.
    repeat (apply Forall_cons; [unfold is_uchar, VMC96_MESSAGE_STX; lia|]).
    apply Forall_nil. }
  rewrite stored_checksum in Heq by exact Hbody.
  rewrite Heq in Hprep. injection Hprep as <-.
  split; [exact Hbody|]. split.
  - unfold body, payload_of. rewrite zlength_app.
    destruct Hmessage as [Hd _]. unfold VMC96_MESSAGE_DATA_MAX_LEN in Hd.
    fold m in Hd. rewrite zlength_firstn_fits by (fold m in Hdl; lia).
    unfold zlength. cbn [frame_header length]. lia.
  - exists tail. split; [exact Htail | reflexivity].
Qed.

(** X16: the XOR of a complete built frame, checksum byte included, is
    zero: [vmc96_calculate_checksum] over all [raw_length] bytes of the
    frame built by [vmc96_prepare_raw_message] returns 0. *)
Theorem built_frame_sums_to_zero (prepared : VMC96_t ctx) :
  0 <= data_length (message vmc96) <= 250 ->
  vmc96_prepare_raw_message char_signed vmc96 = Some (VMC96_SUCCESS, prepared) ->
  vmc96_calculate_checksum char_signed (raw (message prepared))
    (raw_length (message prepared)) = Some 0.
Proof.
  intros Hdl Hprep.
  destruct (prepared_frame prepared Hdl Hprep) as (Hbody & Hlen & tail & Htail & ->).
  cbn [message set_message raw raw_length].
  set (body := frame_header (message vmc96) ++ payload_of (message vmc96)) in *.
  pose proof (zlength_nonneg tail) as Ht.
  assert (Hfull : zlength (body ++ xor_all body :: tail) = 255).
  { rewrite zlength_app.
    assert (zlength (xor_all body :: tail) = zlength tail + 1)
      by (unfold zlength; cbn [length]; lia).
    lia. }
  unfold vmc96_calculate_checksum. rewrite Hfull.
  replace ((0 <=? data_length (message vmc96) + 5)
           && (data_length (message vmc96) + 5 <=? 255)) with true
    by (symmetry; apply andb_true_iff; split; apply Z.leb_le; lia).
  f_equal.
  change (body ++ xor_all body :: tail) with (body ++ [xor_all body] ++ tail).
  rewrite app_assoc, firstn_exact.
  2:{ rewrite zlength_app. unfold zlength at 2. cbn [length]. lia. }
  assert (Hall : Forall is_uchar (body ++ [xor_all body])).
  { apply Forall_app. split; [exact Hbody|].
    apply Forall_cons; [apply xor_all_uchar; exact Hbody | apply Forall_nil]. }
  destruct char_signed.
  - rewrite checksum_loop_signed by exact Hall. rewrite xor_all_with_checksum.
    reflexivity.
  - rewrite checksum_loop_unsigned; [|unfold is_uchar; lia | exact Hall].
    apply xor_all_with_checksum.
Qed.

(** X17: a frame built for address 0x26, 0x27 or 0x30 with a payload of
    at most 249 bytes, when it comes back unchanged as the response, passes
    every check of the validator - provided [char] is unsigned or the
    checksum is below 0x80 - and the payload extracted from it is the
    command byte followed by the request payload. *)
Theorem echoed_frame_is_accepted (prepared : VMC96_t ctx) :
  let m := message vmc96 in
  addressed (id_controller m) ->
  zlength (data (response vmc96)) = VMC96_MESSAGE_DATA_MAX_LEN ->
  0 <= data_length m <= 249 ->
  vmc96_prepare_raw_message char_signed vmc96 = Some (VMC96_SUCCESS, prepared) ->
  char_signed = false \/ xor_all (frame_header m ++ payload_of m) < 128 ->
  exists vmc96',
    vmc96_parse_raw_response char_signed (loopback prepared)
      = Some (VMC96_SUCCESS, vmc96') /\
    payload_of (response vmc96') = command m :: payload_of m.
Proof.
  intros m Ha Hrd Hdl Hprep Hsign.
  destruct (prepared_frame prepared) as (Hbody & Hlen & tail & Htail & ->);
    [fold m; lia | exact Hprep |].
  fold m in Hbody, Hlen, Htail. 
  set (body := frame_header m ++ payload_of m) in *.
  pose proof (zlength_nonneg tail) as Ht.
  set (echo := loopback
                 (set_message vmc96
                    (mk_message (id_controller m) (command m) (data m) (data_length m)
                       (body ++ xor_all body :: tail) (data_length m + 5)))).
  assert (Hraw : raw (response echo) = body ++ [xor_all body] ++ tail) by reflexivity.
  assert (Hrl : raw_length (response echo) = data_length m + 5) by reflexivity.
  assert (Hid : id_controller (message echo) = id_controller m) by reflexivity.
  assert (Hfull : zlength (raw (response echo)) = 255).
  { rewrite Hraw, !zlength_app. unfold zlength at 2. cbn [length]. lia. }
  assert (Hpre : firstn (Z.to_nat (raw_length (response echo) - 1)) (raw (response echo))
                 = body).
  { rewrite Hraw, Hrl. apply firstn_exact. lia. }
  assert (Hlast : nth (Z.to_nat (raw_length (response echo) - 1)) (raw (response echo)) 0
                  = xor_all body).
  { rewrite Hraw, Hrl.
    replace (Z.to_nat (data_length m + 5 - 1)) with (length body + 0)%nat
      by (unfold zlength in Hlen; lia).
    rewrite app_nth2_plus. reflexivity. }
  assert (Hframe : frame_of (response echo) = body ++ [xor_all body]).
  { unfold frame_of. rewrite Hraw, Hrl, app_assoc. apply firstn_exact.
    rewrite zlength_app. unfold zlength at 2. cbn [length]. lia. }
  pose proof (parse_checksum_step char_signed echo) as Hstep. cbv zeta in Hstep.
  rewrite Hpre, Hlast, Z.eqb_refl in Hstep.
  replace (negb char_signed || (xor_all body <? 128)) with true in Hstep.
  2:{ symmetry. destruct Hsign as [-> | Hlow]; [reflexivity|].
      apply orb_true_iff. right. apply Z.ltb_lt. exact Hlow. }
  cbn [andb] in Hstep.
  eexists. split.
  - apply Hstep.
    + rewrite Hid. exact Ha.
    + split; [exact Hrd | exact Hfull].
    + rewrite Hrl. lia.
    + rewrite Hframe. apply Forall_app. split; [exact Hbody|].
      apply Forall_cons; [apply xor_all_uchar; exact Hbody | apply Forall_nil].
    + rewrite Hraw. reflexivity.
    + rewrite Hraw, Hid. reflexivity.
    + rewrite Hraw, Hrl. reflexivity.
  - cbn [response set_response].
    destruct (payload_of_parsed (response echo)) as [_ Hpay].
    + exact Hfull.
    + rewrite Hrl. lia.
    + rewrite Hraw, Hrl. reflexivity.
    + rewrite Hpay, Hpre. reflexivity.
Qed.

End RoundTrip.

(** ** Error strings *)

(** X18: [vmc96_get_error_code_string] gives every return code a message
    of its own, and "Unknown error." to no known code: the message
    identifies the code. *)
Theorem error_strings_identify_codes (a b : option vmc96_code) :
  vmc96_get_error_code_string a = vmc96_get_error_code_string b -> a = b.
Proof.
  destruct a as [[]|]; destruct b as [[]|]; intros E;
    solve [reflexivity | discriminate E].
Qed.

(** ** Session set-up *)

Section SetUp.

Context {ctx : Type}.
Variable env : setup_answers ctx.
Variable ppvmc96 : option (VMC96_t ctx).

Ltac setup_cases :=
  unfold vmc96_initialize;
  destruct (calloc_ok env); cbn [negb];
  [ destruct (ftdi_new_result env);
    [ destruct (Z.ltb_spec (ftdi_set_interface_ret env) 0);
      [ | destruct (Z.ltb_spec (ftdi_usb_open_ret env) 0);
          [ | destruct (Z.ltb_spec (ftdi_usb_reset_ret env) 0);
              [ | destruct (Z.ltb_spec (ftdi_set_baudrate_ret env) 0);
                  [ | destruct (Z.ltb_spec (ftdi_set_line_property_ret env) 0);
                      [ | destruct (Z.ltb_spec (ftdi_setflowctrl_ret env) 0) ] ] ] ] ]
    | ]
  | ].

(** X19: the code returned by [vmc96_initialize] names the first set-up
    step that failed, in the order allocation, [ftdi_new], set interface,
    open, reset, baud rate, line properties, flow control, whatever the
    later steps would have answered; it is success exactly when all eight
    succeed. *)
Theorem initialize_reports_first_failure :
  let code := fst (fst (vmc96_initialize env ppvmc96)) in
  let allocated := calloc_ok env = true /\ ftdi_new_result env <> None in
  (code = VMC96_ERROR_OUT_OF_MEMORY <-> calloc_ok env = false) /\
  (code = VMC96_ERROR_FTDI_INITIALIZE <->
     calloc_ok env = true /\ ftdi_new_result env = None) /\
  (code = VMC96_ERROR_FTDI_SET_INTERFACE <->
     allocated /\ ftdi_set_interface_ret env < 0) /\
  (code = VMC96_ERROR_FTDI_OPEN_USB_DEVICE <->
     allocated /\ 0 <= ftdi_set_interface_ret env /\ ftdi_usb_open_ret env < 0) /\
  (code = VMC96_ERROR_FTDI_RESET_USB <->
     allocated /\ 0 <= ftdi_set_interface_ret env /\ 0 <= ftdi_usb_open_ret env /\
     ftdi_usb_reset_ret env < 0) /\
  (code = VMC96_ERROR_FTDI_SET_BAUDRATE <->
     allocated /\ 0 <= ftdi_set_interface_ret env /\ 0 <= ftdi_usb_open_ret env /\
     0 <= ftdi_usb_reset_ret env /\ ftdi_set_baudrate_ret env < 0) /\
  (code = VMC96_ERROR_FTDI_SET_LINE_PROPS <->
     allocated /\ 0 <= ftdi_set_interface_ret env /\ 0 <= ftdi_usb_open_ret env /\
     0 <= ftdi_usb_reset_ret env /\ 0 <= ftdi_set_baudrate_ret env /\
     ftdi_set_line_property_ret env < 0) /\
  (code = VMC96_ERROR_FTDI_SET_NO_FLOW <->
     allocated /\ 0 <= ftdi_set_interface_ret env /\ 0 <= ftdi_usb_open_ret env /\
     0 <= ftdi_usb_reset_ret env /\ 0 <= ftdi_set_baudrate_ret env /\
     0 <= ftdi_set_line_property_ret env /\ ftdi_setflowctrl_ret env < 0) /\
  (code = VMC96_SUCCESS <->
     allocated /\ 0 <= ftdi_set_interface_ret env /\ 0 <= ftdi_usb_open_ret env /\
     0 <= ftdi_usb_reset_ret env /\ 0 <= ftdi_set_baudrate_ret env /\
     0 <= ftdi_set_line_property_ret env /\ 0 <= ftdi_setflowctrl_ret env).
Proof.
  cbv zeta. setup_cases; cbn [fst snd];
    repeat match goal with
           | |- _ /\ _ => split
           | |- _ <-> _ => split; intros Hh
           end;
    repeat match goal with
           | Hc : _ /\ _ |- _ => destruct Hc
           end;
    try discriminate; try congruence; try lia;
    repeat split; try reflexivity; try discriminate; try lia.
Qed.

(** X20: on success [vmc96_initialize] hands out a zero-filled session
    over the context [ftdi_new] returned and has closed or freed nothing.
    When the allocation of the session fails it returns without touching
    the caller's pointer.  On every other failure it sets the caller's
    pointer to null, and the calls it made are a prefix of the set-up
    sequence followed by closing the device, freeing the libftdi context
    and freeing the session, in this order - on a null context when it was
    [ftdi_new] that failed. *)
Theorem initialize_cleans_up :
  let code := fst (fst (vmc96_initialize env ppvmc96)) in
  let result := snd (fst (vmc96_initialize env ppvmc96)) in
  let log := snd (vmc96_initialize env ppvmc96) in
  (code = VMC96_SUCCESS ->
     log = setup_sequence /\
     exists c, ftdi_new_result env = Some c /\
               result = Some (mk_vmc96 c blank_message blank_message)) /\
  (code = VMC96_ERROR_OUT_OF_MEMORY -> result = ppvmc96 /\ log = [Call_calloc]) /\
  (code <> VMC96_SUCCESS -> code <> VMC96_ERROR_OUT_OF_MEMORY ->
     result = None /\
     exists done skipped,
       done ++ skipped = setup_sequence /\
       log = done ++ error_cleanup
                       (match ftdi_new_result env with None => true | Some _ => false end)).
Proof.
  cbv zeta. setup_cases; cbn [fst snd]; (split; [|split]);
    try (intros Hh; discriminate Hh);
    try (intros Hh1 Hh2; congruence).
  - intros _ _. split; [reflexivity|].
    exists (firstn 4 setup_sequence), (skipn 4 setup_sequence).
    split; reflexivity.
  - intros _ _. split; [reflexivity|].
    exists (firstn 5 setup_sequence), (skipn 5 setup_sequence).
    split; reflexivity.
  - intros _ _. split; [reflexivity|].
    exists (firstn 6 setup_sequence), (skipn 6 setup_sequence).
    split; reflexivity.
  - intros _ _. split; [reflexivity|].
    exists (firstn 7 setup_sequence), (skipn 7 setup_sequence).
    split; reflexivity.
  - intros _ _. split; [reflexivity|].
    exists (firstn 8 setup_sequence), (skipn 8 setup_sequence).
    split; reflexivity.
  - intros _ _. split; [reflexivity|].
    exists setup_sequence, []. split; reflexivity.
  - intros _. split; [reflexivity|]. eexists. split; reflexivity.
  - intros _ _. split; [reflexivity|].
    exists (firstn 2 setup_sequence), (skipn 2 setup_sequence).
    split; reflexivity.
  - intros _. split; reflexivity.
Qed.

End SetUp.

(** ** Instances of the further properties *)

Ltac uchar_list :=
  repeat (apply Forall_cons; [unfold is_uchar; lia|]); apply Forall_nil.

Lemma accepted_response_is_valid_witness :
  5 <= raw_length (response accepted_reply) /\
  nth 0 (raw (response accepted_reply)) 0 = 0x35 /\
  nth 1 (raw (response accepted_reply)) 0 = id_controller (message accepted_reply) /\
  nth 2 (raw (response accepted_reply)) 0 = raw_length (response accepted_reply) /\
  nth (Z.to_nat (raw_length (response accepted_reply) - 1))
      (raw (response accepted_reply)) 0
    = xor_all (firstn (Z.to_nat (raw_length (response accepted_reply) - 1))
                 (raw (response accepted_reply))).
Proof.
  apply (accepted_response_is_valid true accepted_reply
           (session_after (vmc96_parse_raw_response true accepted_reply) accepted_reply)).
  - right. right. reflexivity.
  - change (Forall is_uchar [0x35; 0x30; 0x06; 0x10; 0x01; 0x12]). uchar_list.
  - vm_compute. reflexivity.
Defined.

Lemma foreign_address_invalid_source_witness :
  vmc96_parse_raw_response true foreign_reply
    = Some (VMC96_ERROR_RESPONSE_INVALID_SOURCE,
            set_response foreign_reply (parsed_response (response foreign_reply))).
Proof.
  apply (foreign_address_invalid_source true foreign_reply).
  - right. right. reflexivity.
  - split; reflexivity.
  - vm_compute. split; discriminate.
  - vm_compute. split; discriminate.
  - reflexivity.
  - vm_compute. discriminate.
Defined.

Lemma single_byte_corruption_rejected_witness :
  vmc96_parse_raw_response true (damaged accepted_reply 4 0x02)
    = Some (VMC96_ERROR_RESPONSE_INVALID_CHECKSUM,
            set_response (damaged accepted_reply 4 0x02)
              (parsed_response (response (damaged accepted_reply 4 0x02)))).
Proof.
  apply (proj2 (single_byte_corruption_rejected true accepted_reply
                  (session_after (vmc96_parse_raw_response true accepted_reply)
                     accepted_reply) 4 0x02
                  (or_intror (or_intror eq_refl))
                  (conj eq_refl eq_refl)
                  ltac:(vm_compute; discriminate)
                  ltac:(change (Forall is_uchar [0x35; 0x30; 0x06; 0x10; 0x01; 0x12]);
                        uchar_list)
                  ltac:(vm_compute; reflexivity)
                  ltac:(vm_compute; lia)
                  ltac:(unfold is_uchar; lia)
                  ltac:(vm_compute; discriminate))).
  lia.
Defined.

Lemma broadcast_reply_verbatim_witness :
  exists vmc96',
    vmc96_parse_raw_response true broadcast_reply = Some (VMC96_SUCCESS, vmc96') /\
    data_length (response vmc96') = 2 /\
    payload_of (response vmc96') = [0xAA; 0xBB] /\
    id_controller (response vmc96') = 0.
Proof.
  apply (proj2 (broadcast_reply_verbatim true broadcast_reply eq_refl
                  (conj eq_refl eq_refl) ltac:(vm_compute; split; discriminate))).
  vm_compute. discriminate.
Defined.

Lemma exchange_call_sequence_witness :
  calls (ftdi (session_after
                 (vmc96_send_message_ex true silent_device 0x30 0x13 (Some [0x11]) 1)
                 silent_device))
  = [CallPurge; CallWrite [0x35; 0x30; 0x06; 0x13; 0x11; 0x01]; CallRead 255].
Proof.
  apply (exchange_call_sequence true silent_device 0x30 0x13 (Some [0x11]) 1
           (conj eq_refl eq_refl) eq_refl
           ltac:(cbn [request_fits]; change (zlength [0x11]) with 1; lia)
           VMC96_ERROR_RESPONSE_INVALID_LENGTH
           (session_after
              (vmc96_send_message_ex true silent_device 0x30 0x13 (Some [0x11]) 1)
              silent_device)
           ltac:(unfold is_uchar; lia) ltac:(unfold is_uchar; lia)
           ltac:(change (Forall is_uchar [0x11]); uchar_list)
           ltac:(vm_compute; reflexivity)).
Defined.

Lemma transport_failure_aborts_witness :
  exists vmc96',
    vmc96_send_message_ex true interrupted_session 0x30 0x00 None 0
      = Some (VMC96_ERROR_FTDI_READ_DATA, vmc96') /\
    ftdi vmc96' = tt /\
    data (response vmc96') = data (response interrupted_session) /\
    data_length (response vmc96') = data_length (response interrupted_session) /\
    id_controller (response vmc96') = id_controller (response interrupted_session) /\
    raw_length (response vmc96') = raw_length (response interrupted_session) /\
    raw (response vmc96')
    = firstn 255 [0xDE; 0xAD]
      ++ skipn (length (firstn 255 [0xDE; 0xAD])) (raw (response interrupted_session)).
Proof.
  assert (Hpurge : 0 <= fst (ftdi_usb_purge_buffers (ftdi interrupted_session)))
    by (vm_compute; discriminate).
  assert (Hwrite :
            0 <= fst (ftdi_write_data
                        (snd (ftdi_usb_purge_buffers (ftdi interrupted_session)))
                        (built_frame true 0x30 0x00 None 0)))
    by (vm_compute; discriminate).
  exact (proj2 (proj2 (transport_failure_aborts true interrupted_session 0x30 0x00
                         None 0 (conj eq_refl eq_refl) eq_refl I))
           [0xDE; 0xAD] Hpurge Hwrite eq_refl).
Defined.

Lemma short_answer_invalid_length_witness :
  exists vmc96',
    vmc96_send_message_ex true silent_device 0x30 0x00 None 0
      = Some (VMC96_ERROR_RESPONSE_INVALID_LENGTH, vmc96') /\
    frame_of (response vmc96') = [] /\
    data (response vmc96') = data (response silent_device) /\
    data_length (response vmc96') = data_length (response silent_device).
Proof.
  apply (short_answer_invalid_length true silent_device 0x30 0x00 None 0
           (conj eq_refl eq_refl) eq_refl I []).
  - right. right. reflexivity.
  - vm_compute. discriminate.
  - vm_compute. discriminate.
  - reflexivity.
  - cbn [length]. lia.
Defined.

Lemma version_string_decoded_witness :
  vmc96_motor_get_version false version_reply (repeat 0xCC 8)
  = Some (VMC96_SUCCESS,
          session_after (vmc96_send_message false version_reply 0x30 0x02) version_reply,
          [86; 49; 46; 48; 0; 0xCC; 0xCC; 0xCC]).
Proof.
  pose (final := session_after (vmc96_send_message false version_reply 0x30 0x02)
                    version_reply).
  assert (Hn : 1 <= data_length (response final)) by (vm_compute; discriminate).
  assert (Hroom : data_length (response final) <= zlength (repeat 0xCC 8))
    by (vm_compute; discriminate).
  apply (proj2 (version_string_decoded false version_reply final (repeat 0xCC 8)
                  Hn Hroom)).
  vm_compute. reflexivity.
Defined.

Lemma opto_line_status_decoded_witness :
  vmc96_motor_opto_line_status false opto_reply [9; 9; 9; 9]
  = Some (VMC96_SUCCESS,
          session_after (vmc96_send_message false opto_reply 0x30 0x15) opto_reply,
          [1; 2; 3; 4]).
Proof.
  pose (final := session_after (vmc96_send_message false opto_reply 0x30 0x15)
                    opto_reply).
  assert (Hrun : vmc96_send_message false opto_reply
                   VMC96_CONTROLLER_MOTOR_ARRAY VMC96_COMMAND_MOTOR_OPTO_LINE_STATUS
                 = Some (VMC96_SUCCESS, final)) by (vm_compute; reflexivity).
  exact (opto_line_status_decoded false opto_reply final [9; 9; 9; 9] Hrun eq_refl).
Defined.

Lemma short_status_payload_is_zero_status_witness :
  vmc96_motor_get_status false bare_status_reply stale_status
    = Some (VMC96_SUCCESS,
            session_after (vmc96_send_message false bare_status_reply 0x30 0x10)
              bare_status_reply,
            zero_status stale_status) /\
  current_ma (zero_status stale_status) = 0 /\
  active_motors (zero_status stale_status) = [].
Proof.
  apply (short_status_payload_is_zero_status false bare_status_reply
           (session_after (vmc96_send_message false bare_status_reply 0x30 0x10)
              bare_status_reply)
           stale_status).
  - vm_compute. reflexivity.
  - vm_compute. reflexivity.
Defined.

Lemma unlisted_relay_version_is_stale_witness :
  copy_version (response garbage_after_version) (repeat 0xCC 8)
    = Some [86; 49; 46; 48; 0; 0xCC; 0xCC; 0xCC] /\
  payload_of
    (response (session_after
                 (vmc96_send_message false garbage_after_version 0x28 0x02)
                 garbage_after_version))
  = payload_of (response garbage_after_version).
Proof.
  apply (unlisted_relay_version_is_stale false garbage_after_version
           (session_after (vmc96_send_message false garbage_after_version 0x28 0x02)
              garbage_after_version)
           2 (repeat 0xCC 8) [86; 49; 46; 48; 0; 0xCC; 0xCC; 0xCC]).
  - repeat split; vm_compute; discriminate.
  - vm_compute. reflexivity.
Defined.

Lemma operation_frames_witness :
  calls (ftdi (session_after (vmc96_relay_ping true silent_device 0) silent_device))
  = calls (ftdi silent_device)
    ++ exchange_calls (ftdi silent_device) (wire_frame (to_uchar (0x26 + 0)) 0x00 []).
Proof.
  apply (proj1 (operation_frames true silent_device (conj eq_refl eq_refl) eq_refl)
           0 VMC96_ERROR_RESPONSE_INVALID_LENGTH
           (session_after (vmc96_relay_ping true silent_device 0) silent_device)).
  vm_compute. reflexivity.
Defined.

Lemma motor_run_frames_witness :
  calls (ftdi (session_after (vmc96_motor_run true 8 12 silent_device 7 11)
                 silent_device))
  = calls (ftdi silent_device)
    ++ exchange_calls (ftdi silent_device) (wire_frame 0x30 0x13 [(7 + 1) * 16 + (11 + 1)]).
Proof.
  apply (proj1 (motor_run_frames true silent_device (conj eq_refl eq_refl) eq_refl
                  8 12 7 11 0
                  ltac:(lia) ltac:(lia) ltac:(lia) ltac:(lia) ltac:(lia) eq_refl)
           VMC96_ERROR_RESPONSE_INVALID_LENGTH
           (session_after (vmc96_motor_run true 8 12 silent_device 7 11) silent_device)).
  vm_compute. reflexivity.
Defined.

Lemma checksum_is_xor_witness :
  exists sum,
    vmc96_calculate_checksum true [0x35; 0x30; 0x05; 0x80] 4 = Some sum /\
    to_uchar sum = 0x80 /\
    sum = -128 /\
    (4 = 0 -> sum = 0).
Proof.
  apply (checksum_is_xor true [0x35; 0x30; 0x05; 0x80] 4).
  - change (zlength [0x35; 0x30; 0x05; 0x80]) with 4. lia.
  - change (Forall is_uchar [0x35; 0x30; 0x05; 0x80]). uchar_list.
Defined.

Lemma built_frame_sums_to_zero_witness :
  vmc96_calculate_checksum true
    (raw (message (session_after (vmc96_prepare_raw_message true motor_run_request)
                     motor_run_request)))
    (raw_length (message (session_after (vmc96_prepare_raw_message true motor_run_request)
                            motor_run_request)))
  = Some 0.
Proof.
  apply (built_frame_sums_to_zero true motor_run_request
           (conj eq_refl eq_refl)
           ltac:(unfold is_uchar; cbn; lia) ltac:(unfold is_uchar; cbn; lia)
           ltac:(change (Forall is_uchar [0x11]); uchar_list)
           (session_after (vmc96_prepare_raw_message true motor_run_request)
              motor_run_request)).
  - cbn. lia.
  - vm_compute. reflexivity.
Defined.

Lemma echoed_frame_is_accepted_witness :
  exists vmc96',
    vmc96_parse_raw_response true
      (loopback (session_after (vmc96_prepare_raw_message true motor_run_request)
                   motor_run_request))
      = Some (VMC96_SUCCESS, vmc96') /\
    payload_of (response vmc96') = [0x13; 0x11].
Proof.
  apply (echoed_frame_is_accepted true motor_run_request
           (conj eq_refl eq_refl)
           ltac:(unfold is_uchar; cbn; lia) ltac:(unfold is_uchar; cbn; lia)
           ltac:(change (Forall is_uchar [0x11]); uchar_list)
           (session_after (vmc96_prepare_raw_message true motor_run_request)
              motor_run_request)).
  - right. right. reflexivity.
  - reflexivity.
  - cbn. lia.
  - vm_compute. reflexivity.
  - right. vm_compute. reflexivity.
Defined.

Lemma error_strings_identify_codes_witness :
  Some VMC96_ERROR_RESPONSE_MALFORMED = Some VMC96_ERROR_RESPONSE_MALFORMED.
Proof.
  apply (error_strings_identify_codes (Some VMC96_ERROR_RESPONSE_MALFORMED)
           (Some VMC96_ERROR_RESPONSE_MALFORMED)).
  reflexivity.
Defined.

Lemma initialize_reports_first_failure_witness :
  fst (fst (vmc96_initialize open_refused None)) = VMC96_ERROR_FTDI_OPEN_USB_DEVICE.
Proof.
  apply (proj2 (proj1 (proj2 (proj2 (proj2
           (initialize_reports_first_failure open_refused None)))))).
  repeat split; try discriminate; vm_compute; try discriminate; reflexivity.
Defined.

Lemma initialize_cleans_up_witness :
  snd (fst (vmc96_initialize open_refused (Some (mk_vmc96 tt blank_message blank_message))))
    = None /\
  exists done skipped,
    done ++ skipped = setup_sequence /\
    snd (vmc96_initialize open_refused (Some (mk_vmc96 tt blank_message blank_message)))
    = done ++ error_cleanup false.
Proof.
  apply (proj2 (proj2 (initialize_cleans_up open_refused
                         (Some (mk_vmc96 tt blank_message blank_message)))));
    vm_compute; discriminate.
Defined.
